(** * The ADK command-line client (src/google/adk/cli/cli_client.py)

    A shallow embedding of [ApiClient] (the transport adapter, the one-shot
    resource operations and the server-sent-event streaming decoder) and of
    the commands that print plain lines ([agent run], the listing commands,
    the commands that delete, create or upload), followed by the properties
    of the specification that concern them and by further properties of the
    code.

    Python data is represented as follows.
    - [bytes] is a Rocq [string] (a sequence of 8-bit characters);
    - [str] is a list of Unicode code points ([N]);
    - the values produced by [json.loads] are the inductive type [pyval];
      a [dict] is an association list in insertion order with unique keys;
    - a raised exception is an [exn]; a computation is a function of the
      runtime (server, file system) and of a state, to an outcome and a
      state: an exception leaves the state as it was when it was raised. *)

From Stdlib Require Import List String Ascii ZArith NArith Lia Bool.
From Stdlib Require Import DecimalString DecimalZ DecimalPos.
Import ListNotations.

Set Warnings "-register-all".
Local Open Scope N_scope.

(** ** Text *)

Definition bytes := string.
Definition str := list N.

(** The code points of a literal written with 7-bit characters. *)
Definition u (s : string) : str := map N_of_ascii (list_ascii_of_string s).

(** The source quotes JSON text with the double quote; in literals of this
    file the apostrophe stands for it and [dq] puts the double quote back. *)
Definition dq_char (c : ascii) : ascii :=
  if Ascii.eqb c "'"%char then ascii_of_nat 34 else c.

Fixpoint dq (s : string) : string :=
  match s with
  | EmptyString => EmptyString
  | String c r => String (dq_char c) (dq r)
  end.

Fixpoint str_eqb (a b : str) : bool :=
  match a, b with
  | [], [] => true
  | x :: a', y :: b' => (x =? y) && str_eqb a' b'
  | _, _ => false
  end.

(** [s.startswith(p)] *)
Fixpoint startswith (s p : str) : bool :=
  match p, s with
  | [], _ => true
  | y :: p', x :: s' => (x =? y) && startswith s' p'
  | _ :: _, [] => false
  end.

(** [str.isspace] for one code point, the set used by [str.strip()]. *)
Definition is_space (c : N) : bool :=
  ((9 <=? c) && (c <=? 13)) || ((28 <=? c) && (c <=? 32))
  || (c =? 133) || (c =? 160) || (c =? 5760)
  || ((8192 <=? c) && (c <=? 8202))
  || (c =? 8232) || (c =? 8233) || (c =? 8239) || (c =? 8287) || (c =? 12288).

Fixpoint lstrip (s : str) : str :=
  match s with
  | c :: s' => if is_space c then lstrip s' else s
  | [] => []
  end.

Definition rstrip (s : str) : str := rev (lstrip (rev s)).

(** [s.strip()] *)
Definition strip (s : str) : str := rstrip (lstrip s).

(** [s.rstrip("/")] *)
Fixpoint lstrip_slash (s : str) : str :=
  match s with
  | c :: s' => if c =? 47 then lstrip_slash s' else s
  | [] => []
  end.

Definition rstrip_slash (s : str) : str := rev (lstrip_slash (rev s)).

(** [str(n)] for an [int]. *)
Definition str_of_Z (z : Z) : str := u (NilZero.string_of_int (Z.to_int z)).

(** ** [bytes.decode('utf-8')], strict *)

Definition is_cont (b : N) : bool := (128 <=? b) && (b <=? 191).

Fixpoint utf8_decode (bs : list N) : option str :=
  match bs with
  | [] => Some []
  | b0 :: t0 =>
    if b0 <? 128 then option_map (cons b0) (utf8_decode t0)
    else if (194 <=? b0) && (b0 <=? 223) then
      match t0 with
      | b1 :: t1 =>
        if is_cont b1
        then option_map (cons ((b0 - 192) * 64 + (b1 - 128))) (utf8_decode t1)
        else None
      | _ => None
      end
    else if (224 <=? b0) && (b0 <=? 239) then
      match t0 with
      | b1 :: b2 :: t2 =>
        if is_cont b1 && is_cont b2
           && negb ((b0 =? 224) && (b1 <? 160))
           && negb ((b0 =? 237) && (160 <=? b1))
        then option_map
               (cons ((b0 - 224) * 4096 + (b1 - 128) * 64 + (b2 - 128)))
               (utf8_decode t2)
        else None
      | _ => None
      end
    else if (240 <=? b0) && (b0 <=? 244) then
      match t0 with
      | b1 :: b2 :: b3 :: t3 =>
        if is_cont b1 && is_cont b2 && is_cont b3
           && negb ((b0 =? 240) && (b1 <? 144))
           && negb ((b0 =? 244) && (144 <=? b1))
        then option_map
               (cons ((b0 - 240) * 262144 + (b1 - 128) * 4096
                      + (b2 - 128) * 64 + (b3 - 128)))
               (utf8_decode t3)
        else None
      | _ => None
      end
    else None
  end.

Definition bytes_decode (b : bytes) : option str :=
  utf8_decode (map N_of_ascii (list_ascii_of_string b)).

(** The lines an aiohttp [StreamReader] yields for a body: each one ends
    with its line feed, the last one may lack it. *)
Fixpoint readlines_from (cur : string) (body : string) : list bytes :=
  match body with
  | EmptyString =>
    match cur with EmptyString => [] | _ => [cur] end
  | String c r =>
    if Ascii.eqb c (ascii_of_nat 10)
    then (cur ++ String c EmptyString)%string :: readlines_from EmptyString r
    else readlines_from (cur ++ String c EmptyString)%string r
  end.

Definition readlines (body : bytes) : list bytes := readlines_from EmptyString body.

(** ** Python values *)

(** A [float] as [json.loads] reads it: the decimal it was written as
    ([mantissa * 10 ^ exponent]), or one of the three constants Python's
    decoder accepts. Only its truth value is observed by the client. *)
Inductive pyfloat :=
| FDec (neg : bool) (mantissa : N) (exponent : Z)
| FInf (neg : bool)
| FNaN.

Inductive pyval :=
| PNone
| PBool (b : bool)
| PInt (z : Z)
| PFloat (f : pyfloat)
| PStr (s : str)
| PList (items : list pyval)
| PDict (entries : list (str * pyval)).

Definition pydict := list (str * pyval).

(** A decimal is read as the [float] zero exactly when it is at most
    [2 ^ -1075] in magnitude (round to nearest, ties to even). *)
Definition float_is_zero (f : pyfloat) : bool :=
  match f with
  | FDec _ m e =>
    if (0 <=? e)%Z then m =? 0
    else (Z.of_N m * 2 ^ 1075 <=? 10 ^ (- e))%Z
  | FInf _ => false
  | FNaN => false
  end.

(** [bool(v)] *)
Definition truthy (v : pyval) : bool :=
  match v with
  | PNone => false
  | PBool b => b
  | PInt z => negb (z =? 0)%Z
  | PFloat f => negb (float_is_zero f)
  | PStr s => match s with [] => false | _ => true end
  | PList l => match l with [] => false | _ => true end
  | PDict d => match d with [] => false | _ => true end
  end.

Fixpoint dict_lookup (d : pydict) (k : str) : option pyval :=
  match d with
  | [] => None
  | (k', v) :: d' => if str_eqb k' k then Some v else dict_lookup d' k
  end.

(** [d[k] = v]: an existing key keeps its place. *)
Fixpoint dict_set (d : pydict) (k : str) (v : pyval) : pydict :=
  match d with
  | [] => [(k, v)]
  | (k', v') :: d' =>
    if str_eqb k' k then (k', v) :: d' else (k', v') :: dict_set d' k v
  end.

(** ** Exceptions *)

(** [JSONDecodeError] is [json.JSONDecodeError], a subclass of
    [ValueError]; [ValueError] stands for a [ValueError] that is not a
    [JSONDecodeError], which [except json.JSONDecodeError] does not
    catch. *)
Inductive exn :=
| RuntimeError (message : str)
| ClickException (message : str)
| JSONDecodeError
| ValueError
| RecursionError
| UnicodeDecodeError
| AttributeError
| TypeError
| KeyError
| FileNotFoundError.

Inductive outcome (A : Type) :=
| Return (a : A)
| Raise (e : exn).
Arguments Return {A} a.
Arguments Raise {A} e.

(** ** [json.loads] *)

Definition is_json_ws (c : N) : bool :=
  (c =? 32) || (c =? 9) || (c =? 10) || (c =? 13).

Fixpoint skip_ws (s : str) : str :=
  match s with
  | c :: s' => if is_json_ws c then skip_ws s' else s
  | [] => []
  end.

Definition is_digit (c : N) : bool := (48 <=? c) && (c <=? 57).

Definition hex_value (c : N) : option N :=
  if is_digit c then Some (c - 48)
  else if (97 <=? c) && (c <=? 102) then Some (c - 87)
  else if (65 <=? c) && (c <=? 70) then Some (c - 55)
  else None.

(** The four hexadecimal digits of a [\uXXXX] escape. *)
Definition hex4 (s : str) : option (N * str) :=
  match s with
  | a :: b :: c :: d :: rest =>
    match hex_value a, hex_value b, hex_value c, hex_value d with
    | Some x, Some y, Some z, Some w =>
      Some (x * 4096 + y * 256 + z * 16 + w, rest)
    | _, _, _, _ => None
    end
  | _ => None
  end.

Definition is_high_surrogate (c : N) : bool := (55296 <=? c) && (c <=? 56319).
Definition is_low_surrogate (c : N) : bool := (56320 <=? c) && (c <=? 57343).

(** [s] is not empty and its first character is [c]. *)
Definition head_is (c : N) (s : str) : bool :=
  match s with
  | x :: _ => x =? c
  | [] => false
  end.

(** After a [\uXXXX] escape that gave a high surrogate: a following
    [\uXXXX] escape that gives a low surrogate is joined with it. *)
Definition join_surrogate (c : N) (rest : str) : N * str :=
  if is_high_surrogate c && head_is 92 rest && head_is 117 (tl rest) then
    match hex4 (tl (tl rest)) with
    | Some (c2, rest') =>
      if is_low_surrogate c2
      then (65536 + (c - 55296) * 1024 + (c2 - 56320), rest')
      else (c, rest)
    | None => (c, rest)
    end
  else (c, rest).

(** What a backslash followed by [e] stands for, [e] not being [u]. *)
Definition simple_escape (e : N) : option N :=
  if e =? 34 then Some 34
  else if e =? 92 then Some 92
  else if e =? 47 then Some 47
  else if e =? 98 then Some 8
  else if e =? 102 then Some 12
  else if e =? 110 then Some 10
  else if e =? 114 then Some 13
  else if e =? 116 then Some 9
  else None.

(** The characters of a string after its opening quote, up to and
    including the closing quote (strict mode: no raw control character).
    The fuel is the number of characters that may still be read. *)
Fixpoint scanstring (fuel : nat) (s : str) (acc : str) : option (str * str) :=
  match fuel with
  | O => None
  | S fuel' =>
    match s with
    | [] => None
    | c :: s' =>
      if c =? 34 then Some (rev acc, s')
      else if c =? 92 then
        match s' with
        | [] => None
        | e :: s'' =>
          if e =? 117 then
            match hex4 s'' with
            | Some (cp, rest) =>
              scanstring fuel' (snd (join_surrogate cp rest))
                (fst (join_surrogate cp rest) :: acc)
            | None => None
            end
          else
            match simple_escape e with
            | Some x => scanstring fuel' s'' (x :: acc)
            | None => None
            end
        end
      else if c <=? 31 then None
      else scanstring fuel' s' (c :: acc)
    end
  end.

(** The longest run of digits at the head of a string, as a number, with
    how many there were. *)
Fixpoint digits (s : str) (acc : N) (count : nat) : N * nat * str :=
  match s with
  | c :: s' =>
    if is_digit c then digits s' (acc * 10 + (c - 48)) (S count)
    else (acc, count, s)
  | [] => (acc, count, [])
  end.

(** The integer part of a number: an optional minus sign, then either a
    single zero or a digit from 1 to 9 followed by any digits. With the
    sign and the value comes the number of digits. *)
Definition scan_int (s : str) : option (bool * N * nat * str) :=
  let neg := head_is 45 s in
  let s1 := if neg then tl s else s in
  if head_is 48 s1 then Some (neg, 0, 1%nat, tl s1)
  else
    match s1 with
    | c :: _ =>
      if is_digit c
      then Some (neg, fst (fst (digits s1 0 O)), snd (fst (digits s1 0 O)),
                 snd (digits s1 0 O))
      else None
    | [] => None
    end.

(** A point followed by at least one digit; the digits are added to the
    mantissa and counted. *)
Definition scan_frac (m : N) (s : str) : option (N * nat * str) :=
  if head_is 46 s then
    match tl s with
    | c :: _ => if is_digit c then Some (digits (tl s) m O) else None
    | [] => None
    end
  else None.

(** The letter e (either case), an optional sign, at least one digit. *)
Definition scan_exp (s : str) : option (Z * str) :=
  if head_is 101 s || head_is 69 s then
    let s1 := tl s in
    let neg := head_is 45 s1 in
    let s2 := if neg || head_is 43 s1 then tl s1 else s1 in
    match digits s2 0 O with
    | (_, O, _) => None
    | (n, S _, rest) =>
      Some (if neg then (- Z.of_N n)%Z else Z.of_N n, rest)
    end
  else None.

(** A scan either gives a value and the text after it, or fails: the
    text is not JSON ([Bad], the [json.JSONDecodeError] of the decoder);
    an integer has more digits than [int] converts ([TooManyDigits]);
    arrays and objects nest deeper than the interpreter allows ([TooDeep]);
    or the scan stops for want of fuel. *)
Inductive parsed (A : Type) :=
| Ok (a : A) (rest : str)
| Bad
| TooManyDigits
| TooDeep
| NoFuel.
Arguments Ok {A} a rest.
Arguments Bad {A}.
Arguments TooManyDigits {A}.
Arguments TooDeep {A}.
Arguments NoFuel {A}.

(** [int(text)], on which the decoder calls for a number without fraction
    and exponent, raises [ValueError] when the text has more digits than
    [sys.get_int_max_str_digits()] allows: [max_str_digits], which is 4300
    unless the interpreter was started otherwise, and 0 when the limit is
    lifted. A text of no more than 640 digits is converted whatever the
    limit. [float(text)] has no such limit. *)
Definition int_refused (max_str_digits count : nat) : bool :=
  (640 <? count)%nat && (0 <? max_str_digits)%nat
  && (max_str_digits <? count)%nat.

Definition scan_number (max_str_digits : nat) (s : str) : parsed pyval :=
  match scan_int s with
  | None => Bad
  | Some (neg, n, count, s1) =>
    match scan_frac n s1, scan_exp s1 with
    | None, None =>
      if int_refused max_str_digits count then TooManyDigits
      else Ok (PInt (if neg then (- Z.of_N n)%Z else Z.of_N n)) s1
    | None, Some (e, s2) => Ok (PFloat (FDec neg n e)) s2
    | Some (m, k, s2), _ =>
      match scan_exp s2 with
      | None => Ok (PFloat (FDec neg m (- Z.of_nat k)%Z)) s2
      | Some (e, s3) => Ok (PFloat (FDec neg m (e - Z.of_nat k)%Z)) s3
      end
    end
  end.

(** [s] begins with the literal [lit]: what follows it. *)
Fixpoint after_literal (lit s : str) : option str :=
  match lit, s with
  | [], _ => Some s
  | y :: lit', x :: s' => if x =? y then after_literal lit' s' else None
  | _ :: _, [] => None
  end.

Definition constants : list (str * pyval) :=
  [(u "null", PNone); (u "true", PBool true); (u "false", PBool false);
   (u "NaN", PFloat FNaN); (u "Infinity", PFloat (FInf false));
   (u "-Infinity", PFloat (FInf true))].

Fixpoint scan_constant_in (table : list (str * pyval)) (s : str)
  : option (pyval * str) :=
  match table with
  | [] => None
  | (lit, v) :: table' =>
    match after_literal lit s with
    | Some r => Some (v, r)
    | None => scan_constant_in table' s
    end
  end.

Definition scan_constant (s : str) : option (pyval * str) :=
  scan_constant_in constants s.

(** [scan_once]: one JSON value at the head of [s]. [scan_elems] reads
    the elements of an array from the first one on, [scan_members] the
    members of an object from the first key (its opening quote) on.
    [depth] is the number of arrays and objects, one inside the other,
    that the scanner may still enter: entering one more is the
    [RecursionError] of the interpreter. *)
Fixpoint scan_once (max_str_digits fuel depth : nat) (s : str)
  : parsed pyval :=
  match fuel with
  | O => NoFuel
  | S fuel' =>
    match s with
    | [] => Bad
    | c :: s' =>
      if c =? 34 then
        match scanstring (List.length s') s' [] with
        | Some (t, rest) => Ok (PStr t) rest
        | None => Bad
        end
      else if c =? 123 then
        match depth with
        | O => TooDeep
        | S depth' =>
          if head_is 125 (skip_ws s') then Ok (PDict []) (tl (skip_ws s'))
          else
            match scan_members max_str_digits fuel' depth' (skip_ws s') []
            with
            | Ok d rest => Ok (PDict d) rest
            | Bad => Bad
            | TooManyDigits => TooManyDigits
            | TooDeep => TooDeep
            | NoFuel => NoFuel
            end
        end
      else if c =? 91 then
        match depth with
        | O => TooDeep
        | S depth' =>
          if head_is 93 (skip_ws s') then Ok (PList []) (tl (skip_ws s'))
          else
            match scan_elems max_str_digits fuel' depth' (skip_ws s') []
            with
            | Ok l rest => Ok (PList l) rest
            | Bad => Bad
            | TooManyDigits => TooManyDigits
            | TooDeep => TooDeep
            | NoFuel => NoFuel
            end
        end
      else
        match scan_constant s with
        | Some (v, rest) => Ok v rest
        | None => scan_number max_str_digits s
        end
    end
  end

with scan_elems (max_str_digits fuel depth : nat) (s : str)
  (acc : list pyval) : parsed (list pyval) :=
  match fuel with
  | O => NoFuel
  | S fuel' =>
    match scan_once max_str_digits fuel' depth s with
    | Ok v rest =>
      if head_is 93 (skip_ws rest)
      then Ok (rev (v :: acc)) (tl (skip_ws rest))
      else if head_is 44 (skip_ws rest)
      then scan_elems max_str_digits fuel' depth
             (skip_ws (tl (skip_ws rest))) (v :: acc)
      else Bad
    | Bad => Bad
    | TooManyDigits => TooManyDigits
    | TooDeep => TooDeep
    | NoFuel => NoFuel
    end
  end

with scan_members (max_str_digits fuel depth : nat) (s : str)
  (acc : pydict) : parsed pydict :=
  match fuel with
  | O => NoFuel
  | S fuel' =>
    if head_is 34 s then
      match scanstring (List.length (tl s)) (tl s) [] with
      | Some (key, s2) =>
        if head_is 58 (skip_ws s2) then
          match scan_once max_str_digits fuel' depth
                  (skip_ws (tl (skip_ws s2))) with
          | Ok v rest =>
            if head_is 125 (skip_ws rest)
            then Ok (dict_set acc key v) (tl (skip_ws rest))
            else if head_is 44 (skip_ws rest)
            then scan_members max_str_digits fuel' depth
                   (skip_ws (tl (skip_ws rest))) (dict_set acc key v)
            else Bad
          | Bad => Bad
          | TooManyDigits => TooManyDigits
          | TooDeep => TooDeep
          | NoFuel => NoFuel
          end
        else Bad
      | None => Bad
      end
    else Bad
  end.

(** Every call of the scanner reads at least one character before the
    next call of the same kind, so twice the length of the text, and two
    more, is fuel enough (see [json_fuel_enough] below). *)
Definition json_fuel (s : str) : nat := 2 * List.length s + 2.

(** [json.loads(s)], in an interpreter that converts integers of up to
    [max_str_digits] digits and lets the scanner enter [depth] arrays and
    objects one inside the other. The text must be one JSON value, with
    white space around it at most: anything else is
    [json.JSONDecodeError]. An integer of too many digits makes [int]
    raise [ValueError], and nesting that is too deep is [RecursionError],
    as soon as the scan reaches them. *)
Definition json_loads (max_str_digits depth : nat) (s : str)
  : outcome pyval :=
  if head_is 65279 s then Raise JSONDecodeError
  else
    match scan_once max_str_digits (json_fuel s) depth (skip_ws s) with
    | Ok v rest =>
      match skip_ws rest with
      | [] => Return v
      | _ :: _ => Raise JSONDecodeError
      end
    | Bad => Raise JSONDecodeError
    | TooManyDigits => Raise ValueError
    | TooDeep => Raise RecursionError
    | NoFuel => Raise JSONDecodeError
    end.

(** ** Effects and computations *)

(** [types.Part(text=...)] and [types.Content(role=..., parts=[...])]. *)
Record Part := { part_text : str }.
Record Content := { role : str; parts : list Part }.

(** The dictionary [request_data] of [run_agent] and
    [run_agent_streaming]. Its entry [new_message] is kept as the [Content]
    object, whose [model_dump(by_alias=True)] belongs to the genai
    library. *)
Record run_request := {
  rq_app_name : str;
  rq_user_id : str;
  rq_session_id : str;
  rq_new_message : Content;
  rq_streaming : bool
}.

(** [aiohttp.FormData.add_field] *)
Inductive form_field :=
| FileField (name : str) (file : bytes) (filename : str)
| TextField (name : str) (value : str).

(** The keyword arguments [_request] passes on to aiohttp. *)
Inductive kwargs :=
| NoBody
| Json (json_data : pyval)
| JsonRun (request_data : run_request)
| Data (data : list form_field).

Record request := {
  method : str;
  url : str;
  body : kwargs
}.

(** An aiohttp [ClientResponse]: its [status] and [content_type], what
    awaiting its [text()] and [json()] gives, and the lines its [content]
    stream yields. *)
Record response := {
  status : Z;
  content_type : str;
  text : str;
  json : outcome pyval;
  content : list bytes
}.

(** What lies outside the client: the server behind the session, the
    local files that can be opened for reading, Python's [str()] on
    values that are not already a [str], and the two limits of the
    interpreter that [json.loads] meets: [sys.get_int_max_str_digits()],
    and how far below the recursion limit the call of [json.loads] is
    made. *)
Record runtime := {
  server : request -> response;
  open_rb : str -> option bytes;
  str_other : pyval -> str;
  int_max_str_digits : nat;
  recursion_headroom : nat
}.

(** The arrays and objects, one inside the other, that [json.loads] can
    enter before [RecursionError]. The number depends on the interpreter
    and on the call stack. The program never lowers the recursion limit
    (1000 unless raised), and its own calls down to [json.loads] are a few
    dozen, so that 100 levels are always left; the runtime says how many
    more there are. *)
Definition min_json_depth : nat := 100.

Definition json_depth (rt : runtime) : nat :=
  (min_json_depth + recursion_headroom rt)%nat.

(** [json.loads(s)] in the interpreter of the runtime. *)
Definition json_loads_in (rt : runtime) (s : str) : outcome pyval :=
  json_loads (int_max_str_digits rt) (json_depth rt) s.

(** What a run does that can be observed: an HTTP request issued, a line
    taken from the response stream, the update [result += fragment], a
    [print(fragment, end='', flush=True)], a [click.echo(message)]. *)
Inductive effect :=
| Request (r : request)
| ReadLine (line : bytes)
| Append (fragment : str)
| Print (fragment : str)
| Echo (message : str).

(** [result] is the local variable of [run_agent_streaming] (the
    accumulated output). It is part of the state so that it has a value at
    every point of the loop, also where an exception leaves the loop. *)
Record state := {
  result : str;
  trace : list effect
}.

Definition M (A : Type) : Type := runtime -> state -> outcome A * state.

Definition ret {A} (a : A) : M A := fun _ st => (Return a, st).

Definition raise {A} (e : exn) : M A := fun _ st => (Raise e, st).

Definition bind {A B} (m : M A) (f : A -> M B) : M B :=
  fun rt st =>
    match m rt st with
    | (Return a, st') => f a rt st'
    | (Raise e, st') => (Raise e, st')
    end.

Notation "x <- m ;; k" := (bind m (fun x => k))
  (at level 61, m at next level, right associativity).
Notation "m ;; k" := (bind m (fun _ => k))
  (at level 61, right associativity).

Definition emit (e : effect) : M unit :=
  fun _ st => (Return tt, {| result := result st; trace := trace st ++ [e] |}).

Definition of_outcome {A} (o : outcome A) : M A := fun _ st => (o, st).

(** [json.loads(s)] as a computation. *)
Definition loads (s : str) : M pyval :=
  fun rt st => (json_loads_in rt s, st).

(** [try: m  except handled: continue] *)
Definition try_except {A} (m : M A) (handler : exn -> M A) : M A :=
  fun rt st =>
    match m rt st with
    | (Return a, st') => (Return a, st')
    | (Raise e, st') => handler e rt st'
    end.

(** *** Operations on Python values *)

(** [v.get(key)], [v.get(key, default)] *)
Definition py_get_default (v : pyval) (key : str) (default : pyval) : M pyval :=
  match v with
  | PDict d =>
    match dict_lookup d key with
    | Some x => ret x
    | None => ret default
    end
  | _ => raise AttributeError
  end.

Definition py_get (v : pyval) (key : str) : M pyval :=
  py_get_default v key PNone.

(** [v[key]] for a key that is a [str] *)
Definition py_getitem (v : pyval) (key : str) : M pyval :=
  match v with
  | PDict d =>
    match dict_lookup d key with
    | Some x => ret x
    | None => raise KeyError
    end
  | _ => raise TypeError
  end.

(** [for x in v]: the values the iteration yields *)
Definition py_iter (v : pyval) : M (list pyval) :=
  match v with
  | PList l => ret l
  | PDict d => ret (map (fun kv => PStr (fst kv)) d)
  | PStr s => ret (map (fun c => PStr [c]) s)
  | _ => raise TypeError
  end.

(** [a and b] *)
Definition py_and (a b : M pyval) : M pyval :=
  x <- a ;; if truthy x then b else ret x.

(** [str(v)], as formatting in an f-string applies it *)
Definition py_str (v : pyval) : M str :=
  fun rt st =>
    (Return match v with PStr s => s | _ => str_other rt v end, st).

(** [''.join(items)] *)
Fixpoint py_join (items : list pyval) : M str :=
  match items with
  | [] => ret []
  | PStr s :: rest => r <- py_join rest ;; ret (s ++ r)
  | _ :: _ => raise TypeError
  end.

(** [click.echo(message)] *)
Definition click_echo (message : str) : M unit := emit (Echo message).

(** [click.echo(message, end='')]: [click.echo] has the parameters
    [message], [file], [nl], [err] and [color] and no parameter [end], so
    the call raises [TypeError] and writes nothing. *)
Definition click_echo_end (message : str) : M unit := raise TypeError.

(** [print(v, end='', flush=True)] *)
Definition print (v : pyval) : M unit := s <- py_str v ;; emit (Print s).

(** [session.request(...)] and [session.post(...)], up to the response
    headers. *)
Definition session_request (r : request) : M response :=
  fun rt st =>
    (Return (server rt r),
     {| result := result st; trace := trace st ++ [Request r] |}).

(** [open(path, 'rb')] and reading the file. *)
Definition open_file (path : str) : M bytes :=
  fun rt st =>
    match open_rb rt path with
    | Some data => (Return data, st)
    | None => (Raise FileNotFoundError, st)
    end.

(** [os.path.basename(path)]: what follows the last slash. *)
Fixpoint basename_from (cur : str) (path : str) : str :=
  match path with
  | [] => cur
  | c :: rest =>
    if c =? 47 then basename_from [] rest else basename_from (cur ++ [c]) rest
  end.

Definition basename (path : str) : str := basename_from [] path.

(** ** [class ApiClient] *)

Module ApiClient.

Inductive ClientSession := ClientSession_new.

(** The attributes of [self]. *)
Record t := {
  base_url : str;
  session : option ClientSession
}.

Definition __init__ (base_url : str) : t :=
  {| base_url := rstrip_slash base_url; session := None |}.

Definition __aenter__ (self : t) : t :=
  {| base_url := base_url self; session := Some ClientSession_new |}.

Definition http_error (response : response) : exn :=
  ClickException
    (u "HTTP " ++ str_of_Z (status response) ++ u ": " ++ text response).

Definition _request (self : t) (method endpoint : str) (kw : kwargs)
  : M pyval :=
  match session self with
  | None =>
    raise (RuntimeError
             (u "Client not initialized. Use async context manager."))
  | Some _ =>
    let url := base_url self ++ endpoint in
    response <- session_request
                  {| method := method; url := url; body := kw |} ;;
    if (status response >=? 400)%Z then
      raise (http_error response)
    else if str_eqb (content_type response) (u "application/json") then
      of_outcome (json response)
    else
      ret (PDict [(u "text", PStr (text response))])
  end.

(** *** App management *)

Definition list_apps (self : t) : M pyval :=
  _request self (u "GET") (u "/list-apps") NoBody.

(** *** Session management *)

Definition sessions_endpoint (app_name user_id : str) : str :=
  u "/apps/" ++ app_name ++ u "/users/" ++ user_id ++ u "/sessions".

Definition session_endpoint (app_name user_id session_id : str) : str :=
  sessions_endpoint app_name user_id ++ u "/" ++ session_id.

(** An optional argument as a Python value ([None] when it is absent),
    and how an f-string formats an optional [str]. *)
Definition opt_str_value (x : option str) : pyval :=
  match x with
  | Some s => PStr s
  | None => PNone
  end.

Definition opt_dict_value (x : option pydict) : pyval :=
  match x with
  | Some d => PDict d
  | None => PNone
  end.

Definition opt_str_format (x : option str) : str :=
  match x with
  | Some s => s
  | None => u "None"
  end.

Definition create_session (self : t) (app_name user_id : str)
  (session_id : option str) (state : option pydict) : M pyval :=
  let endpoint :=
    if truthy (opt_str_value session_id)
    then u "/apps/" ++ app_name ++ u "/users/" ++ user_id ++ u "/sessions/"
         ++ opt_str_format session_id
    else u "/apps/" ++ app_name ++ u "/users/" ++ user_id ++ u "/sessions" in
  let json_data :=
    if truthy (opt_dict_value state)
    then PDict [(u "state", opt_dict_value state)]
    else PDict [] in
  _request self (u "POST") endpoint (Json json_data).

Definition get_session (self : t) (app_name user_id session_id : str)
  : M pyval :=
  let endpoint := session_endpoint app_name user_id session_id in
  _request self (u "GET") endpoint NoBody.

Definition list_sessions (self : t) (app_name user_id : str) : M pyval :=
  let endpoint := sessions_endpoint app_name user_id in
  _request self (u "GET") endpoint NoBody.

Definition delete_session (self : t) (app_name user_id session_id : str)
  : M pyval :=
  let endpoint := session_endpoint app_name user_id session_id in
  _request self (u "DELETE") endpoint NoBody ;;
  ret PNone.

(** *** Agent interaction *)

Definition user_content (message : str) : Content :=
  {| role := u "user"; parts := [ {| part_text := message |} ] |}.

Definition run_agent (self : t) (app_name user_id session_id message : str)
  (streaming : bool) : M pyval :=
  let content := user_content message in
  let request_data :=
    {| rq_app_name := app_name; rq_user_id := user_id;
       rq_session_id := session_id; rq_new_message := content;
       rq_streaming := streaming |} in
  _request self (u "POST") (u "/run") (JsonRun request_data).

(** [result += v] *)
Definition iadd_result (v : pyval) : M unit :=
  match v with
  | PStr s =>
    fun _ st =>
      (Return tt,
       {| result := result st ++ s; trace := trace st ++ [Append s] |})
  | _ => raise TypeError
  end.

Definition set_result (s : str) : M unit :=
  fun _ st => (Return tt, {| result := s; trace := trace st |}).

Definition get_result : M str := fun _ st => (Return (result st), st).

(** [for part in event['content']['parts']: ...] *)
Fixpoint for_parts (items : list pyval) : M unit :=
  match items with
  | [] => ret tt
  | part :: rest =>
    t <- py_get part (u "text") ;;
    (if truthy t then
       v <- py_getitem part (u "text") ;;
       iadd_result v ;;
       w <- py_getitem part (u "text") ;;
       print w
     else ret tt) ;;
    for_parts rest
  end.

(** The [try] block of the loop body. *)
Definition handle_event_data (event_data : str) : M unit :=
  event <- loads event_data ;;
  c <- py_and (py_get event (u "content"))
              (ec <- py_getitem event (u "content") ;; py_get ec (u "parts")) ;;
  if truthy c then
    ec <- py_getitem event (u "content") ;;
    ps <- py_getitem ec (u "parts") ;;
    items <- py_iter ps ;;
    for_parts items
  else ret tt.

(** The body of [async for line in response.content]. *)
Definition process_line (line : bytes) : M unit :=
  decoded <- match bytes_decode line with
             | Some s => ret s
             | None => raise UnicodeDecodeError
             end ;;
  let line_str := strip decoded in
  if startswith line_str (u "data: ") then
    let event_data := skipn 6 line_str in
    match event_data with
    | _ :: _ =>
      try_except (handle_event_data event_data)
        (fun e =>
           match e with
           | JSONDecodeError => ret tt
           | _ => raise e
           end)
    | [] => ret tt
    end
  else ret tt.

Fixpoint for_lines (lines : list bytes) : M unit :=
  match lines with
  | [] => ret tt
  | line :: rest =>
    emit (ReadLine line) ;;
    process_line line ;;
    for_lines rest
  end.

(** With no session, [self.session.post] is an attribute of [None]. *)
Definition run_agent_streaming (self : t)
  (app_name user_id session_id message : str) : M str :=
  let new_message := user_content message in
  let request_data :=
    {| rq_app_name := app_name; rq_user_id := user_id;
       rq_session_id := session_id; rq_new_message := new_message;
       rq_streaming := true |} in
  let url := base_url self ++ u "/run_sse" in
  match session self with
  | None => raise AttributeError
  | Some _ =>
    response <- session_request
                  {| method := u "POST"; url := url;
                     body := JsonRun request_data |} ;;
    if (status response >=? 400)%Z then
      raise (http_error response)
    else
      set_result [] ;;
      for_lines (content response) ;;
      get_result
  end.

(** *** Artifact management *)

Definition artifacts_endpoint (app_name user_id session_id : str) : str :=
  session_endpoint app_name user_id session_id ++ u "/artifacts".

Definition list_artifacts (self : t) (app_name user_id session_id : str)
  : M pyval :=
  let endpoint := artifacts_endpoint app_name user_id session_id in
  _request self (u "GET") endpoint NoBody.

Definition get_artifact (self : t)
  (app_name user_id session_id artifact_name : str) (version : option Z)
  : M pyval :=
  let endpoint :=
    match version with
    | Some v =>
      artifacts_endpoint app_name user_id session_id ++ u "/"
      ++ artifact_name ++ u "/versions/" ++ str_of_Z v
    | None =>
      artifacts_endpoint app_name user_id session_id ++ u "/" ++ artifact_name
    end in
  _request self (u "GET") endpoint NoBody.

Definition upload_artifact (self : t)
  (app_name user_id session_id file_path : str) (artifact_name : option str)
  : M pyval :=
  let endpoint :=
    artifacts_endpoint app_name user_id session_id ++ u "/upload" in
  let filename :=
    match artifact_name with
    | Some (c :: n) => c :: n
    | _ => basename file_path
    end in
  f <- open_file file_path ;;
  let data :=
    FileField (u "file") f filename
    :: match artifact_name with
       | Some (c :: n) => [TextField (u "filename") (c :: n)]
       | _ => []
       end in
  _request self (u "POST") endpoint (Data data).

Definition delete_artifact (self : t)
  (app_name user_id session_id artifact_name : str) : M pyval :=
  let endpoint :=
    artifacts_endpoint app_name user_id session_id ++ u "/" ++ artifact_name in
  _request self (u "DELETE") endpoint NoBody ;;
  ret PNone.

(** *** Evaluation management *)

Definition list_eval_sets (self : t) (app_name : str) : M pyval :=
  let endpoint := u "/apps/" ++ app_name ++ u "/eval_sets" in
  _request self (u "GET") endpoint NoBody.

Definition create_eval_set (self : t) (app_name eval_set_id : str)
  : M pyval :=
  let endpoint := u "/apps/" ++ app_name ++ u "/eval_sets/" ++ eval_set_id in
  _request self (u "POST") endpoint NoBody ;;
  ret PNone.

Definition list_evals_in_set (self : t) (app_name eval_set_id : str)
  : M pyval :=
  let endpoint :=
    u "/apps/" ++ app_name ++ u "/eval_sets/" ++ eval_set_id ++ u "/evals" in
  _request self (u "GET") endpoint NoBody.

End ApiClient.

(** The one-shot resource operations with their arguments, so that a
    statement can range over all of them. *)
Inductive operation :=
| ListApps
| CreateSession (app_name user_id : str) (session_id : option str)
    (state : option pydict)
| GetSession (app_name user_id session_id : str)
| ListSessions (app_name user_id : str)
| DeleteSession (app_name user_id session_id : str)
| RunAgent (app_name user_id session_id message : str) (streaming : bool)
| ListArtifacts (app_name user_id session_id : str)
| GetArtifact (app_name user_id session_id artifact_name : str)
    (version : option Z)
| UploadArtifact (app_name user_id session_id file_path : str)
    (artifact_name : option str)
| DeleteArtifact (app_name user_id session_id artifact_name : str)
| ListEvalSets (app_name : str)
| CreateEvalSet (app_name eval_set_id : str)
| ListEvalsInSet (app_name eval_set_id : str).

Definition call (self : ApiClient.t) (op : operation) : M pyval :=
  match op with
  | ListApps => ApiClient.list_apps self
  | CreateSession a us sid state => ApiClient.create_session self a us sid state
  | GetSession a us sid => ApiClient.get_session self a us sid
  | ListSessions a us => ApiClient.list_sessions self a us
  | DeleteSession a us sid => ApiClient.delete_session self a us sid
  | RunAgent a us sid msg streaming =>
    ApiClient.run_agent self a us sid msg streaming
  | ListArtifacts a us sid => ApiClient.list_artifacts self a us sid
  | GetArtifact a us sid name version =>
    ApiClient.get_artifact self a us sid name version
  | UploadArtifact a us sid path name =>
    ApiClient.upload_artifact self a us sid path name
  | DeleteArtifact a us sid name => ApiClient.delete_artifact self a us sid name
  | ListEvalSets a => ApiClient.list_eval_sets self a
  | CreateEvalSet a es => ApiClient.create_eval_set self a es
  | ListEvalsInSet a es => ApiClient.list_evals_in_set self a es
  end.

(** The local file an operation opens before it reaches [_request]. *)
Definition local_file (op : operation) : option str :=
  match op with
  | UploadArtifact _ _ _ file_path _ => Some file_path
  | _ => None
  end.

(** ** The command [agent run] *)

Module Cli.

(** [for part in event['content']['parts']: ...], collecting
    [text_parts]. *)
Fixpoint for_parts (items : list pyval) (text_parts : list pyval)
  : M (list pyval) :=
  match items with
  | [] => ret text_parts
  | part :: rest =>
    t <- py_get part (u "text") ;;
    text_parts' <- (if truthy t then
                      v <- py_getitem part (u "text") ;;
                      ret (text_parts ++ [v])
                    else ret text_parts) ;;
    for_parts rest text_parts'
  end.

(** [for event in events: ...] *)
Fixpoint for_events (events : list pyval) : M unit :=
  match events with
  | [] => ret tt
  | event :: rest =>
    c <- py_and (py_get event (u "content"))
                (ec <- py_getitem event (u "content") ;;
                 py_get ec (u "parts")) ;;
    (if truthy c then
       ec <- py_getitem event (u "content") ;;
       ps <- py_getitem ec (u "parts") ;;
       items <- py_iter ps ;;
       text_parts <- for_parts items [] ;;
       match text_parts with
       | _ :: _ =>
         author <- py_get_default event (u "author") (PStr (u "agent")) ;;
         a <- py_str author ;;
         joined <- py_join text_parts ;;
         click_echo (u "[" ++ a ++ u "]: " ++ joined)
       | [] => ret tt
       end
     else ret tt) ;;
    for_events rest
  end.

(** [base_url] is [ctx.obj['base_url']]. *)
Definition run_agent (base_url app_name user_id session_id message : str)
  (streaming : bool) : M unit :=
  let client := ApiClient.__aenter__ (ApiClient.__init__ base_url) in
  if streaming then
    click_echo (u "[" ++ user_id ++ u "]: " ++ message) ;;
    click_echo_end (u "[agent]: ") ;;
    ApiClient.run_agent_streaming client app_name user_id session_id message ;;
    click_echo []
  else
    events <- ApiClient.run_agent client app_name user_id session_id message
                streaming ;;
    click_echo (u "[" ++ user_id ++ u "]: " ++ message) ;;
    evs <- py_iter events ;;
    for_events evs.

(** [for x in items: click.echo(f"  - {x}")] *)
Fixpoint echo_items (items : list pyval) : M unit :=
  match items with
  | [] => ret tt
  | x :: rest =>
    shown <- py_str x ;;
    click_echo (u "  - " ++ shown) ;;
    echo_items rest
  end.

(** The command [app list]. *)
Definition list_apps (base_url : str) : M unit :=
  let client := ApiClient.__aenter__ (ApiClient.__init__ base_url) in
  apps <- ApiClient.list_apps client ;;
  if truthy apps then
    click_echo (u "Available apps:") ;;
    items <- py_iter apps ;;
    echo_items items
  else click_echo (u "No apps found.").

(** [for session_data in sessions: click.echo(...)] *)
Fixpoint echo_sessions (sessions : list pyval) : M unit :=
  match sessions with
  | [] => ret tt
  | session_data :: rest =>
    id <- py_getitem session_data (u "id") ;;
    shown_id <- py_str id ;;
    created <- py_get_default session_data (u "created_at")
                 (PStr (u "unknown")) ;;
    shown_created <- py_str created ;;
    click_echo (u "  - " ++ shown_id ++ u " (created: " ++ shown_created
                ++ u ")") ;;
    echo_sessions rest
  end.

(** The command [session list]. *)
Definition list_sessions (base_url app_name user_id : str) : M unit :=
  let client := ApiClient.__aenter__ (ApiClient.__init__ base_url) in
  sessions <- ApiClient.list_sessions client app_name user_id ;;
  if truthy sessions then
    click_echo (u "Sessions for " ++ user_id ++ u " in " ++ app_name
                ++ u ":") ;;
    items <- py_iter sessions ;;
    echo_sessions items
  else click_echo (u "No sessions found.").

(** The command [session delete]. *)
Definition delete_session (base_url app_name user_id session_id : str)
  : M unit :=
  let client := ApiClient.__aenter__ (ApiClient.__init__ base_url) in
  ApiClient.delete_session client app_name user_id session_id ;;
  click_echo (u "Deleted session: " ++ session_id).

(** The command [artifact list]. *)
Definition list_artifacts (base_url app_name user_id session_id : str)
  : M unit :=
  let client := ApiClient.__aenter__ (ApiClient.__init__ base_url) in
  artifacts <- ApiClient.list_artifacts client app_name user_id session_id ;;
  if truthy artifacts then
    click_echo (u "Artifacts in session " ++ session_id ++ u ":") ;;
    items <- py_iter artifacts ;;
    echo_items items
  else click_echo (u "No artifacts found.").

(** The command [artifact upload]; [name] is the option [--name]. *)
Definition upload_artifact
  (base_url app_name user_id session_id file_path : str) (name : option str)
  : M unit :=
  let client := ApiClient.__aenter__ (ApiClient.__init__ base_url) in
  uploaded <- ApiClient.upload_artifact client app_name user_id session_id
                file_path name ;;
  filename <- py_getitem uploaded (u "filename") ;;
  shown_filename <- py_str filename ;;
  click_echo (u "Uploaded artifact: " ++ shown_filename) ;;
  size <- py_getitem uploaded (u "size") ;;
  shown_size <- py_str size ;;
  click_echo (u "Size: " ++ shown_size ++ u " bytes").

(** The command [artifact delete]. *)
Definition delete_artifact
  (base_url app_name user_id session_id artifact_name : str) : M unit :=
  let client := ApiClient.__aenter__ (ApiClient.__init__ base_url) in
  ApiClient.delete_artifact client app_name user_id session_id artifact_name ;;
  click_echo (u "Deleted artifact: " ++ artifact_name).

(** The command [eval list-sets]. *)
Definition list_eval_sets (base_url app_name : str) : M unit :=
  let client := ApiClient.__aenter__ (ApiClient.__init__ base_url) in
  eval_sets <- ApiClient.list_eval_sets client app_name ;;
  if truthy eval_sets then
    click_echo (u "Evaluation sets for " ++ app_name ++ u ":") ;;
    items <- py_iter eval_sets ;;
    echo_items items
  else click_echo (u "No evaluation sets found.").

(** The command [eval create-set]. *)
Definition create_eval_set (base_url app_name eval_set_id : str) : M unit :=
  let client := ApiClient.__aenter__ (ApiClient.__init__ base_url) in
  ApiClient.create_eval_set client app_name eval_set_id ;;
  click_echo (u "Created evaluation set: " ++ eval_set_id).

(** The command [eval list-evals]. *)
Definition list_evals_in_set (base_url app_name eval_set_id : str) : M unit :=
  let client := ApiClient.__aenter__ (ApiClient.__init__ base_url) in
  evals <- ApiClient.list_evals_in_set client app_name eval_set_id ;;
  if truthy evals then
    click_echo (u "Evaluations in set " ++ eval_set_id ++ u ":") ;;
    items <- py_iter evals ;;
    echo_items items
  else click_echo (u "No evaluations found in set.").

End Cli.

(** ** The vocabulary of the specification *)

(** The payload of a frame: the line, decoded and trimmed, starts with
    the marker and something follows it. *)
Definition frame_payload (line : bytes) : option str :=
  match bytes_decode line with
  | Some decoded =>
    let line_str := strip decoded in
    if startswith line_str (u "data: ") then
      match skipn 6 line_str with
      | [] => None
      | c :: p => Some (c :: p)
      end
    else None
  | None => None
  end.

(** A successfully parsed frame. *)
Definition parsed_frame (rt : runtime) (line : bytes) : option pyval :=
  match frame_payload line with
  | Some payload =>
    match json_loads_in rt payload with
    | Return event => Some event
    | Raise _ => None
    end
  | None => None
  end.

(** The [text] values inside [content.parts] of an event, in order. *)
Definition part_text_values (part : pyval) : list str :=
  match part with
  | PDict pd =>
    match dict_lookup pd (u "text") with
    | Some (PStr s) => [s]
    | _ => []
    end
  | _ => []
  end.

Definition event_text_values (event : pyval) : list str :=
  match event with
  | PDict d =>
    match dict_lookup d (u "content") with
    | Some (PDict cd) =>
      match dict_lookup cd (u "parts") with
      | Some (PList ps) => flat_map part_text_values ps
      | _ => []
      end
    | _ => []
    end
  | _ => []
  end.

Definition line_text_values (rt : runtime) (line : bytes) : list str :=
  match parsed_frame rt line with
  | Some event => event_text_values event
  | None => []
  end.

(** The ordered concatenation of every text value of every successfully
    parsed frame of a stream. *)
Definition accumulated_output (rt : runtime) (lines : list bytes) : str :=
  List.concat (flat_map (line_text_values rt) lines).

(** The values the decoder walks without raising: an object whose
    [content] is absent, falsy, or an object whose [parts] is absent,
    falsy, or an array of objects whose [text] is absent, falsy, or a
    string. Every Event of the wire format is one. *)
Definition part_shaped (part : pyval) : bool :=
  match part with
  | PDict pd =>
    match dict_lookup pd (u "text") with
    | None => true
    | Some (PStr _) => true
    | Some v => negb (truthy v)
    end
  | _ => false
  end.

Definition content_shaped (c : pyval) : bool :=
  match c with
  | PDict cd =>
    match dict_lookup cd (u "parts") with
    | None => true
    | Some (PList ps) => forallb part_shaped ps
    | Some v => negb (truthy v)
    end
  | _ => negb (truthy c)
  end.

Definition event_shaped (event : pyval) : bool :=
  match event with
  | PDict d =>
    match dict_lookup d (u "content") with
    | None => true
    | Some c => content_shaped c
    end
  | _ => false
  end.

(** A line of a valid stream: it is UTF-8 text and, when it is a frame,
    its payload either is not JSON ([json.JSONDecodeError]) or parses,
    within the limits of the interpreter, to a value of that shape. A
    payload that meets one of the limits ([ValueError], [RecursionError])
    makes the line invalid. *)
Definition valid_line (rt : runtime) (line : bytes) : bool :=
  match bytes_decode line with
  | None => false
  | Some _ =>
    match frame_payload line with
    | Some payload =>
      match json_loads_in rt payload with
      | Return event => event_shaped event
      | Raise JSONDecodeError => true
      | Raise _ => false
      end
    | None => true
    end
  end.

Definition valid_stream (rt : runtime) (lines : list bytes) : bool :=
  forallb (valid_line rt) lines.

(** Text that UTF-8 encodes: it holds no surrogate code point (a JSON
    escape such as [\ud800] gives one). It is the text a terminal that
    writes UTF-8 accepts from [print]. *)
Definition utf8_encodable (s : str) : bool :=
  forallb (fun c => negb (is_high_surrogate c || is_low_surrogate c)) s.

Definition writable_stream (rt : runtime) (lines : list bytes) : bool :=
  forallb (fun line => forallb utf8_encodable (line_text_values rt line))
    lines.

(** A parsed value lacks the [content.parts] structure: it is not an
    object with a [content] that is an object with a [parts] entry. *)
Definition lacks_content_parts (v : pyval) : bool :=
  match v with
  | PDict d =>
    match dict_lookup d (u "content") with
    | Some (PDict cd) =>
      match dict_lookup cd (u "parts") with
      | Some _ => false
      | None => true
      end
    | _ => true
    end
  | _ => true
  end.

(** The same for a parsed value that is an object whose [content] is
    absent, falsy or an object. *)
Definition object_lacks_content_parts (v : pyval) : bool :=
  match v with
  | PDict d =>
    match dict_lookup d (u "content") with
    | None => true
    | Some (PDict cd) =>
      match dict_lookup cd (u "parts") with
      | Some _ => false
      | None => true
      end
    | Some c => negb (truthy c)
    end
  | _ => false
  end.

(** The lines that are to contribute nothing: blank, without the marker
    after trimming, with an empty payload, with a payload that is not
    JSON ([json.JSONDecodeError]), or with a parsed value for which
    [lacks] holds. A payload that meets a limit of the interpreter
    ([ValueError], [RecursionError]) neither parses nor fails as JSON. *)
Definition ignorable (rt : runtime) (lacks : pyval -> bool) (line : bytes)
  : bool :=
  match bytes_decode line with
  | None => false
  | Some decoded =>
    let line_str := strip decoded in
    match line_str with
    | [] => true
    | _ :: _ =>
      if startswith line_str (u "data: ") then
        match skipn 6 line_str with
        | [] => true
        | c :: p =>
          match json_loads_in rt (c :: p) with
          | Return v => lacks v
          | Raise JSONDecodeError => true
          | Raise _ => false
          end
        end
      else true
    end
  end.

(** The fragments appended and the fragments written, in order. *)
Definition appended (t : list effect) : list str :=
  flat_map (fun e => match e with Append f => [f] | _ => [] end) t.

Definition printed (t : list effect) : list str :=
  flat_map (fun e => match e with Print f => [f] | _ => [] end) t.

(** The lines echoed, in order. *)
Definition printed_lines (t : list effect) : list str :=
  flat_map (fun e => match e with Echo m => [m] | _ => [] end) t.

(** Every [Append] is at once followed by the [Print] of the same
    fragment, and no [Print] stands alone. *)
Fixpoint paired (t : list effect) : Prop :=
  match t with
  | [] => True
  | Append f :: t' =>
    match t' with
    | Print g :: t'' => f = g /\ paired t''
    | _ => False
    end
  | Print _ :: _ => False
  | _ :: t' => paired t'
  end.

(** From [st] to [st'] the trace was extended by effects in which every
    fragment appended to [result] was then written, and [result] grew by
    exactly those fragments. *)
Definition grows (st st' : state) : Prop :=
  exists new,
    trace st' = trace st ++ new
    /\ result st' = result st ++ List.concat (appended new)
    /\ appended new = printed new
    /\ paired new.

(** A computation is accumulating when it changes the state only in that
    way, whether it returns or raises. *)
Definition accumulating {A} (m : M A) : Prop :=
  forall rt st, grows st (snd (m rt st)).

(** The request with which [run_agent_streaming] opens the stream. *)
Definition streaming_request (self : ApiClient.t)
  (app_name user_id session_id message : str) : request :=
  {| method := u "POST";
     url := ApiClient.base_url self ++ u "/run_sse";
     body :=
       JsonRun
         {| rq_app_name := app_name; rq_user_id := user_id;
            rq_session_id := session_id;
            rq_new_message := ApiClient.user_content message;
            rq_streaming := true |} |}.

(** The request of the non-streaming [run_agent]. *)
Definition run_request_of (self : ApiClient.t)
  (app_name user_id session_id message : str) (streaming : bool) : request :=
  {| method := u "POST";
     url := ApiClient.base_url self ++ u "/run";
     body :=
       JsonRun
         {| rq_app_name := app_name; rq_user_id := user_id;
            rq_session_id := session_id;
            rq_new_message := ApiClient.user_content message;
            rq_streaming := streaming |} |}.

Definition not_initialized : exn :=
  RuntimeError (u "Client not initialized. Use async context manager.").

Definition issued (r : request) (st : state) : state :=
  {| result := result st; trace := trace st ++ [Request r] |}.

(** ** Runtimes and responses used in examples *)

(** The limits of an interpreter started without options: integers of
    4300 digits, and here 1000 levels of nesting. *)
Definition fixed_runtime (r : response) : runtime :=
  {| server := fun _ => r;
     open_rb := fun _ => None;
     str_other := fun _ => u "?";
     int_max_str_digits := 4300;
     recursion_headroom := 900 |}.

(** The white space [bytes.strip()] removes. *)
Definition is_bytes_space (c : N) : bool :=
  (c =? 32) || ((9 <=? c) && (c <=? 13)).

Fixpoint lstrip_bytes (s : str) : str :=
  match s with
  | c :: s' => if is_bytes_space c then lstrip_bytes s' else s
  | [] => []
  end.

(** What [json()] of aiohttp gives for a body: [None] for a body that is
    blank, and [json.loads] of the body without the white space around it
    otherwise. *)
Definition json_outcome (body : str) : outcome pyval :=
  match rev (lstrip_bytes (rev (lstrip_bytes body))) with
  | [] => Return PNone
  | c :: stripped => json_loads 4300 1000 (c :: stripped)
  end.

(** A response whose body text is [body], with the given status and
    content type. *)
Definition text_response (status : Z) (content_type body : str) : response :=
  {| status := status; content_type := content_type; text := body;
     json := json_outcome body; content := [] |}.

(** A [200] event-stream response delivering [body]. *)
Definition stream_response (body : bytes) : response :=
  {| status := 200; content_type := u "text/event-stream"; text := [];
     json := Raise JSONDecodeError; content := readlines body |}.

Definition lf : string := String (ascii_of_nat 10) EmptyString.

(** The stream of two frames, each followed by a blank line. *)
Definition hello_stream : bytes :=
  (dq "data: {'author':'agent','content':{'parts':[{'text':'Hel'}]}}"
   ++ lf ++ lf
   ++ dq "data: {'author':'agent','content':{'parts':[{'text':'lo'}]}}"
   ++ lf ++ lf)%string.

(** The events of a run that answers ["hi"]. *)
Definition hi_events : str :=
  u (dq "[{'author':'agent','content':{'parts':[{'text':'hi'}]}}]").

(** A malformed line followed by a valid frame. *)
Definition malformed_then_ok : bytes :=
  (dq "data: {not json" ++ lf
   ++ dq "data: {'content':{'parts':[{'text':'ok'}]}}" ++ lf)%string.

(** A frame whose payload is valid JSON but not an object, followed by a
    valid frame. *)
Definition number_then_ok : bytes :=
  (dq "data: 42" ++ lf
   ++ dq "data: {'content':{'parts':[{'text':'ok'}]}}" ++ lf)%string.

(** A frame whose [text] is a number, and a line that is not UTF-8. *)
Definition number_text_line : bytes :=
  (dq "data: {'content':{'parts':[{'text':5}]}}" ++ lf)%string.

Definition not_utf8_line : bytes :=
  (String (ascii_of_nat 255) EmptyString ++ lf)%string.

Definition number_line : bytes := (dq "data: 42" ++ lf)%string.

Definition text_content_line : bytes :=
  (dq "data: {'content':'x'}" ++ lf)%string.

Definition ok_line : bytes :=
  (dq "data: {'content':{'parts':[{'text':'ok'}]}}" ++ lf)%string.

Fixpoint repeat_string (s : string) (n : nat) : string :=
  match n with
  | O => EmptyString
  | S n' => (s ++ repeat_string s n')%string
  end.

(** A frame that holds an integer of 4301 digits, and a frame of 1001
    arrays one inside the other. *)
Definition long_integer_line : bytes :=
  (dq "data: {'x':" ++ repeat_string "1" 4301 ++ "}" ++ lf)%string.

Definition deep_line : bytes :=
  ("data: " ++ repeat_string "[" 1001 ++ repeat_string "]" 1001
   ++ lf)%string.

Definition not_found : response :=
  text_response 404 (u "text/plain") (u "session not found").

Definition initial : state := {| result := []; trace := [] |}.

Definition client0 : ApiClient.t :=
  ApiClient.__aenter__ (ApiClient.__init__ (u "http://localhost:8000")).

(** ** Vocabulary of the further properties *)

(** Whatever a computation adds to the trace satisfies [P]. *)
Definition keeps (P : list effect -> Prop) {A} (m : M A) : Prop :=
  forall rt st, exists new, trace (snd (m rt st)) = trace st ++ new /\ P new.

(** The lines taken from the stream, in order. *)
Definition lines_read (t : list effect) : list bytes :=
  flat_map (fun e => match e with ReadLine l => [l] | _ => [] end) t.

(** No fragment appended or written is empty. *)
Definition fragments_not_empty (t : list effect) : Prop :=
  Forall (fun e => match e with
                   | Append f | Print f => f <> []
                   | _ => True
                   end) t.

(** Only fragments are appended and written: no line is read, no request
    issued, nothing echoed. *)
Definition only_fragments (t : list effect) : Prop :=
  Forall (fun e => match e with
                   | Append _ | Print _ => True
                   | _ => False
                   end) t.

(** The effects of the decoding loop: lines read, fragments appended and
    written; no request, nothing echoed. *)
Definition decoder_effects (t : list effect) : Prop :=
  Forall (fun e => match e with
                   | ReadLine _ | Append _ | Print _ => True
                   | _ => False
                   end) t.

(** The HTTP verb of each one-shot operation. *)
Definition op_method (op : operation) : str :=
  match op with
  | ListApps | GetSession _ _ _ | ListSessions _ _ | ListArtifacts _ _ _
  | GetArtifact _ _ _ _ _ | ListEvalSets _ | ListEvalsInSet _ _ => u "GET"
  | CreateSession _ _ _ _ | RunAgent _ _ _ _ _ | UploadArtifact _ _ _ _ _
  | CreateEvalSet _ _ => u "POST"
  | DeleteSession _ _ _ | DeleteArtifact _ _ _ _ => u "DELETE"
  end.

(** The operations that await [_request] and return nothing. *)
Definition returns_nothing (op : operation) : bool :=
  match op with
  | DeleteSession _ _ _ | DeleteArtifact _ _ _ _ | CreateEvalSet _ _ => true
  | _ => false
  end.

Definition nonempty (s : str) : bool :=
  match s with
  | [] => false
  | _ :: _ => true
  end.

(** How the command shows the author of an event: the default when the
    event has no [author], the author itself when it is a string. *)
Definition author_shown (rt : runtime) (event : pyval) : str :=
  match event with
  | PDict d =>
    match dict_lookup d (u "author") with
    | None => u "agent"
    | Some (PStr a) => a
    | Some v => str_other rt v
    end
  | _ => []
  end.

(** The line of an event: none when it has no non-empty text. *)
Definition rendered (rt : runtime) (event : pyval) : list str :=
  if existsb nonempty (event_text_values event)
  then [u "[" ++ author_shown rt event ++ u "]: "
        ++ List.concat (event_text_values event)]
  else [].

(** The commands of the command line that are modelled, with their
    arguments. *)
Inductive command :=
| AppList
| SessionList (app_name user_id : str)
| SessionDelete (app_name user_id session_id : str)
| AgentRun (app_name user_id session_id message : str) (streaming : bool)
| ArtifactList (app_name user_id session_id : str)
| ArtifactUpload (app_name user_id session_id file_path : str)
    (name : option str)
| ArtifactDelete (app_name user_id session_id artifact_name : str)
| EvalListSets (app_name : str)
| EvalCreateSet (app_name eval_set_id : str)
| EvalListEvals (app_name eval_set_id : str).

Definition run_command (base_url : str) (cmd : command) : M unit :=
  match cmd with
  | AppList => Cli.list_apps base_url
  | SessionList a us => Cli.list_sessions base_url a us
  | SessionDelete a us sid => Cli.delete_session base_url a us sid
  | AgentRun a us sid msg streaming =>
    Cli.run_agent base_url a us sid msg streaming
  | ArtifactList a us sid => Cli.list_artifacts base_url a us sid
  | ArtifactUpload a us sid path name =>
    Cli.upload_artifact base_url a us sid path name
  | ArtifactDelete a us sid name => Cli.delete_artifact base_url a us sid name
  | EvalListSets a => Cli.list_eval_sets base_url a
  | EvalCreateSet a es => Cli.create_eval_set base_url a es
  | EvalListEvals a es => Cli.list_evals_in_set base_url a es
  end.

(** The commands that list names: the heading they print and what they
    print when there is nothing to list. *)
Definition listing (cmd : command) : option (str * str) :=
  match cmd with
  | AppList => Some (u "Available apps:", u "No apps found.")
  | ArtifactList _ _ sid =>
    Some (u "Artifacts in session " ++ sid ++ u ":", u "No artifacts found.")
  | EvalListSets a =>
    Some (u "Evaluation sets for " ++ a ++ u ":",
          u "No evaluation sets found.")
  | EvalListEvals _ es =>
    Some (u "Evaluations in set " ++ es ++ u ":",
          u "No evaluations found in set.")
  | _ => None
  end.

(** The commands that change something and confirm it in one line. *)
Definition confirmation (cmd : command) : option str :=
  match cmd with
  | SessionDelete _ _ sid => Some (u "Deleted session: " ++ sid)
  | ArtifactDelete _ _ _ name => Some (u "Deleted artifact: " ++ name)
  | EvalCreateSet _ es => Some (u "Created evaluation set: " ++ es)
  | _ => None
  end.

(** The commands that go to the server before they print anything. *)
Definition request_first (rt : runtime) (cmd : command) : Prop :=
  match cmd with
  | AgentRun _ _ _ _ streaming => streaming = false
  | ArtifactUpload _ _ _ path _ => open_rb rt path <> None
  | _ => True
  end.

(** The server answers every request with this JSON value, with this
    text that is not JSON, with this error. *)
Definition answers_json (rt : runtime) (v : pyval) : Prop :=
  forall rq,
    (status (server rt rq) < 400)%Z
    /\ content_type (server rt rq) = u "application/json"
    /\ json (server rt rq) = Return v.

Definition answers_text (rt : runtime) (body : str) : Prop :=
  forall rq,
    (status (server rt rq) < 400)%Z
    /\ content_type (server rt rq) <> u "application/json"
    /\ text (server rt rq) = body.

Definition answers_error (rt : runtime) (code : Z) (body : str) : Prop :=
  forall rq, status (server rt rq) = code /\ text (server rt rq) = body.

(** The requests issued, in order. *)
Definition requests (t : list effect) : list request :=
  flat_map (fun e => match e with Request r => [r] | _ => [] end) t.

(** The operation a command begins with. *)
Definition operation_of (cmd : command) : operation :=
  match cmd with
  | AppList => ListApps
  | SessionList a us => ListSessions a us
  | SessionDelete a us sid => DeleteSession a us sid
  | AgentRun a us sid msg streaming => RunAgent a us sid msg streaming
  | ArtifactList a us sid => ListArtifacts a us sid
  | ArtifactUpload a us sid path name => UploadArtifact a us sid path name
  | ArtifactDelete a us sid name => DeleteArtifact a us sid name
  | EvalListSets a => ListEvalSets a
  | EvalCreateSet a es => CreateEvalSet a es
  | EvalListEvals a es => ListEvalsInSet a es
  end.

(** [str(v)] of a value, outside the monad. *)
Definition shown (rt : runtime) (v : pyval) : str :=
  match v with PStr s => s | _ => str_other rt v end.

(** The lines [session list] prints for the sessions that come before
    the first one without an [id]. *)
Fixpoint session_lines (rt : runtime) (sessions : list pydict) : list str :=
  match sessions with
  | [] => []
  | d :: rest =>
    match dict_lookup d (u "id") with
    | None => []
    | Some id =>
      (u "  - " ++ shown rt id ++ u " (created: "
       ++ shown rt match dict_lookup d (u "created_at") with
                   | Some created => created
                   | None => PStr (u "unknown")
                   end
       ++ u ")")
      :: session_lines rt rest
    end
  end.

Definition has_id (d : pydict) : bool :=
  match dict_lookup d (u "id") with Some _ => true | None => false end.

(** ** Further values used in examples *)

(** A runtime in which every path opens to [data]. *)
Definition file_runtime (r : response) (data : bytes) : runtime :=
  {| server := fun _ => r;
     open_rb := fun _ => Some data;
     str_other := fun _ => u "?";
     int_max_str_digits := 4300;
     recursion_headroom := 900 |}.

(** Three events: one of two parts, one without text, one without
    author. *)
Definition three_events : str :=
  u (dq ("[{'author':'bot','content':{'parts':[{'text':'a'},{'text':'b'}]}},"
         ++ "{'author':'bot','content':{'parts':[]}},"
         ++ "{'content':{'parts':[{'text':'c'}]}}]")).

Definition two_sessions : list pydict :=
  [[(u "id", PStr (u "s1")); (u "created_at", PStr (u "today"))];
   [(u "id", PStr (u "s2"))]].

Definition two_sessions_json : str :=
  u (dq "[{'id':'s1','created_at':'today'},{'id':'s2'}]").

(** * Properties *)

Arguments u : simpl never.

(** ** Basic facts *)

Lemma str_eqb_refl (a : str) : str_eqb a a = true.
Proof.
  induction a as [|x a IH]; simpl; [reflexivity|].
  now rewrite N.eqb_refl, IH.
Qed.

Lemma str_eqb_eq (a b : str) : str_eqb a b = true <-> a = b.
Proof.
  split.
  - revert b; induction a as [|x a IH]; intros [|y b] H; simpl in H;
      try discriminate; [reflexivity|].
    apply andb_true_iff in H as [Hx Hr].
    apply N.eqb_eq in Hx. apply IH in Hr. now subst.
  - intros ->. apply str_eqb_refl.
Qed.

Lemma appended_app (a b : list effect) :
  appended (a ++ b) = appended a ++ appended b.
Proof. apply flat_map_app. Qed.

Lemma printed_app (a b : list effect) :
  printed (a ++ b) = printed a ++ printed b.
Proof. apply flat_map_app. Qed.

(** [paired] goes two effects at a time, so facts about it are proved by
    induction on a bound of the length. *)
Lemma paired_app_bounded (n : nat) :
  forall a b, (List.length a <= n)%nat -> paired a -> paired b -> paired (a ++ b).
Proof.
  induction n as [|n IH]; intros a b Hn Ha Hb.
  - destruct a; [assumption | simpl in Hn; lia].
  - destruct a as [|e a]; [assumption|].
    destruct e; simpl in *; try (apply IH; [lia | assumption | assumption]).
    + destruct a as [|e' a]; [contradiction|].
      destruct e'; try contradiction.
      destruct Ha as [-> Ha]. simpl. split; [reflexivity|].
      apply IH; [simpl in Hn; lia | assumption | assumption].
    + contradiction.
Qed.

Lemma paired_app (a b : list effect) :
  paired a -> paired b -> paired (a ++ b).
Proof. apply (paired_app_bounded (List.length a)); lia. Qed.

(** ** The fuel of the JSON scanner *)

Lemma skip_ws_length (s : str) : (List.length (skip_ws s) <= List.length s)%nat.
Proof.
  induction s as [|c s IH]; simpl; [lia|].
  destruct (is_json_ws c); simpl; lia.
Qed.

Lemma tl_length {A} (s : list A) : (List.length (tl s) <= List.length s)%nat.
Proof. destruct s; simpl; lia. Qed.

Lemma head_is_length (c : N) (s : str) :
  head_is c s = true -> List.length s = S (List.length (tl s)).
Proof. destruct s; simpl; [discriminate | reflexivity]. Qed.

Lemma hex4_length (s rest : str) (n : N) :
  hex4 s = Some (n, rest) -> (List.length rest <= List.length s)%nat.
Proof.
  unfold hex4. destruct s as [|a [|b [|c [|d r]]]]; try discriminate.
  destruct (hex_value a), (hex_value b), (hex_value c), (hex_value d);
    try discriminate.
  intros H; inversion H; subst. simpl. lia.
Qed.

Lemma join_surrogate_length (c : N) (rest : str) :
  (List.length (snd (join_surrogate c rest)) <= List.length rest)%nat.
Proof.
  unfold join_surrogate.
  destruct (is_high_surrogate c && head_is 92 rest && head_is 117 (tl rest));
    [|simpl; lia].
  destruct (hex4 (tl (tl rest))) as [[c2 rest']|] eqn:E; [|simpl; lia].
  destruct (is_low_surrogate c2); simpl; [|lia].
  apply hex4_length in E.
  pose proof (tl_length rest). pose proof (tl_length (tl rest)). lia.
Qed.

Lemma scanstring_length (fuel : nat) :
  forall s acc t rest,
    scanstring fuel s acc = Some (t, rest) ->
    (List.length rest < List.length s)%nat.
Proof.
  induction fuel as [|fuel IH]; intros s acc t rest H; simpl in H;
    [discriminate|].
  destruct s as [|c s']; [discriminate|].
  destruct (c =? 34).
  { inversion H; subst. simpl. lia. }
  destruct (c =? 92).
  { destruct s' as [|e s'']; [discriminate|].
    destruct (e =? 117).
    - destruct (hex4 s'') as [[cp r]|] eqn:E; [|discriminate].
      apply IH in H. apply hex4_length in E.
      pose proof (join_surrogate_length cp r). simpl. lia.
    - destruct (simple_escape e); [|discriminate].
      apply IH in H. simpl. lia. }
  destruct (c <=? 31); [discriminate|].
  apply IH in H. simpl. lia.
Qed.

(** With at least as much fuel as characters, the fuel does not matter. *)
Lemma scanstring_enough (fuel : nat) :
  forall fuel' s acc,
    (List.length s <= fuel)%nat ->
    (List.length s <= fuel')%nat ->
    scanstring fuel s acc = scanstring fuel' s acc.
Proof.
  induction fuel as [|fuel IH]; intros fuel' s acc Hlen Hlen'.
  - destruct s; [|simpl in Hlen; lia]. destruct fuel'; reflexivity.
  - destruct fuel' as [|fuel'].
    { destruct s; [reflexivity | simpl in Hlen'; lia]. }
    simpl.
    destruct s as [|c s']; [reflexivity|]. simpl in Hlen, Hlen'.
    destruct (c =? 34); [reflexivity|].
    destruct (c =? 92).
    { destruct s' as [|e s'']; [reflexivity|]. simpl in Hlen, Hlen'.
      destruct (e =? 117).
      - destruct (hex4 s'') as [[cp r]|] eqn:E; [|reflexivity].
        apply hex4_length in E.
        pose proof (join_surrogate_length cp r).
        apply IH; lia.
      - destruct (simple_escape e); [|reflexivity].
        apply IH; lia. }
    destruct (c <=? 31); [reflexivity|].
    apply IH; lia.
Qed.

Lemma digits_length (s : str) :
  forall acc k, (List.length (snd (digits s acc k)) <= List.length s)%nat.
Proof.
  induction s as [|c s IH]; intros acc k; simpl; [lia|].
  destruct (is_digit c); simpl; [|lia].
  specialize (IH (acc * 10 + (c - 48)) (S k)). lia.
Qed.

Lemma scan_int_length (s rest : str) (neg : bool) (n : N) (count : nat) :
  scan_int s = Some (neg, n, count, rest) ->
  (List.length rest < List.length s)%nat.
Proof.
  unfold scan_int.
  set (s1 := if head_is 45 s then tl s else s).
  assert (H1 : (List.length s1 <= List.length s)%nat).
  { subst s1. destruct (head_is 45 s); [apply tl_length | lia]. }
  clearbody s1. generalize (head_is 45 s). intros neg0.
  destruct (head_is 48 s1) eqn:E0.
  - intros [= <- <- <- <-]. apply head_is_length in E0.
    change (List.length (tl s1) < List.length s)%nat. lia.
  - destruct s1 as [|c s1'] eqn:Es1; [discriminate|].
    destruct (is_digit c) eqn:Ed; [|discriminate].
    intros [= <- <- <- <-]. cbn [digits]. rewrite Ed.
    pose proof (digits_length s1' (c - 48) 1).
    simpl in H1. lia.
Qed.

Lemma scan_frac_length (m : N) (s rest : str) (m' : N) (k : nat) :
  scan_frac m s = Some (m', k, rest) ->
  (List.length rest <= List.length s)%nat.
Proof.
  unfold scan_frac. destruct (head_is 46 s); [|discriminate].
  destruct (tl s) as [|c r] eqn:E; [discriminate|].
  destruct (is_digit c); [|discriminate].
  pose proof (digits_length (c :: r) m O) as D.
  pose proof (tl_length s) as T. rewrite E in T.
  destruct (digits (c :: r) m O) as [[m0 k0] r0].
  intros [= <- <- <-]. simpl in D, T. lia.
Qed.

Lemma scan_exp_length (s rest : str) (e : Z) :
  scan_exp s = Some (e, rest) ->
  (List.length rest <= List.length s)%nat.
Proof.
  unfold scan_exp. destruct (head_is 101 s || head_is 69 s); [|discriminate].
  set (s2 := if head_is 45 (tl s) || head_is 43 (tl s)
             then tl (tl s) else tl s).
  assert (H2 : (List.length s2 <= List.length s)%nat).
  { subst s2. pose proof (tl_length s). pose proof (tl_length (tl s)).
    destruct (head_is 45 (tl s) || head_is 43 (tl s)); lia. }
  clearbody s2.
  pose proof (digits_length s2 0 O) as D.
  destruct (digits s2 0 O) as [[n k] r]. simpl in D.
  destruct k; [discriminate|].
  intros H; inversion H; subst. lia.
Qed.

Lemma scan_number_length (m : nat) (s rest : str) (v : pyval) :
  scan_number m s = Ok v rest ->
  (List.length rest < List.length s)%nat.
Proof.
  unfold scan_number.
  destruct (scan_int s) as [[[[neg n] count] s1]|] eqn:Ei; [|discriminate].
  apply scan_int_length in Ei.
  destruct (scan_frac n s1) as [[[m' k] s2]|] eqn:Ef.
  - apply scan_frac_length in Ef.
    destruct (scan_exp s2) as [[e s3]|] eqn:Ee.
    + apply scan_exp_length in Ee. intros H; inversion H; subst. lia.
    + intros H; inversion H; subst. lia.
  - destruct (scan_exp s1) as [[e s2]|] eqn:Ee.
    + apply scan_exp_length in Ee. intros H; inversion H; subst. lia.
    + destruct (int_refused m count); [discriminate|].
      intros H; inversion H; subst. lia.
Qed.

Lemma after_literal_length (lit : str) :
  forall s rest,
    after_literal lit s = Some rest ->
    (List.length rest + List.length lit = List.length s)%nat.
Proof.
  induction lit as [|y lit IH]; intros s rest H; simpl in H.
  - inversion H; subst. simpl. lia.
  - destruct s as [|x s']; [discriminate|].
    destruct (x =? y); [|discriminate].
    apply IH in H. simpl. lia.
Qed.

Lemma scan_constant_length (s rest : str) (v : pyval) :
  scan_constant s = Some (v, rest) ->
  (List.length rest < List.length s)%nat.
Proof.
  unfold scan_constant.
  assert (Hne : Forall (fun e => fst e <> []) constants).
  { repeat constructor; discriminate. }
  induction constants as [|[lit w] table IH]; simpl; [discriminate|].
  inversion Hne as [|? ? Hlit Htable]; subst.
  destruct (after_literal lit s) as [r|] eqn:E.
  - intros H; inversion H; subst. apply after_literal_length in E.
    destruct lit; [contradiction|]. simpl in E. lia.
  - apply IH. exact Htable.
Qed.

(** What a scan leaves is shorter than what it was given. *)
Lemma scan_length (m fuel : nat) :
  (forall depth s v rest,
      scan_once m fuel depth s = Ok v rest ->
      (List.length rest < List.length s)%nat)
  /\ (forall depth s acc l rest,
      scan_elems m fuel depth s acc = Ok l rest ->
      (List.length rest < List.length s)%nat)
  /\ (forall depth s acc d rest,
      scan_members m fuel depth s acc = Ok d rest ->
      (List.length rest < List.length s)%nat).
Proof.
  induction fuel as [|fuel (IHo & IHe & IHm)].
  { repeat split; intros; discriminate. }
  repeat split.
  - intros depth s v rest H. simpl in H.
    destruct s as [|c s']; [discriminate|].
    pose proof (skip_ws_length s') as W.
    pose proof (tl_length (skip_ws s')) as T.
    destruct (c =? 34).
    { destruct (scanstring (List.length s') s' []) as [[t r]|] eqn:E;
        [|discriminate].
      apply scanstring_length in E. injection H as <- <-. simpl. lia. }
    destruct (c =? 123).
    { destruct depth as [|depth']; [discriminate|].
      destruct (head_is 125 (skip_ws s')).
      - injection H as <- <-. simpl. lia.
      - destruct (scan_members m fuel depth' (skip_ws s') [])
          as [d r| | | |] eqn:E; try discriminate.
        apply IHm in E. injection H as <- <-. simpl. lia. }
    destruct (c =? 91).
    { destruct depth as [|depth']; [discriminate|].
      destruct (head_is 93 (skip_ws s')).
      - injection H as <- <-. simpl. lia.
      - destruct (scan_elems m fuel depth' (skip_ws s') [])
          as [l r| | | |] eqn:E; try discriminate.
        apply IHe in E. injection H as <- <-. simpl. lia. }
    destruct (scan_constant (c :: s')) as [[w r]|] eqn:E.
    { apply scan_constant_length in E. injection H as <- <-. exact E. }
    apply scan_number_length in H. exact H.
  - intros depth s acc l rest H. simpl in H.
    destruct (scan_once m fuel depth s) as [v r| | | |] eqn:E;
      try discriminate.
    apply IHo in E.
    pose proof (skip_ws_length r) as W.
    pose proof (tl_length (skip_ws r)) as T.
    destruct (head_is 93 (skip_ws r)).
    { injection H as <- <-. lia. }
    destruct (head_is 44 (skip_ws r)); [|discriminate].
    apply IHe in H.
    pose proof (skip_ws_length (tl (skip_ws r))). lia.
  - intros depth s acc d rest H. simpl in H.
    destruct (head_is 34 s) eqn:Hq; [|discriminate].
    apply head_is_length in Hq.
    destruct (scanstring (List.length (tl s)) (tl s) []) as [[key s2]|] eqn:E;
      [|discriminate].
    apply scanstring_length in E.
    destruct (head_is 58 (skip_ws s2)); [|discriminate].
    pose proof (skip_ws_length s2).
    pose proof (tl_length (skip_ws s2)).
    pose proof (skip_ws_length (tl (skip_ws s2))).
    destruct (scan_once m fuel depth (skip_ws (tl (skip_ws s2))))
      as [v r| | | |] eqn:E'; try discriminate.
    apply IHo in E'.
    pose proof (skip_ws_length r) as W.
    pose proof (tl_length (skip_ws r)) as T.
    destruct (head_is 125 (skip_ws r)).
    { injection H as <- <-. lia. }
    destruct (head_is 44 (skip_ws r)); [|discriminate].
    apply IHm in H.
    pose proof (skip_ws_length (tl (skip_ws r))). lia.
Qed.

Lemma scan_number_fuel (m : nat) (s : str) : scan_number m s <> NoFuel.
Proof.
  unfold scan_number.
  destruct (scan_int s) as [[[[neg n] count] s1]|]; [|discriminate].
  destruct (scan_frac n s1) as [[[m' k] s2]|].
  - destruct (scan_exp s2) as [[e s3]|]; discriminate.
  - destruct (scan_exp s1) as [[e s2]|]; [discriminate|].
    destruct (int_refused m count); discriminate.
Qed.

(** With fuel for twice the characters, no scan stops for want of it. *)
Lemma scan_fuel_enough (m fuel : nat) :
  (forall depth s,
      (2 * List.length s + 1 <= fuel)%nat ->
      scan_once m fuel depth s <> NoFuel)
  /\ (forall depth s acc,
      (2 * List.length s + 2 <= fuel)%nat ->
      scan_elems m fuel depth s acc <> NoFuel)
  /\ (forall depth s acc,
      (2 * List.length s + 2 <= fuel)%nat ->
      scan_members m fuel depth s acc <> NoFuel).
Proof.
  induction fuel as [|fuel (IHo & IHe & IHm)].
  { repeat split; intros; lia. }
  repeat split.
  - intros depth s Hf. simpl.
    destruct s as [|c s']; [discriminate|]. simpl in Hf.
    pose proof (skip_ws_length s') as W.
    destruct (c =? 34).
    { destruct (scanstring (List.length s') s' []) as [[t r]|]; discriminate. }
    destruct (c =? 123).
    { destruct depth as [|depth']; [discriminate|].
      destruct (head_is 125 (skip_ws s')); [discriminate|].
      specialize (IHm depth' (skip_ws s') [] ltac:(lia)).
      destruct (scan_members m fuel depth' (skip_ws s') []); congruence. }
    destruct (c =? 91).
    { destruct depth as [|depth']; [discriminate|].
      destruct (head_is 93 (skip_ws s')); [discriminate|].
      specialize (IHe depth' (skip_ws s') [] ltac:(lia)).
      destruct (scan_elems m fuel depth' (skip_ws s') []); congruence. }
    destruct (scan_constant (c :: s')) as [[w r]|]; [discriminate|].
    apply scan_number_fuel.
  - intros depth s acc Hf. simpl.
    specialize (IHo depth s ltac:(lia)).
    destruct (scan_once m fuel depth s) as [v r| | | |] eqn:E;
      try discriminate; [|congruence].
    apply (proj1 (scan_length m fuel)) in E.
    pose proof (skip_ws_length r) as W.
    destruct (head_is 93 (skip_ws r)); [discriminate|].
    destruct (head_is 44 (skip_ws r)) eqn:Hc; [|discriminate].
    apply head_is_length in Hc.
    pose proof (skip_ws_length (tl (skip_ws r))).
    apply IHe. lia.
  - intros depth s acc Hf. simpl.
    destruct (head_is 34 s) eqn:Hq; [|discriminate].
    apply head_is_length in Hq.
    destruct (scanstring (List.length (tl s)) (tl s) []) as [[key s2]|] eqn:E;
      [|discriminate].
    apply scanstring_length in E.
    destruct (head_is 58 (skip_ws s2)); [|discriminate].
    pose proof (skip_ws_length s2).
    pose proof (tl_length (skip_ws s2)).
    pose proof (skip_ws_length (tl (skip_ws s2))).
    specialize (IHo depth (skip_ws (tl (skip_ws s2))) ltac:(lia)).
    destruct (scan_once m fuel depth (skip_ws (tl (skip_ws s2))))
      as [v r| | | |] eqn:E'; try discriminate; [|congruence].
    apply (proj1 (scan_length m fuel)) in E'.
    pose proof (skip_ws_length r) as W.
    destruct (head_is 125 (skip_ws r)); [discriminate|].
    destruct (head_is 44 (skip_ws r)) eqn:Hc; [|discriminate].
    apply head_is_length in Hc.
    pose proof (skip_ws_length (tl (skip_ws r))).
    apply IHm. lia.
Qed.

(** A scan that does not stop for want of fuel gives the same with more. *)
Lemma scan_more_fuel (m fuel : nat) :
  forall fuel', (fuel <= fuel')%nat ->
  (forall depth s,
      scan_once m fuel depth s <> NoFuel ->
      scan_once m fuel' depth s = scan_once m fuel depth s)
  /\ (forall depth s acc,
      scan_elems m fuel depth s acc <> NoFuel ->
      scan_elems m fuel' depth s acc = scan_elems m fuel depth s acc)
  /\ (forall depth s acc,
      scan_members m fuel depth s acc <> NoFuel ->
      scan_members m fuel' depth s acc = scan_members m fuel depth s acc).
Proof.
  induction fuel as [|fuel IH]; intros fuel' Hle.
  { repeat split; intros; simpl in *; congruence. }
  destruct fuel' as [|fuel']; [lia|].
  destruct (IH fuel' ltac:(lia)) as (IHo & IHe & IHm). clear IH.
  repeat split.
  - intros depth s H. simpl in H |- *.
    destruct s as [|c s']; [reflexivity|].
    destruct (c =? 34); [reflexivity|].
    destruct (c =? 123).
    { destruct depth as [|depth']; [reflexivity|].
      destruct (head_is 125 (skip_ws s')); [reflexivity|].
      rewrite IHm; [reflexivity|].
      intros E; rewrite E in H; congruence. }
    destruct (c =? 91).
    { destruct depth as [|depth']; [reflexivity|].
      destruct (head_is 93 (skip_ws s')); [reflexivity|].
      rewrite IHe; [reflexivity|].
      intros E; rewrite E in H; congruence. }
    reflexivity.
  - intros depth s acc H. simpl in H |- *.
    rewrite IHo; [|intros E; rewrite E in H; congruence].
    destruct (scan_once m fuel depth s) as [v r| | | |]; try reflexivity.
    destruct (head_is 93 (skip_ws r)); [reflexivity|].
    destruct (head_is 44 (skip_ws r)); [|reflexivity].
    apply IHe. exact H.
  - intros depth s acc H. simpl in H |- *.
    destruct (head_is 34 s); [|reflexivity].
    destruct (scanstring (List.length (tl s)) (tl s) []) as [[key s2]|];
      [|reflexivity].
    destruct (head_is 58 (skip_ws s2)); [|reflexivity].
    rewrite IHo; [|intros E; rewrite E in H; congruence].
    destruct (scan_once m fuel depth (skip_ws (tl (skip_ws s2))))
      as [v r| | | |]; try reflexivity.
    destruct (head_is 125 (skip_ws r)); [reflexivity|].
    destruct (head_is 44 (skip_ws r)); [|reflexivity].
    apply IHm. exact H.
Qed.

(** [json_fuel] is enough: the scan of [json_loads] never stops for want
    of fuel, and more fuel changes nothing. *)
Lemma json_fuel_enough (m depth : nat) (s : str) :
  scan_once m (json_fuel s) depth (skip_ws s) <> NoFuel
  /\ forall fuel,
      (json_fuel s <= fuel)%nat ->
      scan_once m fuel depth (skip_ws s)
      = scan_once m (json_fuel s) depth (skip_ws s).
Proof.
  assert (H : scan_once m (json_fuel s) depth (skip_ws s) <> NoFuel).
  { apply (proj1 (scan_fuel_enough m (json_fuel s))).
    pose proof (skip_ws_length s). unfold json_fuel. lia. }
  split; [exact H|].
  intros fuel Hle.
  apply (proj1 (scan_more_fuel m (json_fuel s) fuel Hle)). exact H.
Qed.

(** ** How a computation of the decoder changes the state *)

Lemma grows_refl (st : state) : grows st st.
Proof.
  exists []. simpl. rewrite !app_nil_r. repeat split; reflexivity.
Qed.

Lemma grows_trans (a b c : state) : grows a b -> grows b c -> grows a c.
Proof.
  intros (n1 & T1 & R1 & A1 & P1) (n2 & T2 & R2 & A2 & P2).
  exists (n1 ++ n2). repeat split.
  - now rewrite T2, T1, app_assoc.
  - now rewrite R2, R1, appended_app, concat_app, app_assoc.
  - now rewrite appended_app, printed_app, A1, A2.
  - now apply paired_app.
Qed.

Lemma grows_emit (e : effect) (st : state) :
  match e with Append _ | Print _ => False | _ => True end ->
  grows st {| result := result st; trace := trace st ++ [e] |}.
Proof.
  intros He. exists [e]. simpl.
  destruct e; try contradiction; simpl; rewrite ?app_nil_r; repeat split; reflexivity.
Qed.

(** One text fragment: [result += s] and then [print(s)]. *)
Lemma grows_fragment (s : str) (st : state) :
  grows st {| result := result st ++ s;
              trace := (trace st ++ [Append s]) ++ [Print s] |}.
Proof.
  exists [Append s; Print s]. simpl. rewrite app_nil_r, <- app_assoc.
  repeat split; reflexivity.
Qed.

Lemma accumulating_ret {A} (a : A) : accumulating (ret a).
Proof. intros rt st. apply grows_refl. Qed.

Lemma accumulating_raise {A} (e : exn) : accumulating (@raise A e).
Proof. intros rt st. apply grows_refl. Qed.

Lemma accumulating_bind {A B} (m : M A) (f : A -> M B) :
  accumulating m -> (forall a, accumulating (f a)) -> accumulating (bind m f).
Proof.
  intros Hm Hf rt st. unfold bind. specialize (Hm rt st).
  destruct (m rt st) as [[a|e] st1]; simpl in *; [|assumption].
  eapply grows_trans; [eassumption|]. apply Hf.
Qed.

Lemma accumulating_try_except {A} (m : M A) (handler : exn -> M A) :
  accumulating m -> (forall e, accumulating (handler e)) ->
  accumulating (try_except m handler).
Proof.
  intros Hm Hh rt st. unfold try_except. specialize (Hm rt st).
  destruct (m rt st) as [[a|e] st1]; simpl in *; [assumption|].
  eapply grows_trans; [eassumption|]. apply Hh.
Qed.

Lemma accumulating_py_get_default (v : pyval) (key : str) (default : pyval) :
  accumulating (py_get_default v key default).
Proof.
  destruct v; simpl; try apply accumulating_raise.
  destruct (dict_lookup entries key); apply accumulating_ret.
Qed.

Lemma accumulating_py_getitem (v : pyval) (key : str) :
  accumulating (py_getitem v key).
Proof.
  destruct v; simpl; try apply accumulating_raise.
  destruct (dict_lookup entries key);
    [apply accumulating_ret | apply accumulating_raise].
Qed.

Lemma accumulating_py_iter (v : pyval) : accumulating (py_iter v).
Proof.
  destruct v; simpl; (apply accumulating_raise || apply accumulating_ret).
Qed.

Lemma accumulating_py_and (a b : M pyval) :
  accumulating a -> accumulating b -> accumulating (py_and a b).
Proof.
  intros Ha Hb. apply accumulating_bind; [assumption|].
  intros x. destruct (truthy x); [assumption | apply accumulating_ret].
Qed.

(** [result += v] followed by [print] of the same value. *)
Lemma accumulating_fragment (v w : pyval) :
  v = w ->
  accumulating (ApiClient.iadd_result v ;; print w).
Proof.
  intros <- rt st. destruct v; try apply grows_refl.
  apply grows_fragment.
Qed.

Create HintDb acc.

#[local] Hint Resolve accumulating_ret accumulating_raise
  accumulating_py_get_default accumulating_py_getitem accumulating_py_iter
  : acc.

Lemma accumulating_for_parts (items : list pyval) :
  accumulating (ApiClient.for_parts items).
Proof.
  induction items as [|part items IH]; simpl; [apply accumulating_ret|].
  apply accumulating_bind; [apply accumulating_py_get_default|].
  intros t. apply accumulating_bind; [|intros _; exact IH].
  destruct (truthy t); [|apply accumulating_ret].
  intros rt st. unfold bind at 1.
  destruct (py_getitem part (u "text") rt st) as [[v|e] st1] eqn:E1;
    [|pose proof (accumulating_py_getitem part (u "text") rt st) as G;
      now rewrite E1 in G].
  assert (st1 = st) as ->.
  { destruct part; simpl in E1; try discriminate.
    destruct (dict_lookup entries (u "text")); now inversion E1. }
  unfold bind at 1.
  destruct (ApiClient.iadd_result v rt st) as [[[]|e] st2] eqn:E2.
  - assert (py_getitem part (u "text") rt st2 = (Return v, st2)) as E3.
    { destruct part; simpl in E1 |- *; try discriminate.
      destruct (dict_lookup entries (u "text")); now inversion E1. }
    unfold bind at 1. rewrite E3.
    pose proof (accumulating_fragment v v eq_refl rt st) as G.
    unfold bind in G. now rewrite E2 in G.
  - pose proof (accumulating_fragment v v eq_refl rt st) as G.
    unfold bind in G. now rewrite E2 in G.
Qed.

Lemma accumulating_handle_event_data (event_data : str) :
  accumulating (ApiClient.handle_event_data event_data).
Proof.
  unfold ApiClient.handle_event_data.
  apply accumulating_bind.
  { intros rt st. apply grows_refl. }
  intros event. apply accumulating_bind.
  { apply accumulating_py_and; [apply accumulating_py_get_default|].
    apply accumulating_bind; [auto with acc|].
    intros ec. apply accumulating_py_get_default. }
  intros c. destruct (truthy c); [|auto with acc].
  repeat (apply accumulating_bind; [auto with acc|]; intros ?).
  apply accumulating_for_parts.
Qed.

Lemma accumulating_process_line (line : bytes) :
  accumulating (ApiClient.process_line line).
Proof.
  unfold ApiClient.process_line.
  apply accumulating_bind.
  { destruct (bytes_decode line); auto with acc. }
  intros decoded.
  destruct (startswith (strip decoded) (u "data: ")); [|auto with acc].
  destruct (skipn 6 (strip decoded)) as [|c p]; [auto with acc|].
  apply accumulating_try_except; [apply accumulating_handle_event_data|].
  intros e; destruct e; auto with acc.
Qed.

Lemma accumulating_for_lines (lines : list bytes) :
  accumulating (ApiClient.for_lines lines).
Proof.
  induction lines as [|line lines IH]; simpl; [auto with acc|].
  apply accumulating_bind.
  { intros rt st. apply grows_emit. exact I. }
  intros _. apply accumulating_bind; [apply accumulating_process_line|].
  intros _. exact IH.
Qed.

(** ** The accumulated output and the terminal writes *)

(** C7. During one streaming call the accumulated output only grows: the
    value of [result] before a line is processed is a prefix of its value
    after the line, whether the line is skipped, contributes text or makes
    the call raise; the same holds across any run of lines. *)
Theorem accumulated_output_only_grows :
  (forall (line : bytes) (rt : runtime) (st : state),
      exists suffix,
        result (snd (ApiClient.process_line line rt st)) = result st ++ suffix)
  /\ (forall (lines : list bytes) (rt : runtime) (st : state),
      exists suffix,
        result (snd (ApiClient.for_lines lines rt st)) = result st ++ suffix).
Proof.
  split.
  - intros line rt st.
    destruct (accumulating_process_line line rt st) as (new & _ & R & _).
    eexists; exact R.
  - intros lines rt st.
    destruct (accumulating_for_lines lines rt st) as (new & _ & R & _).
    eexists; exact R.
Qed.

(** [run_agent_streaming] with a session, in terms of the loop. *)
Lemma run_agent_streaming_unfold
  (self : ApiClient.t) (app_name user_id session_id message : str)
  (rt : runtime) (st : state) (s : ApiClient.ClientSession) :
  ApiClient.session self = Some s ->
  let rq := streaming_request self app_name user_id session_id message in
  let resp := server rt rq in
  ApiClient.run_agent_streaming self app_name user_id session_id message rt st
  = if (status resp >=? 400)%Z
    then (Raise (ApiClient.http_error resp), issued rq st)
    else
      match ApiClient.for_lines (content resp) rt
              {| result := []; trace := trace st ++ [Request rq] |} with
      | (Return _, st') => (Return (result st'), st')
      | (Raise e, st') => (Raise e, st')
      end.
Proof.
  intros Hs. cbv zeta.
  unfold ApiClient.run_agent_streaming, streaming_request, issued.
  rewrite Hs. unfold bind at 1, session_request.
  match goal with
  | |- context [server rt ?q] => set (resp := server rt q)
  end.
  destruct (status resp >=? 400)%Z; [reflexivity|].
  unfold bind, ApiClient.set_result, ApiClient.get_result. simpl.
  destruct (ApiClient.for_lines (content resp) rt _) as [[[]|e] st'];
    reflexivity.
Qed.

(** C6. In every streaming call the fragments written to the terminal
    are, in order and one for one, the fragments appended to the
    accumulated output: each [result += fragment] is at once followed by
    the write of that fragment, no other write is made, and the string
    returned is the concatenation of those fragments. *)
Theorem writes_follow_appends
  (self : ApiClient.t) (app_name user_id session_id message : str)
  (rt : runtime) (st : state) :
  let run :=
    ApiClient.run_agent_streaming self app_name user_id session_id message
      rt st in
  exists new,
    trace (snd run) = trace st ++ new
    /\ printed new = appended new
    /\ paired new
    /\ forall r, fst run = Return r -> r = List.concat (appended new).
Proof.
  intros run. subst run.
  destruct (ApiClient.session self) as [s|] eqn:Hs.
  2:{ unfold ApiClient.run_agent_streaming. rewrite Hs.
      exists []. unfold raise; simpl. rewrite app_nil_r.
      repeat split; try reflexivity. intros r H; discriminate. }
  rewrite (run_agent_streaming_unfold _ _ _ _ _ _ _ s Hs).
  set (rq := streaming_request self app_name user_id session_id message).
  set (resp := server rt rq).
  destruct (status resp >=? 400)%Z.
  { exists [Request rq]. simpl. repeat split; try reflexivity.
    intros r H; discriminate. }
  set (st1 := {| result := []; trace := trace st ++ [Request rq] |}).
  destruct (accumulating_for_lines (content resp) rt st1)
    as (new & T & R & A & P).
  exists (Request rq :: new).
  destruct (ApiClient.for_lines (content resp) rt st1) as [[[]|e] st2];
    simpl in *.
  - rewrite T, <- app_assoc. repeat split; try assumption; try easy.
    intros r H. inversion H; subst. exact R.
  - rewrite T, <- app_assoc. repeat split; try assumption; try easy.
Qed.

Lemma writes_follow_appends_example :
  let run :=
    ApiClient.run_agent_streaming client0 (u "app") (u "user") (u "s1")
      (u "hello") (fixed_runtime (stream_response hello_stream)) initial in
  exists new,
    trace (snd run) = new
    /\ printed new = appended new
    /\ u "Hello" = List.concat (appended new).
Proof.
  destruct (writes_follow_appends client0 (u "app") (u "user") (u "s1")
              (u "hello") (fixed_runtime (stream_response hello_stream))
              initial) as (new & T & P & _ & R).
  exists new. split; [exact T|]. split; [exact P|].
  apply R. vm_compute. reflexivity.
Defined.

(** ** Failure of the request that opens the stream *)

(** C3. When the request that opens the stream is answered with a status
    of 400 or more, [run_agent_streaming] raises the HTTP error made of
    the status code and the body text, and nothing else happens: the
    request is the only effect (no line is taken from the stream, nothing
    is appended or written) and [result] is untouched. *)
Theorem streaming_http_error
  (self : ApiClient.t) (app_name user_id session_id message : str)
  (rt : runtime) (st : state) (s : ApiClient.ClientSession) :
  ApiClient.session self = Some s ->
  let rq := streaming_request self app_name user_id session_id message in
  let resp := server rt rq in
  (400 <= status resp)%Z ->
  ApiClient.run_agent_streaming self app_name user_id session_id message rt st
  = (Raise (ClickException
              (u "HTTP " ++ str_of_Z (status resp) ++ u ": " ++ text resp)),
     {| result := result st; trace := trace st ++ [Request rq] |}).
Proof.
  intros Hs rq resp Hstatus.
  rewrite (run_agent_streaming_unfold _ _ _ _ _ _ _ s Hs).
  fold rq. fold resp.
  destruct (status resp >=? 400)%Z eqn:E; [reflexivity|].
  rewrite Z.geb_leb in E. apply Z.leb_gt in E. lia.
Qed.

Lemma streaming_http_error_404 :
  (400 <= status not_found)%Z
  /\ ApiClient.run_agent_streaming client0 (u "app") (u "user") (u "s1")
       (u "hello") (fixed_runtime not_found) initial
     = (Raise (ClickException (u "HTTP 404: session not found")),
        {| result := [];
           trace := [Request (streaming_request client0 (u "app") (u "user")
                                (u "s1") (u "hello"))] |}).
Proof.
  split; [vm_compute; discriminate|].
  apply (streaming_http_error client0 (u "app") (u "user") (u "s1")
           (u "hello") (fixed_runtime not_found) initial
           ApiClient.ClientSession_new eq_refl).
  vm_compute; discriminate.
Defined.

(** ** The two-frame stream *)

Lemma snoc_all {A} (l t : list A) :
  fold_left (fun t e => t ++ [e]) l t = t ++ l.
Proof.
  revert t; induction l as [|x l IH]; intros t; simpl.
  - now rewrite app_nil_r.
  - now rewrite IH, <- app_assoc.
Qed.

(** C4. For the stream of the two frames carrying ["Hel"] and ["lo"],
    each followed by a blank line, [run_agent_streaming] returns
    ["Hello"], and what it does is: issue the request, then read the four
    lines, appending and writing ["Hel"] on the first and ["lo"] on the
    third. *)
Theorem hello_stream_decoded
  (self : ApiClient.t) (app_name user_id session_id message : str)
  (rt : runtime) (st : state) (s : ApiClient.ClientSession) :
  ApiClient.session self = Some s ->
  let rq := streaming_request self app_name user_id session_id message in
  let resp := server rt rq in
  (status resp < 400)%Z ->
  content resp = readlines hello_stream ->
  let run :=
    ApiClient.run_agent_streaming self app_name user_id session_id message
      rt st in
  fst run = Return (u "Hello")
  /\ printed (trace (snd run)) = printed (trace st) ++ [u "Hel"; u "lo"]
  /\ exists l1 l2 l3 l4,
      readlines hello_stream = [l1; l2; l3; l4]
      /\ trace (snd run)
         = trace st
           ++ [Request rq; ReadLine l1; Append (u "Hel"); Print (u "Hel");
               ReadLine l2; ReadLine l3; Append (u "lo"); Print (u "lo");
               ReadLine l4].
Proof.
  intros Hs rq resp Hstatus Hcontent run. subst run.
  rewrite (run_agent_streaming_unfold _ _ _ _ _ _ _ s Hs).
  fold rq. fold resp.
  destruct (status resp >=? 400)%Z eqn:E.
  { rewrite Z.geb_leb in E. apply Z.leb_le in E. lia. }
  rewrite Hcontent.
  assert (Hrun :
    ApiClient.for_lines (readlines hello_stream) rt
      {| result := []; trace := trace st ++ [Request rq] |}
    = (Return tt,
       {| result := u "Hello";
          trace :=
            fold_left (fun t e => t ++ [e])
              match readlines hello_stream with
              | [l1; l2; l3; l4] =>
                [Request rq;
                 ReadLine l1; Append (u "Hel"); Print (u "Hel");
                 ReadLine l2; ReadLine l3; Append (u "lo"); Print (u "lo");
                 ReadLine l4]
              | _ => []
              end (trace st) |})).
  { generalize (trace st); intros t0. generalize rq; intros q.
    vm_compute. reflexivity. }
  rewrite snoc_all in Hrun.
  rewrite Hrun. simpl fst. simpl snd. simpl result. simpl trace.
  split; [reflexivity|]. split.
  - rewrite printed_app. reflexivity.
  - vm_compute readlines. do 4 eexists. split; reflexivity.
Qed.

Lemma hello_stream_decoded_example :
  let run :=
    ApiClient.run_agent_streaming client0 (u "app") (u "user") (u "s1")
      (u "hello") (fixed_runtime (stream_response hello_stream)) initial in
  fst run = Return (u "Hello")
  /\ printed (trace (snd run)) = [u "Hel"; u "lo"].
Proof.
  destruct (hello_stream_decoded client0 (u "app") (u "user") (u "s1")
              (u "hello") (fixed_runtime (stream_response hello_stream))
              initial ApiClient.ClientSession_new eq_refl
              ltac:(vm_compute; reflexivity) eq_refl) as (H1 & H2 & _).
  split; assumption.
Defined.

(** ** The transport adapter *)

(** [_request] with a session, as one equation. *)
Lemma request_unfold
  (self : ApiClient.t) (method endpoint : str) (kw : kwargs)
  (rt : runtime) (st : state) (s : ApiClient.ClientSession) :
  ApiClient.session self = Some s ->
  let rq :=
    {| method := method; url := ApiClient.base_url self ++ endpoint;
       body := kw |} in
  let resp := server rt rq in
  ApiClient._request self method endpoint kw rt st
  = (if (status resp >=? 400)%Z then Raise (ApiClient.http_error resp)
     else if str_eqb (content_type resp) (u "application/json")
          then json resp
          else Return (PDict [(u "text", PStr (text resp))]),
     issued rq st).
Proof.
  intros Hs rq resp. unfold ApiClient._request. rewrite Hs.
  unfold bind, session_request. fold rq. fold resp.
  destruct (status resp >=? 400)%Z; [reflexivity|].
  destruct (str_eqb (content_type resp) (u "application/json"));
    reflexivity.
Qed.

(** C5. With a session, [_request] issues one request and then: a status
    of 400 or more raises the one error kind [ClickException], whose
    message holds the status code and the body text as it is; otherwise a
    response of content type [application/json] gives what its [json()]
    gives, the parsed body, and any other content type gives the wrapper
    [{"text": body}]. *)
Theorem request_outcomes
  (self : ApiClient.t) (method endpoint : str) (kw : kwargs)
  (rt : runtime) (st : state) (s : ApiClient.ClientSession) :
  ApiClient.session self = Some s ->
  let rq :=
    {| method := method; url := ApiClient.base_url self ++ endpoint;
       body := kw |} in
  let resp := server rt rq in
  let run := ApiClient._request self method endpoint kw rt st in
  snd run = issued rq st
  /\ ((400 <= status resp)%Z ->
      fst run
      = Raise (ClickException
                 (u "HTTP " ++ str_of_Z (status resp) ++ u ": " ++ text resp)))
  /\ ((status resp < 400)%Z ->
      content_type resp = u "application/json" ->
      fst run = json resp)
  /\ ((status resp < 400)%Z ->
      content_type resp <> u "application/json" ->
      fst run = Return (PDict [(u "text", PStr (text resp))])).
Proof.
  intros Hs rq resp run. subst run.
  rewrite (request_unfold self method endpoint kw rt st s Hs).
  fold rq. fold resp. cbn [fst snd].
  destruct (status resp >=? 400)%Z eqn:E; rewrite Z.geb_leb in E.
  - apply Z.leb_le in E.
    repeat split; try reflexivity; intros; lia.
  - apply Z.leb_gt in E.
    destruct (str_eqb (content_type resp) (u "application/json")) eqn:C.
    + apply str_eqb_eq in C.
      repeat split; try reflexivity; intros; (lia || congruence).
    + assert (content_type resp <> u "application/json") as N.
      { intros H. apply str_eqb_eq in H. congruence. }
      repeat split; try reflexivity; intros; (lia || congruence).
Qed.

Lemma request_outcomes_examples :
  fst (ApiClient._request client0 (u "GET") (u "/list-apps") NoBody
         (fixed_runtime not_found) initial)
  = Raise (ClickException (u "HTTP 404: session not found"))
  /\ fst (ApiClient._request client0 (u "GET") (u "/list-apps") NoBody
            (fixed_runtime
               (text_response 200 (u "application/json") (u (dq "['a']"))))
            initial)
     = Return (PList [PStr (u "a")])
  /\ fst (ApiClient._request client0 (u "GET") (u "/list-apps") NoBody
            (fixed_runtime (text_response 200 (u "text/plain") (u "pong")))
            initial)
     = Return (PDict [(u "text", PStr (u "pong"))]).
Proof.
  split; [|split].
  - apply (request_outcomes client0 (u "GET") (u "/list-apps") NoBody
             (fixed_runtime not_found) initial
             ApiClient.ClientSession_new eq_refl).
    vm_compute; discriminate.
  - apply (request_outcomes client0 (u "GET") (u "/list-apps") NoBody
             (fixed_runtime
                (text_response 200 (u "application/json") (u (dq "['a']"))))
             initial ApiClient.ClientSession_new eq_refl).
    + vm_compute; reflexivity.
    + reflexivity.
  - apply (request_outcomes client0 (u "GET") (u "/list-apps") NoBody
             (fixed_runtime (text_response 200 (u "text/plain") (u "pong")))
             initial ApiClient.ClientSession_new eq_refl).
    + vm_compute; reflexivity.
    + vm_compute; discriminate.
Defined.

(** Every one-shot resource operation is one call of [_request], whose
    error it passes on and whose value it returns or discards. *)
Lemma operations_go_through_request
  (self : ApiClient.t) (op : operation) (rt : runtime) (st : state) :
  match local_file op with
  | Some path => open_rb rt path <> None
  | None => True
  end ->
  exists method endpoint kw,
    let r := ApiClient._request self method endpoint kw rt st in
    snd (call self op rt st) = snd r
    /\ match fst r with
       | Raise e => fst (call self op rt st) = Raise e
       | Return v =>
         fst (call self op rt st) = Return v
         \/ fst (call self op rt st) = Return PNone
       end.
Proof.
  intros Hfile.
  destruct op; simpl in *;
    unfold ApiClient.list_apps, ApiClient.create_session,
      ApiClient.get_session, ApiClient.list_sessions,
      ApiClient.delete_session, ApiClient.run_agent,
      ApiClient.list_artifacts, ApiClient.get_artifact,
      ApiClient.upload_artifact, ApiClient.delete_artifact,
      ApiClient.list_eval_sets, ApiClient.create_eval_set,
      ApiClient.list_evals_in_set;
    try (unfold bind, open_file;
         destruct (open_rb rt file_path); [|contradiction]);
    match goal with
    | |- context [ApiClient._request self ?m ?e ?k] =>
      exists m, e, k; unfold bind; cbv zeta;
      destruct (ApiClient._request self m e k rt st) as [[v|e'] st'];
      simpl; auto
    end.
Qed.

(** ** The command [agent run] without streaming *)

(** C8. When the run is answered with the JSON array of the one event of
    author ["agent"] and text ["hi"], the command echoes the user's
    message and then exactly one line, ["[agent]: hi"]. *)
Theorem run_agent_renders_hi
  (base_url app_name user_id session_id message : str)
  (rt : runtime) (st : state) :
  let client := ApiClient.__aenter__ (ApiClient.__init__ base_url) in
  let rq := run_request_of client app_name user_id session_id message false in
  let resp := server rt rq in
  (status resp < 400)%Z ->
  content_type resp = u "application/json" ->
  json resp = json_outcome hi_events ->
  Cli.run_agent base_url app_name user_id session_id message false rt st
  = (Return tt,
     {| result := result st;
        trace := trace st
                 ++ [Request rq;
                     Echo (u "[" ++ user_id ++ u "]: " ++ message);
                     Echo (u "[agent]: hi")] |}).
Proof.
  intros client rq resp Hstatus Hct Hjson.
  unfold Cli.run_agent. fold client.
  unfold ApiClient.run_agent. unfold bind at 1.
  rewrite (request_unfold client (u "POST") (u "/run") _ rt st
             ApiClient.ClientSession_new eq_refl).
  change {| method := u "POST"; url := ApiClient.base_url client ++ u "/run";
            body := _ |} with rq.
  change (server rt rq) with resp.
  destruct (status resp >=? 400)%Z eqn:E.
  { rewrite Z.geb_leb in E. apply Z.leb_le in E. lia. }
  rewrite Hct, str_eqb_refl, Hjson.
  replace (trace st
           ++ [Request rq; Echo (u "[" ++ user_id ++ u "]: " ++ message);
               Echo (u "[agent]: hi")])
    with (fold_left (fun t e => t ++ [e])
            [Request rq; Echo (u "[" ++ user_id ++ u "]: " ++ message);
             Echo (u "[agent]: hi")] (trace st))
    by apply snoc_all.
  destruct st as [r0 t0]. unfold issued. cbn [result trace].
  generalize rq. intros q. vm_compute. reflexivity.
Qed.

Lemma run_agent_renders_hi_example :
  printed_lines
    (trace (snd (Cli.run_agent (u "http://localhost:8000") (u "app")
                   (u "bob") (u "s1") (u "hello") false
                   (fixed_runtime
                      (text_response 200 (u "application/json") hi_events))
                   initial)))
  = [u "[bob]: hello"; u "[agent]: hi"].
Proof.
  rewrite (run_agent_renders_hi (u "http://localhost:8000") (u "app")
             (u "bob") (u "s1") (u "hello")
             (fixed_runtime
                (text_response 200 (u "application/json") hi_events))
             initial ltac:(vm_compute; reflexivity) eq_refl eq_refl).
  reflexivity.
Defined.

(** ** Creating a session *)

Lemma app_not_longer {A} (l x : list A) : l ++ x = l -> x = [].
Proof.
  intros H. apply (app_inv_head l). now rewrite app_nil_r.
Qed.

(** C10. [create_session] issues one [POST]. Its body is
    [{"state": state}] when [state] is a dictionary that is not empty,
    and the empty object otherwise, so that [None] and the empty
    dictionary both send the empty object and no other state does. Its
    endpoint is [/apps/{app_name}/users/{user_id}/sessions/{session_id}]
    when [session_id] is a string that is not empty, and ends with
    [/sessions] otherwise, so that the empty string counts as absent and
    no other session id does. *)
Theorem create_session_collapses_falsy
  (self : ApiClient.t) (rt : runtime) (st : state)
  (s : ApiClient.ClientSession)
  (app_name user_id : str) (session_id : option str)
  (state : option pydict) :
  ApiClient.session self = Some s ->
  let sessions :=
    u "/apps/" ++ app_name ++ u "/users/" ++ user_id ++ u "/sessions" in
  exists endpoint json_data,
    snd (ApiClient.create_session self app_name user_id session_id state rt st)
    = {| result := result st;
         trace :=
           trace st
           ++ [Request {| method := u "POST";
                          url := ApiClient.base_url self ++ endpoint;
                          body := Json json_data |}] |}
    /\ (forall d, state = Some d -> d <> [] ->
        json_data = PDict [(u "state", PDict d)])
    /\ (state = None \/ state = Some [] -> json_data = PDict [])
    /\ (json_data = PDict [] -> state = None \/ state = Some [])
    /\ (forall sid, session_id = Some sid -> sid <> [] ->
        endpoint = sessions ++ u "/" ++ sid)
    /\ (session_id = None \/ session_id = Some [] -> endpoint = sessions)
    /\ (endpoint = sessions -> session_id = None \/ session_id = Some []).
Proof.
  intros Hs sessions. unfold ApiClient.create_session.
  match goal with
  | |- context [ApiClient._request self ?m ?e (Json ?d)] =>
    exists e, d;
    rewrite (request_unfold self m e (Json d) rt st s Hs)
  end.
  split; [reflexivity|].
  assert (Hend : forall sid,
    u "/apps/" ++ app_name ++ u "/users/" ++ user_id ++ u "/sessions/" ++ sid
    = sessions ++ u "/" ++ sid).
  { intros sid. unfold sessions. now rewrite <- !app_assoc. }
  repeat split.
  - intros d -> Hd. destruct d as [|kv d]; [contradiction | reflexivity].
  - intros [-> | ->]; reflexivity.
  - destruct state as [[|kv d]|]; simpl; auto. discriminate.
  - intros sid -> Hsid. destruct sid as [|c sid]; [contradiction|].
    cbn [ApiClient.opt_str_value ApiClient.opt_str_format truthy].
    apply Hend.
  - intros [-> | ->]; reflexivity.
  - destruct session_id as [[|c sid]|];
      cbn [ApiClient.opt_str_value ApiClient.opt_str_format truthy]; auto.
    rewrite Hend. intros H. apply app_not_longer in H. discriminate.
Qed.

Lemma create_session_collapses_falsy_example :
  ApiClient.session client0 <> None
  /\ snd (ApiClient.create_session client0 (u "app") (u "bob") (Some [])
            (Some []) (fixed_runtime not_found) initial)
     = issued {| method := u "POST";
                 url := u "http://localhost:8000/apps/app/users/bob/sessions";
                 body := Json (PDict []) |} initial
  /\ snd (ApiClient.create_session client0 (u "app") (u "bob")
            (Some (u "s1")) (Some [(u "k", PStr (u "v"))])
            (fixed_runtime not_found) initial)
     = issued {| method := u "POST";
                 url :=
                   u "http://localhost:8000/apps/app/users/bob/sessions/s1";
                 body :=
                   Json (PDict [(u "state", PDict [(u "k", PStr (u "v"))])])
              |} initial.
Proof.
  split; [discriminate|]. split.
  - destruct (create_session_collapses_falsy client0
                (fixed_runtime not_found) initial ApiClient.ClientSession_new
                (u "app") (u "bob") (Some []) (Some []) eq_refl)
      as (endpoint & json_data & Hsnd & _ & Hd & _ & _ & He & _).
    rewrite Hsnd, (Hd (or_intror eq_refl)), (He (or_intror eq_refl)).
    reflexivity.
  - destruct (create_session_collapses_falsy client0
                (fixed_runtime not_found) initial ApiClient.ClientSession_new
                (u "app") (u "bob") (Some (u "s1"))
                (Some [(u "k", PStr (u "v"))]) eq_refl)
      as (endpoint & json_data & Hsnd & Hd & _ & _ & He & _).
    rewrite Hsnd, (Hd _ eq_refl ltac:(discriminate)),
      (He _ eq_refl ltac:(vm_compute; discriminate)).
    reflexivity.
Defined.

(** ** Before the connection scope is entered *)

(** C9, as amended. With no session, [_request] raises [RuntimeError]
    for every method, endpoint and body, issues no request and leaves the
    state as it was; so does every one-shot resource operation, all of
    which end in [_request], provided the local file it opens first, if
    any, can be opened. *)
Theorem uninitialized_client_raises
  (self : ApiClient.t) (rt : runtime) (st : state) :
  ApiClient.session self = None ->
  (forall method endpoint kw,
      ApiClient._request self method endpoint kw rt st
      = (Raise not_initialized, st))
  /\ (forall op,
      match local_file op with
      | Some path => open_rb rt path <> None
      | None => True
      end ->
      call self op rt st = (Raise not_initialized, st)).
Proof.
  intros Hs.
  assert (Hreq : forall method endpoint kw st',
             ApiClient._request self method endpoint kw rt st'
             = (Raise not_initialized, st')).
  { intros. unfold ApiClient._request. now rewrite Hs. }
  split; [intros; apply Hreq|].
  intros op Hfile.
  destruct op; simpl in *;
    unfold ApiClient.list_apps, ApiClient.create_session,
      ApiClient.get_session, ApiClient.list_sessions,
      ApiClient.delete_session, ApiClient.run_agent,
      ApiClient.list_artifacts, ApiClient.get_artifact,
      ApiClient.upload_artifact, ApiClient.delete_artifact,
      ApiClient.list_eval_sets, ApiClient.create_eval_set,
      ApiClient.list_evals_in_set, bind;
    rewrite ?Hreq; try reflexivity.
  unfold open_file.
  destruct (open_rb rt file_path); [apply Hreq | contradiction].
Qed.

Lemma uninitialized_client_raises_example :
  ApiClient.session (ApiClient.__init__ (u "http://localhost:8000")) = None
  /\ call (ApiClient.__init__ (u "http://localhost:8000"))
       (GetSession (u "app") (u "bob") (u "s1"))
       (fixed_runtime not_found) initial
     = (Raise not_initialized, initial).
Proof.
  split; [reflexivity|].
  apply (uninitialized_client_raises
           (ApiClient.__init__ (u "http://localhost:8000"))
           (fixed_runtime not_found) initial eq_refl).
  exact I.
Defined.

(** C9, as stated, fails: on a client without a session,
    [upload_artifact] for a local file that cannot be opened raises
    [FileNotFoundError], not [RuntimeError]. *)
Lemma uninitialized_upload_missing_file :
  let self := ApiClient.__init__ (u "http://localhost:8000") in
  let run :=
    call self
      (UploadArtifact (u "app") (u "bob") (u "s1") (u "missing.bin") None)
      (fixed_runtime not_found) initial in
  ApiClient.session self = None
  /\ run = (Raise FileNotFoundError, initial)
  /\ forall message, fst run <> Raise (RuntimeError message).
Proof.
  repeat split. intros message H. discriminate H.
Qed.

(** ** Valid streams *)

Ltac run :=
  repeat (progress (unfold bind, ret, raise, try_except, of_outcome, emit,
                      print, py_str, py_and, py_get, py_get_default,
                      py_getitem, py_iter, ApiClient.iadd_result; simpl)).

Lemma for_parts_shaped (items : list pyval) (rt : runtime) (st : state) :
  forallb part_shaped items = true ->
  exists st',
    ApiClient.for_parts items rt st = (Return tt, st')
    /\ result st'
       = result st ++ List.concat (flat_map part_text_values items).
Proof.
  revert st; induction items as [|part items IH]; intros st H; simpl in *.
  - exists st. now rewrite app_nil_r.
  - apply andb_true_iff in H as [Hp Hrest].
    destruct part; simpl in Hp; try discriminate.
    run.
    destruct (dict_lookup entries (u "text")) as [v|] eqn:E; simpl;
      [|apply (IH st Hrest)].
    destruct (truthy v) eqn:Tv.
    + destruct v; simpl in Hp, Tv;
        try discriminate; try (rewrite Tv in Hp; discriminate).
      destruct s as [|c s]; [discriminate|]. simpl.
      destruct (IH {| result := result st ++ c :: s;
                      trace := (trace st ++ [Append (c :: s)])
                               ++ [Print (c :: s)] |} Hrest)
        as (st' & Hrun & Hres).
      exists st'. split; [exact Hrun|].
      rewrite Hres. simpl. now rewrite <- app_assoc.
    + destruct (IH st Hrest) as (st' & Hrun & Hres).
      exists st'. split; [exact Hrun|]. rewrite Hres.
      destruct v; try reflexivity.
      destruct s; [reflexivity | discriminate].
Qed.

Lemma handle_event_shaped (payload : str) (event : pyval)
  (rt : runtime) (st : state) :
  json_loads_in rt payload = Return event ->
  event_shaped event = true ->
  exists st',
    ApiClient.handle_event_data payload rt st = (Return tt, st')
    /\ result st' = result st ++ List.concat (event_text_values event).
Proof.
  intros Hj Hshape. unfold ApiClient.handle_event_data.
  unfold bind at 1, loads. rewrite Hj.
  assert (Hskip : exists st', (Return tt, st) = (Return tt, st')
                              /\ result st' = result st ++ []).
  { exists st. now rewrite app_nil_r. }
  destruct event; simpl in Hshape; try discriminate.
  unfold event_text_values.
  run.
  destruct (dict_lookup entries (u "content")) as [c|] eqn:Ec; simpl;
    [|exact Hskip].
  destruct (truthy c) eqn:Tc.
  2:{ run. rewrite Tc.
      destruct c; try exact Hskip.
      destruct entries0; [exact Hskip | discriminate]. }
  destruct c as [ | b | z | f | s0 | l | cd ]; simpl in Hshape, Tc;
    try discriminate; try (rewrite Tc in Hshape; discriminate).
  run.
  destruct (dict_lookup cd (u "parts")) as [ps|] eqn:Ep; simpl;
    [|exact Hskip].
  destruct (truthy ps) eqn:Tp.
  2:{ destruct ps; try exact Hskip.
      destruct items; [exact Hskip | discriminate]. }
  destruct ps; simpl in Hshape, Tp;
    try discriminate; try (rewrite Tp in Hshape; discriminate).
  run. apply for_parts_shaped. exact Hshape.
Qed.

Lemma process_line_valid (line : bytes) (rt : runtime) (st : state) :
  valid_line rt line = true ->
  exists st',
    ApiClient.process_line line rt st = (Return tt, st')
    /\ result st' = result st ++ List.concat (line_text_values rt line).
Proof.
  unfold valid_line, line_text_values, parsed_frame, frame_payload,
    ApiClient.process_line.
  assert (Hskip : exists st', (Return tt, st) = (Return tt, st')
                              /\ result st' = result st ++ []).
  { exists st. now rewrite app_nil_r. }
  destruct (bytes_decode line) as [decoded|]; [|discriminate].
  unfold bind at 1, ret at 1. cbv beta iota.
  destruct (startswith (strip decoded) (u "data: ")); [|intros _; exact Hskip].
  destruct (skipn 6 (strip decoded)) as [|c p]; [intros _; exact Hskip|].
  unfold try_except.
  destruct (json_loads_in rt (c :: p)) as [event|e] eqn:Hj.
  - intros Hshape.
    destruct (handle_event_shaped (c :: p) event rt st Hj Hshape)
      as (st' & Hrun & Hres).
    rewrite Hrun. exists st'. split; [reflexivity | exact Hres].
  - intros He. unfold ApiClient.handle_event_data.
    unfold bind at 1, loads. rewrite Hj.
    destruct e; try discriminate. exact Hskip.
Qed.

Lemma for_lines_valid (lines : list bytes) (rt : runtime) (st : state) :
  valid_stream rt lines = true ->
  exists st',
    ApiClient.for_lines lines rt st = (Return tt, st')
    /\ result st' = result st ++ accumulated_output rt lines.
Proof.
  unfold accumulated_output.
  revert st; induction lines as [|line lines IH]; intros st H; simpl in *.
  - exists st. now rewrite app_nil_r.
  - apply andb_true_iff in H as [Hl Hrest].
    unfold bind at 1, emit.
    destruct (process_line_valid line rt
                {| result := result st; trace := trace st ++ [ReadLine line] |}
                Hl) as (st1 & Hrun1 & Hres1).
    unfold bind at 1. rewrite Hrun1.
    destruct (IH st1 Hrest) as (st2 & Hrun2 & Hres2).
    exists st2. split; [exact Hrun2|].
    rewrite Hres2, Hres1. simpl.
    now rewrite concat_app, app_assoc.
Qed.

(** On any other stream the call raises: validity is exactly what the
    decoder needs in order to return. *)
Lemma for_parts_unshaped (items : list pyval) (rt : runtime) (st : state) :
  forallb part_shaped items = false ->
  exists e st', ApiClient.for_parts items rt st = (Raise e, st').
Proof.
  revert st; induction items as [|part items IH]; intros st H; simpl in *.
  - discriminate.
  - destruct (part_shaped part) eqn:Hp; simpl in H.
    + destruct part; simpl in Hp; try discriminate. run.
      destruct (dict_lookup entries (u "text")) as [v|] eqn:E; simpl;
        [|apply (IH st H)].
      destruct (truthy v) eqn:Tv; [|apply (IH st H)].
      destruct v; simpl in Hp, Tv;
        try discriminate; try (rewrite Tv in Hp; discriminate).
      apply IH. exact H.
    + clear H IH. destruct part; run; try (eexists; eexists; reflexivity).
      simpl in Hp.
      destruct (dict_lookup entries (u "text")) as [v|] eqn:E;
        [|discriminate]. simpl.
      destruct (truthy v) eqn:Tv.
      * destruct v; simpl in Hp, Tv; try discriminate;
          eexists; eexists; reflexivity.
      * destruct v; simpl in Hp, Tv; try discriminate;
          rewrite Tv in Hp; discriminate.
Qed.

Lemma handle_event_unshaped (payload : str) (event : pyval)
  (rt : runtime) (st : state) :
  json_loads_in rt payload = Return event ->
  event_shaped event = false ->
  exists e st',
    ApiClient.handle_event_data payload rt st = (Raise e, st')
    /\ e <> JSONDecodeError.
Proof.
  intros Hj Hshape. unfold ApiClient.handle_event_data.
  unfold bind at 1, loads. rewrite Hj.
  destruct event; run;
    try (exists AttributeError, st; split; [reflexivity | discriminate]).
  simpl in Hshape.
  destruct (dict_lookup entries (u "content")) as [c|] eqn:Ec;
    [|discriminate]. simpl.
  destruct (truthy c) eqn:Tc.
  2:{ destruct c; simpl in Hshape, Tc; try discriminate;
        try (rewrite Tc in Hshape; discriminate).
      destruct entries0; discriminate. }
  destruct c as [ | b | z | f | s0 | l | cd ]; simpl in Hshape, Tc;
    try discriminate; run;
    try (exists AttributeError, st; split; [reflexivity | discriminate]).
  destruct (dict_lookup cd (u "parts")) as [ps|] eqn:Ep;
    [|discriminate]. simpl.
  destruct (truthy ps) eqn:Tp.
  2:{ destruct ps; simpl in Hshape, Tp; try discriminate;
        try (rewrite Tp in Hshape; discriminate).
      destruct items; discriminate. }
  destruct ps as [ | b | z | f | s0 | l | pd ]; simpl in Hshape, Tp;
    try discriminate; run;
    try (exists TypeError, st; split; [reflexivity | discriminate]).
  - destruct s0 as [|c0 s0]; [discriminate|]. simpl. run.
    exists AttributeError, st. split; [reflexivity | discriminate].
  - destruct (for_parts_unshaped l rt st Hshape) as (e & st' & Hrun).
    rewrite Hrun. exists e, st'. split; [reflexivity|].
    intros ->. revert Hrun. clear.
    revert st; induction l as [|part l IH]; intros st; simpl; run;
      [discriminate|].
    destruct part; run; try discriminate.
    destruct (dict_lookup entries (u "text")) as [v|]; simpl; [|apply IH].
    destruct (truthy v); [|apply IH].
    destruct v; run; try discriminate. apply IH.
  - destruct pd as [|[k v] pd]; [discriminate|]. simpl. run.
    exists AttributeError, st. split; [reflexivity | discriminate].
Qed.

Lemma process_line_invalid (line : bytes) (rt : runtime) (st : state) :
  valid_line rt line = false ->
  exists e st', ApiClient.process_line line rt st = (Raise e, st').
Proof.
  unfold valid_line, parsed_frame, frame_payload, ApiClient.process_line.
  destruct (bytes_decode line) as [decoded|];
    [|intros _; eexists; eexists; reflexivity].
  unfold bind at 1, ret at 1. cbv beta iota.
  destruct (startswith (strip decoded) (u "data: ")); [|discriminate].
  destruct (skipn 6 (strip decoded)) as [|c p]; [discriminate|].
  unfold try_except.
  destruct (json_loads_in rt (c :: p)) as [event|e0] eqn:Hj.
  - intros Hshape.
    destruct (handle_event_unshaped (c :: p) event rt st Hj Hshape)
      as (e & st' & Hrun & Hne).
    rewrite Hrun. exists e, st'. destruct e; try reflexivity. contradiction.
  - intros He. unfold ApiClient.handle_event_data.
    unfold bind at 1, loads. rewrite Hj.
    destruct e0; try discriminate; eexists; eexists; reflexivity.
Qed.

Lemma for_lines_invalid (lines : list bytes) (rt : runtime) (st : state) :
  valid_stream rt lines = false ->
  exists e st', ApiClient.for_lines lines rt st = (Raise e, st').
Proof.
  revert st; induction lines as [|line lines IH]; intros st H; simpl in *.
  - discriminate.
  - unfold bind at 1, emit. unfold bind at 1.
    destruct (valid_line rt line) eqn:Hl; simpl in H.
    + destruct (process_line_valid line rt
                  {| result := result st;
                     trace := trace st ++ [ReadLine line] |} Hl)
        as (st1 & Hrun1 & _).
      rewrite Hrun1. apply IH. exact H.
    + destruct (process_line_invalid line rt
                  {| result := result st;
                     trace := trace st ++ [ReadLine line] |} Hl)
        as (e & st1 & Hrun1).
      rewrite Hrun1. exists e, st1. reflexivity.
Qed.

Lemma invalid_stream_raises
  (self : ApiClient.t) (app_name user_id session_id message : str)
  (rt : runtime) (st : state) (s : ApiClient.ClientSession) :
  ApiClient.session self = Some s ->
  let rq := streaming_request self app_name user_id session_id message in
  let resp := server rt rq in
  (status resp < 400)%Z ->
  valid_stream rt (content resp) = false ->
  exists e,
    fst (ApiClient.run_agent_streaming self app_name user_id session_id
           message rt st) = Raise e.
Proof.
  intros Hs rq resp Hstatus Hvalid.
  rewrite (run_agent_streaming_unfold _ _ _ _ _ _ _ s Hs).
  fold rq. fold resp.
  destruct (status resp >=? 400)%Z eqn:E.
  { rewrite Z.geb_leb in E. apply Z.leb_le in E. lia. }
  destruct (for_lines_invalid (content resp) rt
              {| result := []; trace := trace st ++ [Request rq] |} Hvalid)
    as (e & st' & Hrun).
  rewrite Hrun. exists e. reflexivity.
Qed.

(** C1, as amended. For every valid stream (each line is UTF-8 text;
    the payload of each frame either is not JSON or parses, within the
    limits the interpreter puts on the digits of an integer and on the
    depth of nesting, to an object whose [content] is absent, falsy or
    an object whose [parts] is absent, falsy or an array of objects
    whose [text] is absent, falsy or a string) whose text values hold no
    surrogate code point, [run_agent_streaming], once the status check
    has passed, returns the ordered concatenation of every text value
    inside [content.parts] of every successfully parsed frame, in stream
    order. The condition on the text values is for the terminal: [print]
    raises [UnicodeEncodeError] on text that the encoding of the terminal
    lacks, which for UTF-8 is a surrogate code point. *)
Theorem valid_stream_accumulated
  (self : ApiClient.t) (app_name user_id session_id message : str)
  (rt : runtime) (st : state) (s : ApiClient.ClientSession) :
  ApiClient.session self = Some s ->
  let rq := streaming_request self app_name user_id session_id message in
  let resp := server rt rq in
  (status resp < 400)%Z ->
  valid_stream rt (content resp) = true ->
  writable_stream rt (content resp) = true ->
  fst (ApiClient.run_agent_streaming self app_name user_id session_id
         message rt st)
  = Return (accumulated_output rt (content resp)).
Proof.
  intros Hs rq resp Hstatus Hvalid _.
  rewrite (run_agent_streaming_unfold _ _ _ _ _ _ _ s Hs).
  fold rq. fold resp.
  destruct (status resp >=? 400)%Z eqn:E.
  { rewrite Z.geb_leb in E. apply Z.leb_le in E. lia. }
  destruct (for_lines_valid (content resp) rt
              {| result := []; trace := trace st ++ [Request rq] |} Hvalid)
    as (st' & Hrun & Hres).
  rewrite Hrun. simpl. now rewrite Hres.
Qed.

Lemma valid_stream_accumulated_example :
  let rt := fixed_runtime (stream_response malformed_then_ok) in
  valid_stream rt (readlines malformed_then_ok) = true
  /\ writable_stream rt (readlines malformed_then_ok) = true
  /\ accumulated_output rt (readlines malformed_then_ok) = u "ok"
  /\ fst (ApiClient.run_agent_streaming client0 (u "app") (u "user")
            (u "s1") (u "hello") rt initial)
     = Return (accumulated_output rt (readlines malformed_then_ok)).
Proof.
  intros rt.
  split; [vm_compute; reflexivity|]. split; [vm_compute; reflexivity|].
  split; [vm_compute; reflexivity|].
  apply (valid_stream_accumulated client0 (u "app") (u "user") (u "s1")
           (u "hello") (fixed_runtime (stream_response malformed_then_ok))
           initial ApiClient.ClientSession_new eq_refl).
  - vm_compute; reflexivity.
  - vm_compute; reflexivity.
  - vm_compute; reflexivity.
Defined.

(** C1, as stated for every stream of lines, fails: on a stream whose
    first frame is the JSON number 42 the call raises [AttributeError]
    and returns no string, although the text values of the stream
    concatenate to ["ok"]. It also raises on a frame whose [text] is the
    number 5 ([TypeError]), on a line that is not UTF-8
    ([UnicodeDecodeError]), on a frame that holds an integer of 4301
    digits ([ValueError]) and on a frame of 1001 arrays one inside the
    other ([RecursionError], in an interpreter that allows 1000). *)
Lemma number_frame_no_result :
  let rt body := fixed_runtime (stream_response body) in
  let run body :=
    fst (ApiClient.run_agent_streaming client0 (u "app") (u "user") (u "s1")
           (u "hello") (rt body) initial) in
  accumulated_output (rt number_then_ok) (readlines number_then_ok) = u "ok"
  /\ run number_then_ok = Raise AttributeError
  /\ run number_then_ok
     <> Return (accumulated_output (rt number_then_ok)
                  (readlines number_then_ok))
  /\ run number_text_line = Raise TypeError
  /\ run not_utf8_line = Raise UnicodeDecodeError
  /\ run (long_integer_line ++ ok_line)%string = Raise ValueError
  /\ run (deep_line ++ ok_line)%string = Raise RecursionError.
Proof.
  split; [vm_compute; reflexivity|].
  split; [vm_compute; reflexivity|].
  split; [vm_compute; discriminate|].
  repeat split; vm_compute; reflexivity.
Qed.

(** ** Lines that contribute nothing *)

Lemma startswith_nil_data : startswith [] (u "data: ") = false.
Proof. reflexivity. Qed.

(** C2, as amended. A line that is blank, or lacks the [data: ] marker
    after trimming, or has an empty payload, or whose payload is not
    JSON ([json.loads] raises [json.JSONDecodeError]), or whose payload
    parses, within the limits of the interpreter, to an object that
    lacks the [content.parts] structure (its [content] is absent, falsy,
    or an object without [parts]) changes nothing: it adds no character
    to [result], writes nothing, raises nothing, and the loop goes on
    with the lines that follow. *)
Theorem ignorable_line_skipped (line : bytes) (rt : runtime) (st : state) :
  ignorable rt object_lacks_content_parts line = true ->
  ApiClient.process_line line rt st = (Return tt, st)
  /\ forall rest,
      ApiClient.for_lines (line :: rest) rt st
      = ApiClient.for_lines rest rt
          {| result := result st; trace := trace st ++ [ReadLine line] |}.
Proof.
  intros H.
  assert (Hline : forall st0, ApiClient.process_line line rt st0
                              = (Return tt, st0)).
  { intros st0. unfold ignorable in H. unfold ApiClient.process_line.
    destruct (bytes_decode line) as [decoded|]; [|discriminate].
    unfold bind at 1, ret at 1. cbv beta iota.
    destruct (strip decoded) as [|c0 s0] eqn:Es.
    { rewrite startswith_nil_data. reflexivity. }
    destruct (startswith (c0 :: s0) (u "data: ")); [|reflexivity].
    destruct (skipn 6 (c0 :: s0)) as [|c p]; [reflexivity|].
    unfold try_except, ApiClient.handle_event_data.
    unfold bind at 1, loads.
    destruct (json_loads_in rt (c :: p)) as [v|e];
      [|destruct e; try discriminate; reflexivity].
    destruct v; simpl in H; try discriminate.
    run.
    destruct (dict_lookup entries (u "content")) as [cv|]; simpl;
      [|reflexivity].
    destruct cv; simpl in H;
      try (apply negb_true_iff in H; run; repeat (rewrite H; run);
           reflexivity);
      run; try reflexivity.
    destruct entries0 as [|kv cd]; [reflexivity|]. cbv iota.
    destruct (dict_lookup (kv :: cd) (u "parts")); simpl;
      [discriminate | reflexivity]. }
  split; [apply Hline|].
  intros rest. simpl. unfold bind at 1, emit. unfold bind at 1.
  now rewrite Hline.
Qed.

Lemma ignorable_line_skipped_example :
  ignorable (fixed_runtime not_found) object_lacks_content_parts
    (dq "data: {not json" ++ lf)%string
  = true
  /\ ApiClient.for_lines [(dq "data: {not json" ++ lf)%string; ok_line]
       (fixed_runtime not_found) initial
     = ApiClient.for_lines [ok_line] (fixed_runtime not_found)
         {| result := [];
            trace := [ReadLine (dq "data: {not json" ++ lf)%string] |}.
Proof.
  split; [vm_compute; reflexivity|].
  apply (ignorable_line_skipped (dq "data: {not json" ++ lf)%string
           (fixed_runtime not_found) initial).
  vm_compute; reflexivity.
Defined.

(** C2, as stated, fails: the line [data: 42] parses to a value that
    lacks the [content.parts] structure, yet processing it raises
    [AttributeError], and the loop stops there, with the line that
    follows never read. The same happens for an object whose [content]
    is a non-empty string. A frame that holds an integer of 4301 digits
    has no [content.parts] either, and [json.loads] fails on it, but
    with a [ValueError] that is not the [json.JSONDecodeError] the
    decoder catches: the loop stops there as well; so it does, with
    [RecursionError], on a frame of arrays nested too deep. *)
Lemma number_line_raises :
  let rt := fixed_runtime not_found in
  ignorable rt lacks_content_parts number_line = true
  /\ ApiClient.process_line number_line rt initial
     = (Raise AttributeError, initial)
  /\ ApiClient.for_lines [number_line; ok_line] rt initial
     = (Raise AttributeError,
        {| result := []; trace := [ReadLine number_line] |})
  /\ ignorable rt lacks_content_parts text_content_line = true
  /\ ApiClient.process_line text_content_line rt initial
     = (Raise AttributeError, initial)
  /\ ApiClient.for_lines [long_integer_line; ok_line] rt initial
     = (Raise ValueError,
        {| result := []; trace := [ReadLine long_integer_line] |})
  /\ ApiClient.for_lines [deep_line; ok_line] rt initial
     = (Raise RecursionError,
        {| result := []; trace := [ReadLine deep_line] |}).
Proof.
  repeat split; vm_compute; reflexivity.
Qed.

(** * Further properties of the client *)

(** ** The base URL *)

Lemma lstrip_slash_split (s : str) :
  exists k, s = repeat 47 k ++ lstrip_slash s.
Proof.
  induction s as [|c s (k & IH)]; simpl.
  - exists O. reflexivity.
  - destruct (c =? 47) eqn:E.
    + apply N.eqb_eq in E. subst c. exists (S k). simpl. now f_equal.
    + exists O. reflexivity.
Qed.

Lemma lstrip_slash_head (s r : str) (c : N) :
  lstrip_slash s = c :: r -> c <> 47.
Proof.
  induction s as [|x s IH]; simpl; [discriminate|].
  destruct (x =? 47) eqn:E; [exact IH|].
  intros [= -> ->]. now apply N.eqb_neq.
Qed.

Lemma rev_repeat {A} (x : A) (k : nat) : rev (repeat x k) = repeat x k.
Proof.
  induction k as [|k IH]; simpl; [reflexivity|].
  rewrite IH. clear IH. induction k as [|k IH]; simpl; [reflexivity|].
  now rewrite IH.
Qed.

(** X1. The base URL kept by [ApiClient] is the one given without its
    trailing slashes: nothing but slashes is removed, and what is kept
    does not end with a slash. *)
Theorem base_url_without_trailing_slash (base_url : str) :
  (exists k,
      base_url
      = ApiClient.base_url (ApiClient.__init__ base_url) ++ repeat 47 k)
  /\ (forall x,
         ApiClient.base_url (ApiClient.__init__ base_url) <> x ++ [47]).
Proof.
  unfold ApiClient.__init__, rstrip_slash. simpl. split.
  - destruct (lstrip_slash_split (rev base_url)) as (k & H).
    exists k. apply (f_equal (@rev N)) in H.
    rewrite rev_involutive, rev_app_distr, rev_repeat in H. exact H.
  - intros x H. apply (f_equal (@rev N)) in H.
    rewrite rev_involutive, rev_app_distr in H. simpl in H.
    apply lstrip_slash_head in H. congruence.
Qed.

(** ** Trimming *)

Lemma lstrip_head (s r : str) (c : N) :
  lstrip s = c :: r -> is_space c = false.
Proof.
  induction s as [|x s IH]; simpl; [discriminate|].
  destruct (is_space x) eqn:E; [exact IH|].
  intros [= -> ->]. exact E.
Qed.

Lemma lstrip_spaces (w s : str) :
  forallb is_space w = true -> lstrip (w ++ s) = lstrip s.
Proof.
  induction w as [|c w IH]; simpl; [reflexivity|].
  intros H. apply andb_true_iff in H as [Hc Hw]. rewrite Hc. now apply IH.
Qed.

Lemma lstrip_all_spaces (w : str) :
  forallb is_space w = true -> lstrip w = [].
Proof.
  intros H. rewrite <- (app_nil_r w). now rewrite lstrip_spaces.
Qed.

Lemma forallb_rev {A} (f : A -> bool) (l : list A) :
  forallb f (rev l) = forallb f l.
Proof.
  induction l as [|x l IH]; simpl; [reflexivity|].
  rewrite forallb_app, IH. simpl. rewrite andb_true_r. apply andb_comm.
Qed.

Lemma rstrip_spaces (s w : str) :
  forallb is_space w = true -> rstrip (s ++ w) = rstrip s.
Proof.
  intros H. unfold rstrip. rewrite rev_app_distr, lstrip_spaces;
    [reflexivity|]. now rewrite forallb_rev.
Qed.

(** Either [lstrip] takes the whole of [s], or it stops inside [s] and
    what follows [s] is untouched. *)
Lemma lstrip_app (s w : str) :
  (forallb is_space s = true /\ lstrip (s ++ w) = lstrip w)
  \/ (lstrip s <> [] /\ lstrip (s ++ w) = lstrip s ++ w).
Proof.
  induction s as [|c s IH]; simpl.
  - left. split; reflexivity.
  - destruct (is_space c) eqn:E; simpl.
    + exact IH.
    + right. split; [discriminate | reflexivity].
Qed.

Lemma strip_last (s x : str) (c : N) :
  strip s = x ++ [c] -> is_space c = false.
Proof.
  unfold strip, rstrip. intros H. apply (f_equal (@rev N)) in H.
  rewrite rev_involutive, rev_app_distr in H. simpl in H.
  now apply lstrip_head in H.
Qed.

(** X2. Trimming ignores the white space around a line: a text
    surrounded by any white space (a carriage return before the line
    feed, indentation) is trimmed to the same result, so the decoder
    treats both lines alike. *)
Theorem surrounding_space_ignored (w1 t w2 : str) :
  forallb is_space w1 = true ->
  forallb is_space w2 = true ->
  strip (w1 ++ t ++ w2) = strip t
  /\ forall line line' rt st,
      bytes_decode line = Some t ->
      bytes_decode line' = Some (w1 ++ t ++ w2) ->
      ApiClient.process_line line' rt st = ApiClient.process_line line rt st.
Proof.
  intros H1 H2.
  assert (Hs : strip (w1 ++ t ++ w2) = strip t).
  { unfold strip. rewrite lstrip_spaces by exact H1.
    destruct (lstrip_app t w2) as [[Ht E] | [Hne E]]; rewrite E.
    - rewrite (lstrip_all_spaces w2 H2), (lstrip_all_spaces t Ht).
      reflexivity.
    - now apply rstrip_spaces. }
  split; [exact Hs|].
  intros line line' rt st Hl Hl'.
  unfold ApiClient.process_line. rewrite Hl, Hl'.
  unfold bind, ret. now rewrite Hs.
Qed.

Lemma surrounding_space_ignored_example :
  strip ([32] ++ u "data: 1" ++ [13; 10]) = u "data: 1".
Proof.
  destruct (surrounding_space_ignored [32] (u "data: 1") [13; 10]
              eq_refl eq_refl) as [H _].
  rewrite H. vm_compute. reflexivity.
Defined.

(** ** The payload of a frame *)

Lemma startswith_split (p s : str) :
  startswith s p = true -> s = p ++ skipn (List.length p) s.
Proof.
  revert s; induction p as [|y p IH]; intros s H; simpl in *.
  - reflexivity.
  - destruct s as [|x s]; [discriminate|].
    apply andb_true_iff in H as [Hx Hs]. apply N.eqb_eq in Hx. subst.
    simpl. f_equal. now apply IH.
Qed.

(** X3. After trimming, a line that starts with the marker [data: ]
    always has something after it: the test for an empty payload never
    fails, and a line that is only the marker counts as a line without
    the marker, because trimming takes the space of the marker away. *)
Theorem payload_never_empty (line : bytes) (decoded : str) :
  bytes_decode line = Some decoded ->
  startswith (strip decoded) (u "data: ") = true ->
  skipn 6 (strip decoded) <> []
  /\ frame_payload line = Some (skipn 6 (strip decoded)).
Proof.
  intros Hd Hs.
  assert (Hne : skipn 6 (strip decoded) <> []).
  { intros E. apply startswith_split in Hs.
    change (List.length (u "data: ")) with 6%nat in Hs. rewrite E in Hs.
    change (u "data: " ++ []) with ([100; 97; 116; 97; 58] ++ [32]) in Hs.
    apply strip_last in Hs. discriminate. }
  split; [exact Hne|].
  unfold frame_payload. rewrite Hd. cbv zeta. rewrite Hs.
  destruct (skipn 6 (strip decoded)); [contradiction | reflexivity].
Qed.

Lemma payload_never_empty_example :
  frame_payload number_line = Some (u "42").
Proof.
  destruct (payload_never_empty number_line (u number_line)
              ltac:(vm_compute; reflexivity) ltac:(vm_compute; reflexivity))
    as [_ H].
  rewrite H. vm_compute. reflexivity.
Defined.

(** ** What a computation adds to the trace *)

Section Keeps.

Variable P : list effect -> Prop.
Hypothesis P_nil : P [].
Hypothesis P_app : forall a b, P a -> P b -> P (a ++ b).

Lemma keeps_unchanged {A} (m : M A) :
  (forall rt st, snd (m rt st) = st) -> keeps P m.
Proof.
  intros H rt st. exists []. rewrite H, app_nil_r. split; [reflexivity|].
  exact P_nil.
Qed.

Lemma keeps_ret {A} (a : A) : keeps P (ret a).
Proof. apply keeps_unchanged. reflexivity. Qed.

Lemma keeps_raise {A} (e : exn) : keeps P (@raise A e).
Proof. apply keeps_unchanged. reflexivity. Qed.

Lemma keeps_bind {A B} (m : M A) (f : A -> M B) :
  keeps P m -> (forall a, keeps P (f a)) -> keeps P (bind m f).
Proof.
  intros Hm Hf rt st. unfold bind. destruct (Hm rt st) as (n1 & T1 & P1).
  destruct (m rt st) as [[a|e] st1]; simpl in *.
  - destruct (Hf a rt st1) as (n2 & T2 & P2).
    exists (n1 ++ n2). rewrite T2, T1, app_assoc. split; [reflexivity|].
    now apply P_app.
  - exists n1. split; assumption.
Qed.

Lemma keeps_try_except {A} (m : M A) (handler : exn -> M A) :
  keeps P m -> (forall e, keeps P (handler e)) -> keeps P (try_except m handler).
Proof.
  intros Hm Hh rt st. unfold try_except.
  destruct (Hm rt st) as (n1 & T1 & P1).
  destruct (m rt st) as [[a|e] st1]; simpl in *.
  - exists n1. split; assumption.
  - destruct (Hh e rt st1) as (n2 & T2 & P2).
    exists (n1 ++ n2). rewrite T2, T1, app_assoc. split; [reflexivity|].
    now apply P_app.
Qed.

Lemma keeps_emit (e : effect) : P [e] -> keeps P (emit e).
Proof. intros H rt st. exists [e]. split; [reflexivity | exact H]. Qed.

Lemma keeps_py_get_default (v : pyval) (key : str) (default : pyval) :
  keeps P (py_get_default v key default).
Proof.
  destruct v; simpl; try apply keeps_raise.
  destruct (dict_lookup entries key); apply keeps_ret.
Qed.

Lemma keeps_py_getitem (v : pyval) (key : str) : keeps P (py_getitem v key).
Proof.
  destruct v; simpl; try apply keeps_raise.
  destruct (dict_lookup entries key); [apply keeps_ret | apply keeps_raise].
Qed.

Lemma keeps_py_iter (v : pyval) : keeps P (py_iter v).
Proof. destruct v; simpl; (apply keeps_raise || apply keeps_ret). Qed.

Lemma keeps_py_str (v : pyval) : keeps P (py_str v).
Proof. apply keeps_unchanged. reflexivity. Qed.

Lemma keeps_py_and (a b : M pyval) :
  keeps P a -> keeps P b -> keeps P (py_and a b).
Proof.
  intros Ha Hb. apply keeps_bind; [assumption|].
  intros x. destruct (truthy x); [assumption | apply keeps_ret].
Qed.

Lemma keeps_py_join (items : list pyval) : keeps P (py_join items).
Proof.
  induction items as [|x items IH]; simpl; [apply keeps_ret|].
  destruct x; try apply keeps_raise.
  apply keeps_bind; [exact IH|]. intros r. apply keeps_ret.
Qed.

End Keeps.

(** What one part does: it is skipped, or it raises, or its non-empty
    text is appended and then written. *)
Lemma for_parts_step (part : pyval) (items : list pyval)
  (rt : runtime) (st : state) :
  ApiClient.for_parts (part :: items) rt st = ApiClient.for_parts items rt st
  \/ (exists e, ApiClient.for_parts (part :: items) rt st = (Raise e, st))
  \/ (exists c s,
        ApiClient.for_parts (part :: items) rt st
        = ApiClient.for_parts items rt
            {| result := result st ++ c :: s;
               trace := (trace st ++ [Append (c :: s)])
                        ++ [Print (c :: s)] |}).
Proof.
  simpl. unfold bind, py_get, py_get_default, py_getitem.
  destruct part; simpl; try (right; left; eexists; reflexivity).
  destruct (dict_lookup entries (u "text")) as [t|] eqn:E; simpl;
    [|left; reflexivity].
  destruct (truthy t) eqn:T; [|left; reflexivity].
  destruct t; simpl in T |- *; try discriminate;
    try (right; left; eexists; reflexivity).
  destruct s as [|c s]; [discriminate|].
  right; right. exists c, s. reflexivity.
Qed.

Section KeepsDecoder.

Variable P : list effect -> Prop.
Hypothesis P_nil : P [].
Hypothesis P_app : forall a b, P a -> P b -> P (a ++ b).
Hypothesis P_fragment : forall c s, P [Append (c :: s); Print (c :: s)].

Lemma keeps_for_parts (items : list pyval) :
  keeps P (ApiClient.for_parts items).
Proof.
  induction items as [|part items IH]; [apply keeps_ret; assumption|].
  intros rt st.
  destruct (for_parts_step part items rt st) as [H | [(e & H) | (c & s & H)]];
    rewrite H.
  - apply IH.
  - exists []. simpl. rewrite app_nil_r. split; [reflexivity | exact P_nil].
  - destruct (IH rt {| result := result st ++ c :: s;
                       trace := (trace st ++ [Append (c :: s)])
                                ++ [Print (c :: s)] |})
      as (new & T & Pn).
    exists ([Append (c :: s); Print (c :: s)] ++ new).
    rewrite T. simpl. rewrite <- !app_assoc. split; [reflexivity|].
    apply (P_app [Append (c :: s); Print (c :: s)] new);
      [apply P_fragment | exact Pn].
Qed.

Lemma keeps_handle_event_data (event_data : str) :
  keeps P (ApiClient.handle_event_data event_data).
Proof.
  unfold ApiClient.handle_event_data.
  apply keeps_bind; try assumption.
  { apply keeps_unchanged; try assumption. reflexivity. }
  intros event. apply keeps_bind; try assumption.
  { apply keeps_py_and; try assumption.
    - apply keeps_py_get_default; assumption.
    - apply keeps_bind; try assumption.
      + apply keeps_py_getitem; assumption.
      + intros ec. apply keeps_py_get_default; assumption. }
  intros c. destruct (truthy c); [|apply keeps_ret; assumption].
  apply keeps_bind; try assumption; [apply keeps_py_getitem; assumption|].
  intros ec.
  apply keeps_bind; try assumption; [apply keeps_py_getitem; assumption|].
  intros ps.
  apply keeps_bind; try assumption; [apply keeps_py_iter; assumption|].
  intros items. apply keeps_for_parts.
Qed.

Lemma keeps_process_line (line : bytes) :
  keeps P (ApiClient.process_line line).
Proof.
  unfold ApiClient.process_line.
  apply keeps_bind; try assumption.
  { destruct (bytes_decode line);
      [apply keeps_ret | apply keeps_raise]; assumption. }
  intros decoded.
  destruct (startswith (strip decoded) (u "data: "));
    [|apply keeps_ret; assumption].
  destruct (skipn 6 (strip decoded)) as [|c p]; [apply keeps_ret; assumption|].
  apply keeps_try_except; try assumption;
    [apply keeps_handle_event_data|].
  intros e; destruct e; (apply keeps_ret || apply keeps_raise); assumption.
Qed.

End KeepsDecoder.

Lemma lines_read_app (a b : list effect) :
  lines_read (a ++ b) = lines_read a ++ lines_read b.
Proof. apply flat_map_app. Qed.

Lemma only_fragments_lines_read (t : list effect) :
  only_fragments t -> lines_read t = [].
Proof.
  induction 1 as [|e t He _ IH]; [reflexivity|].
  destruct e; try contradiction; exact IH.
Qed.

Lemma process_line_only_fragments (line : bytes) :
  keeps only_fragments (ApiClient.process_line line).
Proof.
  apply keeps_process_line.
  - constructor.
  - intros a b Ha Hb. apply Forall_app. split; assumption.
  - intros c s. repeat constructor.
Qed.

(** The loop reads the lines of the stream in order, one at a time: when
    it returns it has read them all, when it raises it has read the lines
    up to and including the one that raised, and no other. *)
Lemma for_lines_reads_in_order (lines : list bytes) (rt : runtime) :
  forall st,
  exists new,
    trace (snd (ApiClient.for_lines lines rt st)) = trace st ++ new
    /\ match fst (ApiClient.for_lines lines rt st) with
       | Return _ => lines_read new = lines
       | Raise _ =>
         exists before line after,
           lines = before ++ line :: after
           /\ lines_read new = before ++ [line]
       end.
Proof.
  induction lines as [|line lines IH]; intros st.
  - exists []. simpl. rewrite app_nil_r. split; reflexivity.
  - set (st1 := {| result := result st; trace := trace st ++ [ReadLine line] |}).
    assert (E : ApiClient.for_lines (line :: lines) rt st
                = match ApiClient.process_line line rt st1 with
                  | (Return _, st2) => ApiClient.for_lines lines rt st2
                  | (Raise e, st2) => (Raise e, st2)
                  end) by reflexivity.
    rewrite E. clear E.
    destruct (process_line_only_fragments line rt st1) as (n1 & T1 & P1).
    apply only_fragments_lines_read in P1.
    destruct (ApiClient.process_line line rt st1) as [[[]|e] st2]; simpl in *.
    + destruct (IH st2) as (n2 & T2 & H2).
      exists (ReadLine line :: n1 ++ n2).
      rewrite T2, T1. rewrite <- !app_assoc. simpl.
      split; [reflexivity|].
      rewrite lines_read_app, P1. simpl.
      revert H2. destruct (fst (ApiClient.for_lines lines rt st2)); intros H2.
      * now rewrite H2.
      * destruct H2 as (before & l & after & Hl & Hr).
        exists (line :: before), l, after. subst lines. rewrite Hr.
        split; reflexivity.
    + exists (ReadLine line :: n1). rewrite T1.
      rewrite <- app_assoc. simpl. split; [reflexivity|].
      exists [], line, lines. rewrite P1. split; reflexivity.
Qed.

Lemma for_lines_keeps (P : list effect -> Prop) (lines : list bytes) :
  P [] -> (forall a b, P a -> P b -> P (a ++ b)) ->
  (forall c s, P [Append (c :: s); Print (c :: s)]) ->
  (forall l, P [ReadLine l]) ->
  keeps P (ApiClient.for_lines lines).
Proof.
  intros P_nil P_app P_fragment P_read.
  induction lines as [|line lines IH]; simpl; [now apply keeps_ret|].
  apply keeps_bind; try assumption; [now apply keeps_emit|].
  intros _. apply keeps_bind; try assumption; [now apply keeps_process_line|].
  intros _. exact IH.
Qed.

(** X4. No empty fragment is ever appended or written: a part whose
    text is the empty string leaves no trace at all, whatever the stream
    and whether the call returns or raises. *)
Theorem streaming_never_writes_empty
  (self : ApiClient.t) (app_name user_id session_id message : str)
  (rt : runtime) (st : state) :
  exists new,
    trace (snd (ApiClient.run_agent_streaming self app_name user_id
                  session_id message rt st))
    = trace st ++ new
    /\ fragments_not_empty new.
Proof.
  destruct (ApiClient.session self) as [s|] eqn:Hs.
  2:{ unfold ApiClient.run_agent_streaming. rewrite Hs.
      exists []. simpl. rewrite app_nil_r. split; constructor. }
  rewrite (run_agent_streaming_unfold _ _ _ _ _ _ _ s Hs).
  set (rq := streaming_request self app_name user_id session_id message).
  set (resp := server rt rq).
  destruct (status resp >=? 400)%Z.
  { exists [Request rq]. split; [reflexivity|]. repeat constructor. }
  set (st1 := {| result := []; trace := trace st ++ [Request rq] |}).
  destruct (for_lines_keeps fragments_not_empty (content resp)) with
    (rt := rt) (st := st1) as (new & T & Pn).
  - constructor.
  - intros a b Ha Hb. apply Forall_app. split; assumption.
  - intros c x. repeat constructor; discriminate.
  - intros l. repeat constructor.
  - exists (Request rq :: new).
    destruct (ApiClient.for_lines (content resp) rt st1) as [[[]|e] st2];
      simpl in *; rewrite T, <- app_assoc; (split; [reflexivity|]);
      constructor; (exact I || exact Pn).
Qed.

(** X5. After the one request that opens it, the stream is read line by
    line in order and nothing else happens but appending and writing
    fragments: when the call returns every line has been read once, when
    it raises the lines read are those up to and including the line
    that raised, and the rest of the stream is left unread. *)
Theorem streaming_reads_in_order
  (self : ApiClient.t) (app_name user_id session_id message : str)
  (rt : runtime) (st : state) (s : ApiClient.ClientSession) :
  ApiClient.session self = Some s ->
  let rq := streaming_request self app_name user_id session_id message in
  let resp := server rt rq in
  let run :=
    ApiClient.run_agent_streaming self app_name user_id session_id message
      rt st in
  (status resp < 400)%Z ->
  exists new,
    trace (snd run) = trace st ++ Request rq :: new
    /\ decoder_effects new
    /\ match fst run with
       | Return _ => lines_read new = content resp
       | Raise _ =>
         exists before line after,
           content resp = before ++ line :: after
           /\ lines_read new = before ++ [line]
       end.
Proof.
  intros Hs rq resp run Hstatus. subst run.
  rewrite (run_agent_streaming_unfold _ _ _ _ _ _ _ s Hs).
  fold rq. fold resp.
  destruct (status resp >=? 400)%Z eqn:E.
  { rewrite Z.geb_leb in E. apply Z.leb_le in E. lia. }
  set (st1 := {| result := []; trace := trace st ++ [Request rq] |}).
  destruct (for_lines_reads_in_order (content resp) rt st1) as (new & T & H).
  destruct (for_lines_keeps decoder_effects (content resp)) with
    (rt := rt) (st := st1) as (new' & T' & Pn).
  - constructor.
  - intros a b Ha Hb. apply Forall_app. split; assumption.
  - intros c x. repeat constructor.
  - intros l. repeat constructor.
  - assert (new' = new) as ->.
    { rewrite T in T'. now apply app_inv_head in T'. }
    exists new.
    destruct (ApiClient.for_lines (content resp) rt st1) as [[[]|e] st2];
      simpl in *; rewrite T, <- app_assoc; repeat split; assumption.
Qed.

Lemma streaming_reads_in_order_example :
  let run :=
    ApiClient.run_agent_streaming client0 (u "app") (u "user") (u "s1")
      (u "hello") (fixed_runtime (stream_response hello_stream)) initial in
  exists new,
    trace (snd run)
    = Request (streaming_request client0 (u "app") (u "user") (u "s1")
                 (u "hello")) :: new
    /\ lines_read new = readlines hello_stream.
Proof.
  intros run.
  destruct (streaming_reads_in_order client0 (u "app") (u "user") (u "s1")
              (u "hello") (fixed_runtime (stream_response hello_stream))
              initial ApiClient.ClientSession_new eq_refl
              ltac:(vm_compute; reflexivity)) as (new & T & _ & L).
  exists new. split; [exact T|].
  assert (E : fst (ApiClient.run_agent_streaming client0 (u "app")
                     (u "user") (u "s1") (u "hello")
                     (fixed_runtime (stream_response hello_stream)) initial)
              = Return (u "Hello")) by (vm_compute; reflexivity).
  rewrite E in L. exact L.
Defined.

(** X6. Without a session [run_agent_streaming] does not reach the
    guard of [_request]: it raises [AttributeError], where [_request]
    raises [RuntimeError]; like [_request] it issues no request and
    changes nothing. *)
Theorem streaming_without_session
  (self : ApiClient.t) (app_name user_id session_id message : str)
  (rt : runtime) (st : state) :
  ApiClient.session self = None ->
  ApiClient.run_agent_streaming self app_name user_id session_id message rt st
  = (Raise AttributeError, st)
  /\ ApiClient.run_agent self app_name user_id session_id message true rt st
     = (Raise not_initialized, st).
Proof.
  intros Hs. unfold ApiClient.run_agent_streaming, ApiClient.run_agent,
    ApiClient._request. rewrite Hs. split; reflexivity.
Qed.

Lemma streaming_without_session_example :
  ApiClient.session (ApiClient.__init__ (u "http://localhost:8000")) = None
  /\ ApiClient.run_agent_streaming
       (ApiClient.__init__ (u "http://localhost:8000")) (u "app") (u "user")
       (u "s1") (u "hello") (fixed_runtime (stream_response hello_stream))
       initial
     = (Raise AttributeError, initial).
Proof.
  split; [reflexivity|].
  apply (proj1 (streaming_without_session
                  (ApiClient.__init__ (u "http://localhost:8000")) (u "app")
                  (u "user") (u "s1") (u "hello")
                  (fixed_runtime (stream_response hello_stream)) initial
                  eq_refl)).
Defined.

(** ** The one-shot operations *)

Ltac unfold_ops :=
  unfold ApiClient.list_apps, ApiClient.create_session,
    ApiClient.get_session, ApiClient.list_sessions,
    ApiClient.delete_session, ApiClient.run_agent,
    ApiClient.list_artifacts, ApiClient.get_artifact,
    ApiClient.upload_artifact, ApiClient.delete_artifact,
    ApiClient.list_eval_sets, ApiClient.create_eval_set,
    ApiClient.list_evals_in_set.

(** Every operation is [_request] at some endpoint that begins with a
    slash, with the verb of the table, followed or not by discarding the
    value. *)
Lemma call_unfold (self : ApiClient.t) (op : operation)
  (rt : runtime) (st : state) :
  match local_file op with
  | Some path => open_rb rt path <> None
  | None => True
  end ->
  exists endpoint kw,
    call self op rt st
    = (if returns_nothing op
       then ApiClient._request self (op_method op) (47 :: endpoint) kw ;;
            ret PNone
       else ApiClient._request self (op_method op) (47 :: endpoint) kw) rt st.
Proof.
  intros Hfile.
  destruct op; simpl in *; unfold_ops.
  - exists (u "list-apps"), NoBody. reflexivity.
  - eexists (if truthy (ApiClient.opt_str_value session_id)
             then u "apps/" ++ app_name ++ u "/users/" ++ user_id
                  ++ u "/sessions/" ++ ApiClient.opt_str_format session_id
             else u "apps/" ++ app_name ++ u "/users/" ++ user_id
                  ++ u "/sessions"), _.
    destruct (truthy (ApiClient.opt_str_value session_id)); reflexivity.
  - exists ((u "apps/" ++ app_name ++ u "/users/" ++ user_id ++ u "/sessions")
            ++ u "/" ++ session_id), NoBody. reflexivity.
  - exists (u "apps/" ++ app_name ++ u "/users/" ++ user_id ++ u "/sessions"),
      NoBody. reflexivity.
  - exists ((u "apps/" ++ app_name ++ u "/users/" ++ user_id ++ u "/sessions")
            ++ u "/" ++ session_id), NoBody. reflexivity.
  - eexists (u "run"), _. reflexivity.
  - exists (((u "apps/" ++ app_name ++ u "/users/" ++ user_id ++ u "/sessions")
               ++ u "/" ++ session_id) ++ u "/artifacts"), NoBody. reflexivity.
  - exists (match version with
            | Some v =>
              (((u "apps/" ++ app_name ++ u "/users/" ++ user_id ++ u "/sessions")
               ++ u "/" ++ session_id) ++ u "/artifacts")
              ++ u "/" ++ artifact_name ++ u "/versions/" ++ str_of_Z v
            | None =>
              (((u "apps/" ++ app_name ++ u "/users/" ++ user_id ++ u "/sessions")
               ++ u "/" ++ session_id) ++ u "/artifacts")
              ++ u "/" ++ artifact_name
            end), NoBody.
    destruct version; reflexivity.
  - unfold bind at 1, open_file.
    destruct (open_rb rt file_path) as [data|]; [|contradiction].
    eexists ((((u "apps/" ++ app_name ++ u "/users/" ++ user_id ++ u "/sessions")
               ++ u "/" ++ session_id) ++ u "/artifacts")
             ++ u "/upload"), _. reflexivity.
  - exists ((((u "apps/" ++ app_name ++ u "/users/" ++ user_id ++ u "/sessions")
               ++ u "/" ++ session_id) ++ u "/artifacts")
            ++ u "/" ++ artifact_name), NoBody. reflexivity.
  - exists (u "apps/" ++ app_name ++ u "/eval_sets"), NoBody. reflexivity.
  - exists (u "apps/" ++ app_name ++ u "/eval_sets/" ++ eval_set_id), NoBody.
    reflexivity.
  - exists (u "apps/" ++ app_name ++ u "/eval_sets/" ++ eval_set_id
            ++ u "/evals"), NoBody. reflexivity.
Qed.

(** X7. With a session, every one-shot operation issues exactly one
    request and has no other effect; the request carries the verb of the
    operation and a URL made of the base URL and an endpoint that begins
    with a slash; and a status of 400 or more makes the operation raise
    the HTTP error of that status and body. *)
Theorem operation_issues_one_request
  (self : ApiClient.t) (op : operation) (rt : runtime) (st : state)
  (s : ApiClient.ClientSession) :
  ApiClient.session self = Some s ->
  match local_file op with
  | Some path => open_rb rt path <> None
  | None => True
  end ->
  exists rq,
    snd (call self op rt st)
    = {| result := result st; trace := trace st ++ [Request rq] |}
    /\ method rq = op_method op
    /\ (exists endpoint, url rq = ApiClient.base_url self ++ 47 :: endpoint)
    /\ ((400 <= status (server rt rq))%Z ->
        fst (call self op rt st)
        = Raise (ClickException
                   (u "HTTP " ++ str_of_Z (status (server rt rq)) ++ u ": "
                    ++ text (server rt rq)))).
Proof.
  intros Hs Hfile.
  destruct (call_unfold self op rt st Hfile) as (endpoint & kw & E).
  exists {| method := op_method op;
            url := ApiClient.base_url self ++ 47 :: endpoint; body := kw |}.
  rewrite E. clear E.
  pose proof (request_unfold self (op_method op) (47 :: endpoint) kw rt st s
                Hs) as R. cbv zeta in R.
  set (rq := {| method := op_method op;
                url := ApiClient.base_url self ++ 47 :: endpoint;
                body := kw |}) in *.
  assert (Hge : (400 <= status (server rt rq))%Z ->
                (status (server rt rq) >=? 400)%Z = true).
  { intros H. rewrite Z.geb_leb. now apply Z.leb_le. }
  destruct (returns_nothing op).
  - unfold bind. rewrite R.
    destruct (status (server rt rq) >=? 400)%Z eqn:Eg.
    + repeat split; try reflexivity. now exists endpoint.
    + repeat split; try (intros H; apply Hge in H; discriminate).
      * destruct (str_eqb _ _); [destruct (json (server rt rq))|];
          reflexivity.
      * now exists endpoint.
  - rewrite R. repeat split; try reflexivity; [now exists endpoint|].
    intros H. now rewrite (Hge H).
Qed.

Lemma operation_issues_one_request_example :
  exists rq,
    snd (call client0 (DeleteSession (u "app") (u "bob") (u "s1"))
           (fixed_runtime not_found) initial)
    = {| result := []; trace := [Request rq] |}
    /\ method rq = u "DELETE"
    /\ fst (call client0 (DeleteSession (u "app") (u "bob") (u "s1"))
              (fixed_runtime not_found) initial)
       = Raise (ClickException (u "HTTP 404: session not found")).
Proof.
  destruct (operation_issues_one_request client0
              (DeleteSession (u "app") (u "bob") (u "s1"))
              (fixed_runtime not_found) initial ApiClient.ClientSession_new
              eq_refl I) as (rq & S & M & _ & E).
  exists rq. split; [exact S|]. split; [exact M|].
  rewrite E; [vm_compute; reflexivity | vm_compute; discriminate].
Defined.

(** X8. What a one-shot operation returns when the status is below
    400: the three operations that delete or create without a result
    return [None] whatever the body holds; every other one returns the
    parsed body of a JSON response and the wrapper [{"text": body}] of
    any other response. An error of [json()] is raised by all of them. *)
Theorem operation_results
  (self : ApiClient.t) (op : operation) (rt : runtime) (st : state)
  (s : ApiClient.ClientSession) :
  ApiClient.session self = Some s ->
  match local_file op with
  | Some path => open_rb rt path <> None
  | None => True
  end ->
  exists rq,
    snd (call self op rt st) = issued rq st
    /\ ((status (server rt rq) < 400)%Z ->
        let answer :=
          if str_eqb (content_type (server rt rq)) (u "application/json")
          then json (server rt rq)
          else Return (PDict [(u "text", PStr (text (server rt rq)))]) in
        fst (call self op rt st)
        = match answer with
          | Return v => Return (if returns_nothing op then PNone else v)
          | Raise e => Raise e
          end).
Proof.
  intros Hs Hfile.
  destruct (call_unfold self op rt st Hfile) as (endpoint & kw & E).
  exists {| method := op_method op;
            url := ApiClient.base_url self ++ 47 :: endpoint; body := kw |}.
  rewrite E. clear E.
  pose proof (request_unfold self (op_method op) (47 :: endpoint) kw rt st s
                Hs) as R. cbv zeta in R.
  set (rq := {| method := op_method op;
                url := ApiClient.base_url self ++ 47 :: endpoint;
                body := kw |}) in *.
  assert (Hlt : (status (server rt rq) < 400)%Z ->
                (status (server rt rq) >=? 400)%Z = false).
  { intros H. rewrite Z.geb_leb. now apply Z.leb_gt. }
  destruct (returns_nothing op).
  - unfold bind. rewrite R. split.
    + destruct (status (server rt rq) >=? 400)%Z; [reflexivity|].
      destruct (str_eqb _ _); [destruct (json (server rt rq))|]; reflexivity.
    + intros H. rewrite (Hlt H). cbv zeta.
      destruct (str_eqb _ _); [destruct (json (server rt rq))|]; reflexivity.
  - rewrite R. split; [reflexivity|].
    intros H. rewrite (Hlt H). cbv zeta. simpl.
    destruct (str_eqb _ _); [destruct (json (server rt rq))|]; reflexivity.
Qed.

Lemma operation_results_example :
  fst (call client0 ListApps
         (fixed_runtime
            (text_response 200 (u "application/json") (u (dq "['a']"))))
         initial)
  = Return (PList [PStr (u "a")])
  /\ fst (call client0 (CreateEvalSet (u "app") (u "e1"))
            (fixed_runtime
               (text_response 200 (u "application/json") (u (dq "['a']"))))
            initial)
     = Return PNone.
Proof.
  split.
  - destruct (operation_results client0 ListApps
                (fixed_runtime
                   (text_response 200 (u "application/json")
                      (u (dq "['a']"))))
                initial ApiClient.ClientSession_new eq_refl I)
      as (rq & _ & H).
    rewrite (H ltac:(vm_compute; reflexivity)). vm_compute. reflexivity.
  - destruct (operation_results client0 (CreateEvalSet (u "app") (u "e1"))
                (fixed_runtime
                   (text_response 200 (u "application/json")
                      (u (dq "['a']"))))
                initial ApiClient.ClientSession_new eq_refl I)
      as (rq & _ & H).
    rewrite (H ltac:(vm_compute; reflexivity)). vm_compute. reflexivity.
Defined.

(** ** Uploading *)

Lemma basename_from_spec (path : str) :
  forall cur,
    ~ In 47 cur ->
    ~ In 47 (basename_from cur path)
    /\ exists dir,
        cur ++ path = dir ++ basename_from cur path
        /\ (dir = [] \/ exists d, dir = d ++ [47]).
Proof.
  induction path as [|c path IH]; intros cur Hcur; simpl.
  - split; [exact Hcur|]. exists []. rewrite app_nil_r. auto.
  - destruct (c =? 47) eqn:E.
    + apply N.eqb_eq in E. subst c.
      destruct (IH [] (fun H => H)) as (Hno & dir & Hd & Hlast).
      simpl in Hd. split; [exact Hno|].
      exists (cur ++ 47 :: dir). split.
      * rewrite <- app_assoc. simpl. do 2 f_equal. exact Hd.
      * right. destruct Hlast as [-> | (d & ->)].
        -- now exists cur.
        -- exists (cur ++ 47 :: d). now rewrite <- app_assoc.
    + apply N.eqb_neq in E.
      destruct (IH (cur ++ [c])) as (Hno & dir & Hd & Hlast).
      { intros H. apply in_app_or in H as [H | [H | []]]; congruence. }
      split; [exact Hno|]. exists dir. rewrite <- app_assoc in Hd.
      split; assumption.
Qed.

(** X9. [upload_artifact] opens the local file before anything else:
    when it cannot be opened the call raises and no request is issued,
    with or without a session. When it can, the file is sent once under
    the field [file]; without a name (or with an empty one) its file name
    is the part of the path after the last slash, which holds no slash,
    and no field [filename] is sent; with a name, that name is the file
    name and is sent again as the field [filename]. *)
Theorem upload_artifact_fields
  (self : ApiClient.t) (app_name user_id session_id file_path : str)
  (artifact_name : option str) (rt : runtime) (st : state) :
  (open_rb rt file_path = None ->
   ApiClient.upload_artifact self app_name user_id session_id file_path
     artifact_name rt st
   = (Raise FileNotFoundError, st))
  /\ (forall data s,
         open_rb rt file_path = Some data ->
         ApiClient.session self = Some s ->
         exists rq filename extra,
           snd (ApiClient.upload_artifact self app_name user_id session_id
                  file_path artifact_name rt st)
           = issued rq st
           /\ body rq = Data (FileField (u "file") data filename :: extra)
           /\ (truthy (ApiClient.opt_str_value artifact_name) = false ->
               extra = []
               /\ ~ In 47 filename
               /\ exists dir,
                   file_path = dir ++ filename
                   /\ (dir = [] \/ exists d, dir = d ++ [47]))
           /\ (truthy (ApiClient.opt_str_value artifact_name) = true ->
               artifact_name = Some filename
               /\ extra = [TextField (u "filename") filename])).
Proof.
  unfold ApiClient.upload_artifact, bind, open_file. split.
  - intros ->. reflexivity.
  - intros data s -> Hs.
    match goal with
    | |- context [ApiClient._request self ?m ?e ?k] =>
      rewrite (request_unfold self m e k rt st s Hs)
    end.
    cbv zeta. eexists. eexists. eexists.
    split; [reflexivity|]. split; [reflexivity|].
    destruct artifact_name as [[|c n]|]; simpl; split;
      try discriminate; intros _;
      try (split; [reflexivity|];
           destruct (basename_from_spec file_path [] (fun H => H))
             as (Hno & dir & Hd & Hlast);
           split; [exact Hno|]; exists dir; split; assumption).
    split; reflexivity.
Qed.

Lemma upload_artifact_fields_example :
  ApiClient.upload_artifact client0 (u "app") (u "bob") (u "s1")
    (u "/tmp/report.txt") None (fixed_runtime not_found) initial
  = (Raise FileNotFoundError, initial)
  /\ exists rq filename,
       snd (ApiClient.upload_artifact client0 (u "app") (u "bob") (u "s1")
              (u "/tmp/report.txt") None
              (file_runtime not_found "abc"%string) initial)
       = issued rq initial
       /\ body rq = Data [FileField (u "file") "abc"%string filename]
       /\ ~ In 47 filename.
Proof.
  split.
  - apply (proj1 (upload_artifact_fields client0 (u "app") (u "bob")
                    (u "s1") (u "/tmp/report.txt") None
                    (fixed_runtime not_found) initial)).
    reflexivity.
  - destruct (proj2 (upload_artifact_fields client0 (u "app") (u "bob")
                       (u "s1") (u "/tmp/report.txt") None
                       (file_runtime not_found "abc"%string) initial)
                "abc"%string ApiClient.ClientSession_new eq_refl eq_refl)
      as (rq & filename & extra & S & B & N & _).
    destruct (N eq_refl) as (Ex & Hno & _). subst extra.
    exists rq, filename. repeat split; assumption.
Defined.

(** ** Versions of an artifact *)

Lemma u_injective (a b : string) : u a = u b -> a = b.
Proof.
  unfold u. intros H.
  rewrite <- (string_of_list_ascii_of_string a),
          <- (string_of_list_ascii_of_string b).
  f_equal. revert H.
  generalize (list_ascii_of_string a) (list_ascii_of_string b).
  intros l; induction l as [|x l IH]; intros [|y l'] H; simpl in H;
    try discriminate; [reflexivity|].
  injection H as Hx Hl. f_equal; [|now apply IH].
  rewrite <- (ascii_N_embedding x), <- (ascii_N_embedding y). now f_equal.
Qed.

Lemma str_of_Z_injective (a b : Z) : str_of_Z a = str_of_Z b -> a = b.
Proof.
  unfold str_of_Z. intros H. apply u_injective in H.
  apply (f_equal NilZero.int_of_string) in H.
  assert (Hn : forall z, NilZero.int_of_string
                           (NilZero.string_of_int (Z.to_int z))
                         = Some (Z.to_int z)).
  { intros z. apply NilZero.isi; destruct z; simpl; try discriminate;
      intros [= E]; now apply Unsigned.to_uint_nonnil in E. }
  rewrite !Hn in H. injection H as H. now apply DecimalZ.to_int_inj.
Qed.

(** X10. [get_artifact] asks for a version whenever one is given, the
    version 0 included (the test is [is not None], not truth): the URL
    then differs from the URL of the latest artifact, and two different
    versions never share a URL. *)
Theorem get_artifact_versions
  (self : ApiClient.t) (app_name user_id session_id artifact_name : str)
  (rt : runtime) (st : state) (s : ApiClient.ClientSession) :
  ApiClient.session self = Some s ->
  let latest :=
    ApiClient.base_url self
    ++ ApiClient.artifacts_endpoint app_name user_id session_id ++ u "/"
    ++ artifact_name in
  let requested version :=
    snd (ApiClient.get_artifact self app_name user_id session_id
           artifact_name version rt st) in
  requested None
  = issued {| method := u "GET"; url := latest; body := NoBody |} st
  /\ (forall v,
         requested (Some v)
         = issued {| method := u "GET";
                     url := latest ++ u "/versions/" ++ str_of_Z v;
                     body := NoBody |} st)
  /\ (forall v, requested (Some v) <> requested None)
  /\ (forall v w, requested (Some v) = requested (Some w) -> v = w).
Proof.
  intros Hs latest requested.
  assert (Hnone : requested None
                  = issued {| method := u "GET"; url := latest;
                              body := NoBody |} st).
  { unfold requested, ApiClient.get_artifact.
    rewrite (request_unfold self _ _ _ rt st s Hs). reflexivity. }
  assert (Hsome : forall v,
             requested (Some v)
             = issued {| method := u "GET";
                         url := latest ++ u "/versions/" ++ str_of_Z v;
                         body := NoBody |} st).
  { intros v. unfold requested, ApiClient.get_artifact.
    rewrite (request_unfold self _ _ _ rt st s Hs). cbv zeta. cbn [snd].
    unfold latest. rewrite <- !app_assoc. reflexivity. }
  split; [exact Hnone|]. split; [exact Hsome|]. split.
  - intros v H. rewrite Hsome, Hnone in H. unfold issued in H.
    injection H as H. apply app_inv_head in H. injection H as H.
    apply app_not_longer in H. discriminate.
  - intros v w H. rewrite !Hsome in H. unfold issued in H.
    injection H as H. apply app_inv_head in H. injection H as H.
    apply app_inv_head in H.
    apply (app_inv_head (u "/versions/")) in H.
    now apply str_of_Z_injective.
Qed.

Lemma get_artifact_versions_example :
  snd (ApiClient.get_artifact client0 (u "app") (u "bob") (u "s1")
         (u "report") (Some 0%Z) (fixed_runtime not_found) initial)
  <> snd (ApiClient.get_artifact client0 (u "app") (u "bob") (u "s1")
            (u "report") None (fixed_runtime not_found) initial).
Proof.
  destruct (get_artifact_versions client0 (u "app") (u "bob") (u "s1")
              (u "report") (fixed_runtime not_found) initial
              ApiClient.ClientSession_new eq_refl) as (_ & _ & H & _).
  apply H.
Defined.

(** ** The events of [agent run] *)

Lemma concat_filter_nonempty (l : list str) :
  List.concat (filter nonempty l) = List.concat l.
Proof.
  induction l as [|s l IH]; simpl; [reflexivity|].
  destruct s; simpl; [exact IH | now rewrite IH].
Qed.

Lemma filter_nonempty_nil (l : list str) :
  filter nonempty l = [] <-> existsb nonempty l = false.
Proof.
  induction l as [|s l IH]; simpl; [tauto|].
  destruct (nonempty s); simpl; [split; discriminate | exact IH].
Qed.

Lemma py_join_strings (l : list str) (rt : runtime) (st : state) :
  py_join (map PStr l) rt st = (Return (List.concat l), st).
Proof.
  induction l as [|s l IH]; simpl; [reflexivity|].
  unfold bind. rewrite IH. reflexivity.
Qed.

Ltac step :=
  repeat (progress (unfold bind, ret, raise, py_get, py_get_default,
                      py_getitem, py_and, py_iter, py_str, click_echo, emit,
                      of_outcome, try_except;
                    cbn beta iota zeta)).

Lemma cli_for_parts_shaped (items : list pyval) (rt : runtime) (st : state) :
  forall acc,
    forallb part_shaped items = true ->
    Cli.for_parts items acc rt st
    = (Return (acc ++ map PStr (filter nonempty
                                  (flat_map part_text_values items))), st).
Proof.
  induction items as [|part items IH]; intros acc H.
  - simpl. now rewrite app_nil_r.
  - cbn [forallb] in H. apply andb_true_iff in H as [Hp Hrest].
    cbn [Cli.for_parts flat_map].
    destruct part; cbn [part_shaped] in Hp; try discriminate.
    cbn [part_text_values]. step.
    destruct (dict_lookup entries (u "text")) as [v|] eqn:E; step;
      [|apply (IH acc Hrest)].
    destruct (truthy v) eqn:Tv; step.
    + destruct v; simpl in Hp, Tv;
        try discriminate; try (rewrite Tv in Hp; discriminate).
      destruct s as [|c s]; [discriminate|].
      rewrite (IH _ Hrest). simpl. now rewrite <- app_assoc.
    + rewrite (IH acc Hrest).
      destruct v; try reflexivity.
      destruct s; [reflexivity | discriminate].
Qed.

Lemma for_events_step (event : pyval) (events : list pyval)
  (rt : runtime) (st : state) :
  event_shaped event = true ->
  Cli.for_events (event :: events) rt st
  = Cli.for_events events rt
      {| result := result st;
         trace := trace st ++ map Echo (rendered rt event) |}.
Proof.
  intros He.
  assert (Hskip : Cli.for_events events rt st
                  = Cli.for_events events rt
                      {| result := result st;
                         trace := trace st ++ map Echo [] |}).
  { simpl. rewrite app_nil_r. now destruct st. }
  cbn [Cli.for_events].
  destruct event as [ | | | | | |d]; cbn [event_shaped] in He;
    try discriminate.
  unfold rendered, author_shown. cbn [event_text_values].
  step.
  destruct (dict_lookup d (u "content")) as [c|] eqn:Ec; step;
    [|exact Hskip].
  destruct c as [ | b | z | f | s0 | l | cd ]; cbn [content_shaped] in He;
    try (apply negb_true_iff in He; simpl in He |- *; rewrite ?He; step;
         simpl; rewrite ?He; exact Hskip).
  destruct cd as [|kv cd]; [exact Hskip|].
  simpl truthy. step.
  destruct (dict_lookup (kv :: cd) (u "parts")) as [ps|] eqn:Ep; step;
    [|exact Hskip].
  destruct ps as [ | b | z | f | s0 | items | pd ];
    try (apply negb_true_iff in He; simpl in He |- *; rewrite ?He; step;
         simpl; rewrite ?He; exact Hskip).
  destruct (truthy (PList items)) eqn:Tp;
    change (truthy (PDict (kv :: cd))) with true; step; rewrite ?Tp; step.
  2:{ destruct items; [exact Hskip | discriminate]. }
  rewrite (cli_for_parts_shaped items rt st [] He).
  cbn [app].
  destruct (filter nonempty (flat_map part_text_values items))
    as [|t ts] eqn:Ef.
  - apply filter_nonempty_nil in Ef. rewrite Ef. step. exact Hskip.
  - assert (Hex : existsb nonempty (flat_map part_text_values items)
                  = true).
    { destruct (existsb nonempty (flat_map part_text_values items))
        eqn:Ex; [reflexivity|].
      apply filter_nonempty_nil in Ex. congruence. }
    rewrite Hex. cbn [map].
    change (PStr t :: map PStr ts) with (map PStr (t :: ts)).
    rewrite <- Ef.
    assert (Hjoin : forall st0,
               py_join (map PStr (filter nonempty
                                    (flat_map part_text_values items)))
                 rt st0
               = (Return (List.concat
                            (flat_map part_text_values items)),
                  st0)).
    { intros st0. rewrite py_join_strings, concat_filter_nonempty.
      reflexivity. }
    destruct (dict_lookup d (u "author")) as [a|] eqn:Ea; step;
      rewrite Hjoin; step; [destruct a|]; reflexivity.
Qed.

(** The loop over shaped events prints the line of each, in order. *)
Lemma for_events_shaped (events : list pyval) (rt : runtime) :
  forallb event_shaped events = true ->
  forall st,
    Cli.for_events events rt st
    = (Return tt,
       {| result := result st;
          trace := trace st ++ map Echo (flat_map (rendered rt) events) |}).
Proof.
  induction events as [|event events IH]; intros H st.
  - simpl. rewrite app_nil_r. now destruct st.
  - cbn [forallb] in H. apply andb_true_iff in H as [He Hrest].
    rewrite (for_events_step event events rt st He), (IH Hrest).
    cbn [result trace flat_map]. now rewrite map_app, app_assoc.
Qed.

(** ** The commands *)

Lemma request_answers_json (self : ApiClient.t) (method endpoint : str)
  (kw : kwargs) (rt : runtime) (st : state) (s : ApiClient.ClientSession)
  (v : pyval) :
  ApiClient.session self = Some s ->
  answers_json rt v ->
  ApiClient._request self method endpoint kw rt st
  = (Return v,
     issued {| method := method; url := ApiClient.base_url self ++ endpoint;
               body := kw |} st).
Proof.
  intros Hs H. rewrite (request_unfold self method endpoint kw rt st s Hs).
  cbv zeta. destruct (H {| method := method;
                           url := ApiClient.base_url self ++ endpoint;
                           body := kw |}) as (H1 & H2 & H3).
  rewrite H2, str_eqb_refl, H3.
  destruct (status _ >=? 400)%Z eqn:E; [|reflexivity].
  rewrite Z.geb_leb in E. apply Z.leb_le in E. lia.
Qed.

Lemma request_answers_text (self : ApiClient.t) (method endpoint : str)
  (kw : kwargs) (rt : runtime) (st : state) (s : ApiClient.ClientSession)
  (body : str) :
  ApiClient.session self = Some s ->
  answers_text rt body ->
  ApiClient._request self method endpoint kw rt st
  = (Return (PDict [(u "text", PStr body)]),
     issued {| method := method; url := ApiClient.base_url self ++ endpoint;
               body := kw |} st).
Proof.
  intros Hs H. rewrite (request_unfold self method endpoint kw rt st s Hs).
  cbv zeta. destruct (H {| method := method;
                           url := ApiClient.base_url self ++ endpoint;
                           body := kw |}) as (H1 & H2 & H3).
  rewrite H3.
  destruct (status _ >=? 400)%Z eqn:E.
  { rewrite Z.geb_leb in E. apply Z.leb_le in E. lia. }
  destruct (str_eqb _ _) eqn:C; [|reflexivity].
  apply str_eqb_eq in C. contradiction.
Qed.

Lemma request_answers_error (self : ApiClient.t) (method endpoint : str)
  (kw : kwargs) (rt : runtime) (st : state) (s : ApiClient.ClientSession)
  (code : Z) (body : str) :
  ApiClient.session self = Some s ->
  answers_error rt code body ->
  (400 <= code)%Z ->
  ApiClient._request self method endpoint kw rt st
  = (Raise (ClickException (u "HTTP " ++ str_of_Z code ++ u ": " ++ body)),
     issued {| method := method; url := ApiClient.base_url self ++ endpoint;
               body := kw |} st).
Proof.
  intros Hs H Hc. rewrite (request_unfold self method endpoint kw rt st s Hs).
  cbv zeta. destruct (H {| method := method;
                           url := ApiClient.base_url self ++ endpoint;
                           body := kw |}) as (H1 & H2).
  unfold ApiClient.http_error. rewrite H1, H2.
  destruct (code >=? 400)%Z eqn:E; [reflexivity|].
  rewrite Z.geb_leb in E. apply Z.leb_gt in E. lia.
Qed.

Lemma echo_items_strings (names : list str) (rt : runtime) (st : state) :
  Cli.echo_items (map PStr names) rt st
  = (Return tt,
     {| result := result st;
        trace := trace st ++ map (fun n => Echo (u "  - " ++ n)) names |}).
Proof.
  revert st; induction names as [|n names IH]; intros st; simpl.
  - rewrite app_nil_r. now destruct st.
  - unfold bind, py_str, click_echo, emit. rewrite IH. simpl.
    now rewrite <- app_assoc.
Qed.

Lemma call_answers_json (self : ApiClient.t) (op : operation)
  (rt : runtime) (st : state) (s : ApiClient.ClientSession) (v : pyval) :
  ApiClient.session self = Some s ->
  match local_file op with
  | Some path => open_rb rt path <> None
  | None => True
  end ->
  answers_json rt v ->
  exists rq,
    method rq = op_method op
    /\ call self op rt st
       = (Return (if returns_nothing op then PNone else v), issued rq st).
Proof.
  intros Hs Hfile H.
  destruct (call_unfold self op rt st Hfile) as (endpoint & kw & E).
  exists {| method := op_method op;
            url := ApiClient.base_url self ++ 47 :: endpoint; body := kw |}.
  split; [reflexivity|]. rewrite E.
  destruct (returns_nothing op); unfold bind;
    rewrite (request_answers_json self _ _ kw rt st s v Hs H); reflexivity.
Qed.

Lemma call_answers_text (self : ApiClient.t) (op : operation)
  (rt : runtime) (st : state) (s : ApiClient.ClientSession) (body : str) :
  ApiClient.session self = Some s ->
  match local_file op with
  | Some path => open_rb rt path <> None
  | None => True
  end ->
  answers_text rt body ->
  exists rq,
    method rq = op_method op
    /\ call self op rt st
       = (Return (if returns_nothing op then PNone
                  else PDict [(u "text", PStr body)]), issued rq st).
Proof.
  intros Hs Hfile H.
  destruct (call_unfold self op rt st Hfile) as (endpoint & kw & E).
  exists {| method := op_method op;
            url := ApiClient.base_url self ++ 47 :: endpoint; body := kw |}.
  split; [reflexivity|]. rewrite E.
  destruct (returns_nothing op); unfold bind;
    rewrite (request_answers_text self _ _ kw rt st s body Hs H);
    reflexivity.
Qed.

Lemma call_answers_error (self : ApiClient.t) (op : operation)
  (rt : runtime) (st : state) (s : ApiClient.ClientSession)
  (code : Z) (body : str) :
  ApiClient.session self = Some s ->
  match local_file op with
  | Some path => open_rb rt path <> None
  | None => True
  end ->
  answers_error rt code body ->
  (400 <= code)%Z ->
  exists rq,
    method rq = op_method op
    /\ call self op rt st
       = (Raise (ClickException
                   (u "HTTP " ++ str_of_Z code ++ u ": " ++ body)),
          issued rq st).
Proof.
  intros Hs Hfile H Hc.
  destruct (call_unfold self op rt st Hfile) as (endpoint & kw & E).
  exists {| method := op_method op;
            url := ApiClient.base_url self ++ 47 :: endpoint; body := kw |}.
  split; [reflexivity|]. rewrite E.
  destruct (returns_nothing op); unfold bind;
    rewrite (request_answers_error self _ _ kw rt st s code body Hs H Hc);
    reflexivity.
Qed.

(** A command that goes to the server first is its operation followed by
    the rendering of what the operation returned. *)
Lemma command_unfold (base_url : str) (cmd : command) (rt : runtime) :
  request_first rt cmd ->
  (match local_file (operation_of cmd) with
   | Some path => open_rb rt path <> None
   | None => True
   end)
  /\ exists k,
       run_command base_url cmd
       = bind (call (ApiClient.__aenter__ (ApiClient.__init__ base_url))
                 (operation_of cmd)) k.
Proof.
  intros H.
  destruct cmd; simpl in H; try subst streaming;
    (split; [exact H || exact I | eexists; reflexivity]).
Qed.

(** Closes a goal on the answers of a fixed runtime. *)
Ltac answers := intros ?; repeat split; vm_compute;
  try reflexivity; try discriminate.

(** X11. When the server answers with a status of 400 or more, every
    command that goes to the server first stops with the HTTP error of
    that status and body, after its one request and without printing
    anything. *)
Theorem command_http_error (base_url : str) (cmd : command)
  (rt : runtime) (st : state) (code : Z) (body : str) :
  request_first rt cmd ->
  answers_error rt code body ->
  (400 <= code)%Z ->
  exists rq,
    run_command base_url cmd rt st
    = (Raise (ClickException (u "HTTP " ++ str_of_Z code ++ u ": " ++ body)),
       {| result := result st; trace := trace st ++ [Request rq] |}).
Proof.
  intros Hf He Hc.
  destruct (command_unfold base_url cmd rt Hf) as (Hfile & k & E).
  destruct (call_answers_error
              (ApiClient.__aenter__ (ApiClient.__init__ base_url))
              (operation_of cmd) rt st _ code body eq_refl Hfile He Hc)
    as (rq & _ & C).
  exists rq. rewrite E. unfold bind. rewrite C. reflexivity.
Qed.

Lemma command_http_error_example :
  exists rq,
    run_command (u "http://localhost:8000")
      (SessionDelete (u "app") (u "bob") (u "s1"))
      (fixed_runtime not_found) initial
    = (Raise (ClickException (u "HTTP 404: session not found")),
       {| result := []; trace := [Request rq] |}).
Proof.
  destruct (command_http_error (u "http://localhost:8000")
              (SessionDelete (u "app") (u "bob") (u "s1"))
              (fixed_runtime not_found) initial 404 (u "session not found")
              I ltac:(answers) ltac:(lia)) as (rq & E).
  exists rq. rewrite E. vm_compute. reflexivity.
Defined.

Lemma listing_trace (t : list effect) (r : effect) (h : str)
  (f : str -> str) (l : list str) :
  ((t ++ [r]) ++ [Echo h]) ++ map (fun n => Echo (f n)) l
  = t ++ r :: map Echo (h :: map f l).
Proof.
  rewrite <- !app_assoc. simpl. now rewrite map_map.
Qed.

(** X12. A listing command whose response is a JSON array of strings
    issues one GET request and prints its heading followed by one line
    for each name, in the order of the array; for the empty array it
    prints only the line that says nothing was found. *)
Theorem listing_prints_names (base_url : str) (cmd : command)
  (header empty : str) (names : list str) (rt : runtime) (st : state) :
  listing cmd = Some (header, empty) ->
  answers_json rt (PList (map PStr names)) ->
  exists rq,
    method rq = u "GET"
    /\ run_command base_url cmd rt st
       = (Return tt,
          {| result := result st;
             trace :=
               trace st
               ++ Request rq
                  :: map Echo
                       match names with
                       | [] => [empty]
                       | _ :: _ =>
                         header :: map (fun n => u "  - " ++ n) names
                       end |}).
Proof.
  intros Hl Hj.
  destruct cmd; simpl in Hl; try discriminate;
    injection Hl as <- <-;
    match goal with
    | |- context [run_command _ ?c] =>
      destruct (call_answers_json
                  (ApiClient.__aenter__ (ApiClient.__init__ base_url))
                  (operation_of c) rt st _ _ eq_refl I Hj)
        as (rq & Hm & E)
    end;
    cbn [operation_of call op_method returns_nothing] in E, Hm;
    exists rq; (split; [exact Hm|]);
    unfold run_command, Cli.list_apps, Cli.list_artifacts,
      Cli.list_eval_sets, Cli.list_evals_in_set, bind;
    rewrite E;
    (destruct names as [|n names];
     [ simpl; unfold click_echo, emit, issued; simpl;
       now rewrite <- app_assoc
     | change (PList (map PStr (n :: names)))
         with (PList (PStr n :: map PStr names));
       cbn [truthy py_iter]; unfold click_echo, emit, ret, issued;
       cbn [result trace];
       change (PStr n :: map PStr names) with (map PStr (n :: names));
       rewrite echo_items_strings; cbn [result trace];
       do 2 f_equal; apply listing_trace ]).
Qed.

Lemma listing_prints_names_example :
  exists rq,
    method rq = u "GET"
    /\ run_command (u "http://localhost:8000") AppList
         (fixed_runtime
            (text_response 200 (u "application/json") (u (dq "['a','b']"))))
         initial
       = (Return tt,
          {| result := [];
             trace := [Request rq; Echo (u "Available apps:");
                       Echo (u "  - a"); Echo (u "  - b")] |}).
Proof.
  destruct (listing_prints_names (u "http://localhost:8000") AppList
              (u "Available apps:") (u "No apps found.") [u "a"; u "b"]
              (fixed_runtime
                 (text_response 200 (u "application/json")
                    (u (dq "['a','b']"))))
              initial eq_refl ltac:(answers)) as (rq & M & E).
  exists rq. split; [exact M|]. rewrite E. vm_compute. reflexivity.
Defined.

(** X13. A listing command whose response is not JSON prints its heading
    and then the one item [text], the key under which the transport
    wraps the body, whatever the body says. *)
Theorem listing_of_text_response (base_url : str) (cmd : command)
  (header empty body : str) (rt : runtime) (st : state) :
  listing cmd = Some (header, empty) ->
  answers_text rt body ->
  exists rq,
    run_command base_url cmd rt st
    = (Return tt,
       {| result := result st;
          trace :=
            trace st ++ [Request rq; Echo header; Echo (u "  - text")] |}).
Proof.
  intros Hl Hj.
  destruct cmd; simpl in Hl; try discriminate;
    injection Hl as <- <-;
    match goal with
    | |- context [run_command _ ?c] =>
      destruct (call_answers_text
                  (ApiClient.__aenter__ (ApiClient.__init__ base_url))
                  (operation_of c) rt st _ _ eq_refl I Hj)
        as (rq & Hm & E)
    end;
    cbn [operation_of call op_method returns_nothing] in E, Hm;
    exists rq;
    unfold run_command, Cli.list_apps, Cli.list_artifacts,
      Cli.list_eval_sets, Cli.list_evals_in_set, bind;
    rewrite E; simpl; unfold bind, click_echo, emit, py_str, ret, issued;
    simpl; rewrite <- !app_assoc; reflexivity.
Qed.

Lemma listing_of_text_response_example :
  exists rq,
    run_command (u "http://localhost:8000") AppList
      (fixed_runtime (text_response 200 (u "text/plain") (u "pong")))
      initial
    = (Return tt,
       {| result := [];
          trace := [Request rq; Echo (u "Available apps:");
                    Echo (u "  - text")] |}).
Proof.
  destruct (listing_of_text_response (u "http://localhost:8000") AppList
              (u "Available apps:") (u "No apps found.") (u "pong")
              (fixed_runtime (text_response 200 (u "text/plain") (u "pong")))
              initial eq_refl ltac:(answers)) as (rq & E).
  exists rq. rewrite E. reflexivity.
Defined.

(** X14. A command that deletes or creates, when the status is below
    400: if the response is not of the content type [application/json],
    or is and its [json()] gives a value, the command prints its one
    confirmation line after the request, and what the body holds plays
    no part; if the response is JSON and [json()] raises (a body that
    does not parse), the command stops with that error after the
    request and prints no confirmation. *)
Theorem confirmation_after_success (base_url : str) (cmd : command)
  (message : str) (rt : runtime) (st : state) :
  confirmation cmd = Some message ->
  (forall rq, (status (server rt rq) < 400)%Z) ->
  exists rq,
    let answer :=
      if str_eqb (content_type (server rt rq)) (u "application/json")
      then json (server rt rq)
      else Return (PDict [(u "text", PStr (text (server rt rq)))]) in
    run_command base_url cmd rt st
    = match answer with
      | Return _ =>
        (Return tt,
         {| result := result st;
            trace := trace st ++ [Request rq; Echo message] |})
      | Raise e =>
        (Raise e,
         {| result := result st; trace := trace st ++ [Request rq] |})
      end.
Proof.
  intros Hc Hst.
  set (client := ApiClient.__aenter__ (ApiClient.__init__ base_url)).
  assert (Hcall : forall op, local_file op = None ->
                    returns_nothing op = true ->
                    exists rq,
                      call client op rt st
                      = (match
                            (if str_eqb (content_type (server rt rq))
                                  (u "application/json")
                             then json (server rt rq)
                             else Return (PDict [(u "text",
                                                  PStr (text (server rt rq)))]))
                          with
                          | Return _ => Return PNone
                          | Raise e => Raise e
                          end, issued rq st)).
  { intros op Hf Hn.
    assert (Hfile : match local_file op with
                    | Some path => open_rb rt path <> None
                    | None => True
                    end) by now rewrite Hf.
    destruct (call_unfold client op rt st Hfile) as (endpoint & kw & E).
    exists {| method := op_method op;
              url := ApiClient.base_url client ++ 47 :: endpoint;
              body := kw |}.
    rewrite E, Hn. unfold bind.
    rewrite (request_unfold client (op_method op) (47 :: endpoint) kw rt st
               ApiClient.ClientSession_new eq_refl).
    cbv zeta.
    match goal with
    | |- context [(status ?r >=? 400)%Z] =>
      replace (status r >=? 400)%Z with false
    end.
    2:{ symmetry. rewrite Z.geb_leb. apply Z.leb_gt. apply Hst. }
    destruct (str_eqb _ _); [|reflexivity].
    destruct (json _); reflexivity. }
  destruct cmd; simpl in Hc; try discriminate;
    injection Hc as <-;
    match goal with
    | |- context [run_command _ ?c] =>
      destruct (Hcall (operation_of c) eq_refl eq_refl) as (rq & E)
    end;
    cbn [operation_of call] in E; exists rq; cbv zeta;
    unfold run_command, Cli.delete_session, Cli.delete_artifact,
      Cli.create_eval_set, bind;
    fold client; rewrite E;
    (destruct (if str_eqb (content_type (server rt rq))
                    (u "application/json")
               then json (server rt rq)
               else Return (PDict [(u "text", PStr (text (server rt rq)))]));
     unfold click_echo, emit, issued; simpl;
     rewrite <- ?app_assoc; reflexivity).
Qed.

Lemma confirmation_after_success_example :
  (exists rq,
      run_command (u "http://localhost:8000")
        (EvalCreateSet (u "app") (u "e1"))
        (fixed_runtime (text_response 200 (u "text/plain") (u "pong")))
        initial
      = (Return tt,
         {| result := [];
            trace := [Request rq; Echo (u "Created evaluation set: e1")] |}))
  /\ (exists rq,
         run_command (u "http://localhost:8000")
           (SessionDelete (u "app") (u "bob") (u "s1"))
           (fixed_runtime
              (text_response 200 (u "application/json") (u "not json")))
           initial
         = (Raise JSONDecodeError,
            {| result := []; trace := [Request rq] |})).
Proof.
  split.
  - destruct (confirmation_after_success (u "http://localhost:8000")
                (EvalCreateSet (u "app") (u "e1"))
                (u "Created evaluation set: e1")
                (fixed_runtime
                   (text_response 200 (u "text/plain") (u "pong")))
                initial eq_refl ltac:(intros ?; vm_compute; reflexivity))
      as (rq & E).
    exists rq. rewrite E. reflexivity.
  - destruct (confirmation_after_success (u "http://localhost:8000")
                (SessionDelete (u "app") (u "bob") (u "s1"))
                (u "Deleted session: s1")
                (fixed_runtime
                   (text_response 200 (u "application/json") (u "not json")))
                initial eq_refl ltac:(intros ?; vm_compute; reflexivity))
      as (rq & E).
    exists rq. rewrite E. reflexivity.
Defined.

(** X15. The command [agent run --streaming] never reaches the server: it
    prints the user's line, and the next call, [click.echo] with the
    keyword [end] that it does not have, raises [TypeError]. *)
Theorem streaming_flag_raises
  (base_url app_name user_id session_id message : str)
  (rt : runtime) (st : state) :
  Cli.run_agent base_url app_name user_id session_id message true rt st
  = (Raise TypeError,
     {| result := result st;
        trace := trace st ++ [Echo (u "[" ++ user_id ++ u "]: " ++ message)]
     |})
  /\ requests (trace (snd (Cli.run_agent base_url app_name user_id
                             session_id message true rt st)))
     = requests (trace st).
Proof.
  assert (E : Cli.run_agent base_url app_name user_id session_id message
                true rt st
              = (Raise TypeError,
                 {| result := result st;
                    trace := trace st
                             ++ [Echo (u "[" ++ user_id ++ u "]: "
                                       ++ message)] |}))
    by reflexivity.
  split; [exact E|]. rewrite E. cbn [snd trace].
  unfold requests. rewrite flat_map_app. simpl. now rewrite app_nil_r.
Qed.

(** X16. The command [agent run] without [--streaming], when the response
    is a JSON array of events of the shape the decoder accepts: it issues
    the one request to [/run], prints the user's line and then one line
    for each event that has some non-empty text, in order: the author in
    brackets, [agent] when the event names none, followed by the
    concatenation of the text values of the event, the same text the
    streaming decoder appends for it. *)
Theorem agent_run_renders_events
  (base_url app_name user_id session_id message : str)
  (events : list pyval) (rt : runtime) (st : state) :
  let rq :=
    run_request_of (ApiClient.__aenter__ (ApiClient.__init__ base_url))
      app_name user_id session_id message false in
  (status (server rt rq) < 400)%Z ->
  content_type (server rt rq) = u "application/json" ->
  json (server rt rq) = Return (PList events) ->
  forallb event_shaped events = true ->
  Cli.run_agent base_url app_name user_id session_id message false rt st
  = (Return tt,
     {| result := result st;
        trace :=
          trace st
          ++ Request rq
             :: Echo (u "[" ++ user_id ++ u "]: " ++ message)
             :: map Echo (flat_map (rendered rt) events) |}).
Proof.
  intros rq Hs Hc Hj He.
  unfold Cli.run_agent, ApiClient.run_agent.
  set (client := ApiClient.__aenter__ (ApiClient.__init__ base_url)) in *.
  unfold bind at 1.
  pose proof (request_unfold client (u "POST") (u "/run")
                (JsonRun {| rq_app_name := app_name; rq_user_id := user_id;
                            rq_session_id := session_id;
                            rq_new_message := ApiClient.user_content message;
                            rq_streaming := false |})
                rt st _ eq_refl) as R.
  cbv zeta in R. fold (run_request_of client app_name user_id session_id
                         message false) in R. fold rq in R.
  rewrite Hc, str_eqb_refl, Hj in R.
  replace (status (server rt rq) >=? 400)%Z with false in R
    by (symmetry; rewrite Z.geb_leb; apply Z.leb_gt; exact Hs).
  cbv zeta. rewrite R.
  unfold bind, click_echo, emit, py_iter, ret, issued. cbn [result trace].
  rewrite (for_events_shaped events rt He). cbn [result trace].
  now rewrite <- !app_assoc.
Qed.

Lemma agent_run_renders_events_example :
  printed_lines
    (trace (snd (Cli.run_agent (u "http://localhost:8000") (u "app")
                   (u "bob") (u "s1") (u "hello") false
                   (fixed_runtime
                      (text_response 200 (u "application/json")
                         three_events))
                   initial)))
  = [u "[bob]: hello"; u "[bot]: ab"; u "[agent]: c"].
Proof.
  rewrite (agent_run_renders_events (u "http://localhost:8000") (u "app")
             (u "bob") (u "s1") (u "hello")
             match json_outcome three_events with
             | Return (PList events) => events
             | _ => []
             end
             (fixed_runtime
                (text_response 200 (u "application/json") three_events))
             initial ltac:(vm_compute; reflexivity) eq_refl
             ltac:(vm_compute; reflexivity) ltac:(vm_compute; reflexivity)).
  vm_compute. reflexivity.
Defined.

Lemma echo_sessions_lines (sessions : list pydict) (rt : runtime)
  (st : state) :
  Cli.echo_sessions (map PDict sessions) rt st
  = (if forallb has_id sessions then Return tt else Raise KeyError,
     {| result := result st;
        trace := trace st ++ map Echo (session_lines rt sessions) |}).
Proof.
  revert st; induction sessions as [|d sessions IH]; intros st.
  - simpl. rewrite app_nil_r. now destruct st.
  - cbn [map Cli.echo_sessions forallb session_lines]. unfold has_id at 1.
    step. destruct (dict_lookup d (u "id")) as [id|] eqn:Ei; step.
    + destruct (dict_lookup d (u "created_at")) as [created|]; step;
        rewrite IH; cbn [result trace map andb];
        rewrite <- app_assoc; reflexivity.
    + simpl. rewrite app_nil_r. now destruct st.
Qed.

(** X17. The command [session list], when the response is a non-empty JSON
    array of objects: it prints the heading and then one line for each
    session, with its [id] and its [created_at], [unknown] when it has
    none. A session without [id] stops the command with [KeyError],
    after the lines of the sessions before it. *)
Theorem session_list_lines (base_url app_name user_id : str)
  (sessions : list pydict) (rt : runtime) (st : state) :
  sessions <> [] ->
  answers_json rt (PList (map PDict sessions)) ->
  exists rq,
    run_command base_url (SessionList app_name user_id) rt st
    = (if forallb has_id sessions then Return tt else Raise KeyError,
       {| result := result st;
          trace :=
            trace st
            ++ Request rq
               :: Echo (u "Sessions for " ++ user_id ++ u " in " ++ app_name
                        ++ u ":")
               :: map Echo (session_lines rt sessions) |}).
Proof.
  intros Hne Hj.
  destruct (call_answers_json
              (ApiClient.__aenter__ (ApiClient.__init__ base_url))
              (ListSessions app_name user_id) rt st _ _ eq_refl I Hj)
    as (rq & _ & E).
  cbn [call returns_nothing] in E. exists rq.
  unfold run_command, Cli.list_sessions, bind. rewrite E.
  destruct sessions as [|d sessions]; [contradiction|].
  change (truthy (PList (map PDict (d :: sessions)))) with true.
  cbn iota. unfold click_echo, emit, py_iter, ret, issued.
  cbn [result trace]. rewrite echo_sessions_lines. cbn [result trace].
  now rewrite <- !app_assoc.
Qed.

Lemma session_list_lines_example :
  exists rq,
    run_command (u "http://localhost:8000")
      (SessionList (u "app") (u "bob"))
      (fixed_runtime
         (text_response 200 (u "application/json") two_sessions_json))
      initial
    = (Return tt,
       {| result := [];
          trace := [Request rq; Echo (u "Sessions for bob in app:");
                    Echo (u "  - s1 (created: today)");
                    Echo (u "  - s2 (created: unknown)")] |}).
Proof.
  destruct (session_list_lines (u "http://localhost:8000") (u "app")
              (u "bob") two_sessions
              (fixed_runtime
                 (text_response 200 (u "application/json")
                    two_sessions_json))
              initial ltac:(vm_compute; discriminate) ltac:(answers)) as (rq & E).
  exists rq. rewrite E. vm_compute. reflexivity.
Defined.

(** X18. The command [artifact upload], when the file can be read: a JSON
    object with [filename] and [size] gives the two lines of the report;
    a response that is not JSON, although the upload was made and the
    status is below 400, stops the command with [KeyError] and prints
    nothing. *)
Theorem upload_report
  (base_url app_name user_id session_id file_path : str)
  (name : option str) (rt : runtime) (st : state) :
  open_rb rt file_path <> None ->
  (forall d filename size,
      answers_json rt (PDict d) ->
      dict_lookup d (u "filename") = Some filename ->
      dict_lookup d (u "size") = Some size ->
      exists rq,
        method rq = u "POST"
        /\ run_command base_url
             (ArtifactUpload app_name user_id session_id file_path name)
             rt st
           = (Return tt,
              {| result := result st;
                 trace :=
                   trace st
                   ++ [Request rq;
                       Echo (u "Uploaded artifact: " ++ shown rt filename);
                       Echo (u "Size: " ++ shown rt size ++ u " bytes")]
              |}))
  /\ (forall body,
         answers_text rt body ->
         exists rq,
           method rq = u "POST"
           /\ run_command base_url
                (ArtifactUpload app_name user_id session_id file_path name)
                rt st
              = (Raise KeyError,
                 {| result := result st;
                    trace := trace st ++ [Request rq] |})).
Proof.
  intros Hfile. split.
  - intros d filename size Hj Hf Hz.
    destruct (call_answers_json
                (ApiClient.__aenter__ (ApiClient.__init__ base_url))
                (UploadArtifact app_name user_id session_id file_path name)
                rt st _ _ eq_refl Hfile Hj)
      as (rq & Hm & E).
    cbn [call returns_nothing op_method] in E, Hm. exists rq.
    split; [exact Hm|].
    unfold run_command, Cli.upload_artifact, bind. rewrite E.
    unfold py_getitem. rewrite Hf, Hz. unfold shown.
    unfold bind, of_outcome, ret, py_str, click_echo, emit, issued.
    cbn [result trace]. now rewrite <- !app_assoc.
  - intros body Hj.
    destruct (call_answers_text
                (ApiClient.__aenter__ (ApiClient.__init__ base_url))
                (UploadArtifact app_name user_id session_id file_path name)
                rt st _ _ eq_refl Hfile Hj)
      as (rq & Hm & E).
    cbn [call returns_nothing op_method] in E, Hm. exists rq.
    split; [exact Hm|].
    unfold run_command, Cli.upload_artifact, bind. rewrite E.
    reflexivity.
Qed.

Lemma upload_report_example :
  exists rq,
    run_command (u "http://localhost:8000")
      (ArtifactUpload (u "app") (u "bob") (u "s1") (u "/tmp/report.txt")
         None)
      (file_runtime (text_response 200 (u "text/plain") (u "stored"))
         "abc"%string)
      initial
    = (Raise KeyError, {| result := []; trace := [Request rq] |}).
Proof.
  destruct (upload_report (u "http://localhost:8000") (u "app") (u "bob")
              (u "s1") (u "/tmp/report.txt") None
              (file_runtime (text_response 200 (u "text/plain") (u "stored"))
                 "abc"%string)
              initial ltac:(vm_compute; discriminate)) as [_ H].
  destruct (H (u "stored") ltac:(answers)) as (rq & _ & E).
  exists rq. exact E.
Defined.
